(** * BlurShield content script: mark persistence, restoration and mode machine

    A shallow embedding of the content script's [BlurAnything] class, of
    the background worker's storage handlers and of the freemium limits,
    followed by the properties of the mark store, the locator synthesizer,
    the effect applier, the restoration pass and the interaction modes. *)

From stdpp Require Import base strings list gmap pretty.
From Stdlib Require Import ZArith Lia Ascii.

Set Default Proof Using "Type".

(** ** Data model *)

(** [interface BlurData]: [type] is the tag, [coords] and [text] are the
    optional fields. *)
Inductive BlurType := TypeElement | TypeArea | TypeText.

Record Coords := mkCoords { x : Z; y : Z; width : Z; height : Z }.

Record BlurData := mkBlurData {
  selector : string;
  type : BlurType;
  coords : option Coords;
  text : option string;
  timestamp : Z;
}.

#[global] Instance BlurType_eq_dec : EqDecision BlurType.
Proof. solve_decision. Defined.
#[global] Instance Coords_eq_dec : EqDecision Coords.
Proof. solve_decision. Defined.
#[global] Instance BlurData_eq_dec : EqDecision BlurData.
Proof. solve_decision. Defined.

(** A box in page coordinates, and the live preview rectangle: its box is
    unset until the first [handleMouseMove]. *)
Record DOMRect := mkRect { left : Z; top : Z; rectWidth : Z; rectHeight : Z }.

Record DrawingOverlay := mkOverlay { box : option DOMRect }.

(** Fields of [class BlurAnything].  [cursor] is [document.body.style.cursor]
    and [toolbarDisplayFlex] is [floatingToolbar.style.display === "flex"];
    [textListeners] counts the listeners registered by
    [setupTextSelectionMode]. *)
Record BlurAnything := mkBlurAnything {
  isEnabled : bool;
  blurIntensity : Z;
  blurredElements : list BlurData;
  isBlurMode : bool;
  isDrawingMode : bool;
  isTextSelectionMode : bool;
  isEraserMode : bool;
  blursHidden : bool;
  blursToCleanup : list nat;
  startCoords : option (Z * Z);
  drawingOverlay : option DrawingOverlay;
  toolbarDisplayFlex : bool;
  cursor : string;
  textListeners : nat;
}.

(** Field initialisers of the class. *)
Definition newBlurAnything : BlurAnything :=
  {| isEnabled := false; blurIntensity := 10; blurredElements := [];
     isBlurMode := false; isDrawingMode := false;
     isTextSelectionMode := false; isEraserMode := false;
     blursHidden := false; blursToCleanup := [];
     startCoords := None; drawingOverlay := None;
     toolbarDisplayFlex := false; cursor := ""; textListeners := 0 |}.

Definition set_isEnabled (b : bool) (s : BlurAnything) : BlurAnything :=
  mkBlurAnything b (blurIntensity s) (blurredElements s) (isBlurMode s)
    (isDrawingMode s) (isTextSelectionMode s) (isEraserMode s) (blursHidden s)
    (blursToCleanup s) (startCoords s) (drawingOverlay s)
    (toolbarDisplayFlex s) (cursor s) (textListeners s).

Definition set_blurIntensity (i : Z) (s : BlurAnything) : BlurAnything :=
  mkBlurAnything (isEnabled s) i (blurredElements s) (isBlurMode s)
    (isDrawingMode s) (isTextSelectionMode s) (isEraserMode s) (blursHidden s)
    (blursToCleanup s) (startCoords s) (drawingOverlay s)
    (toolbarDisplayFlex s) (cursor s) (textListeners s).

Definition set_blurredElements (l : list BlurData) (s : BlurAnything)
  : BlurAnything :=
  mkBlurAnything (isEnabled s) (blurIntensity s) l (isBlurMode s)
    (isDrawingMode s) (isTextSelectionMode s) (isEraserMode s) (blursHidden s)
    (blursToCleanup s) (startCoords s) (drawingOverlay s)
    (toolbarDisplayFlex s) (cursor s) (textListeners s).

Definition set_modes (b d t e : bool) (s : BlurAnything) : BlurAnything :=
  mkBlurAnything (isEnabled s) (blurIntensity s) (blurredElements s) b d t e
    (blursHidden s) (blursToCleanup s) (startCoords s) (drawingOverlay s)
    (toolbarDisplayFlex s) (cursor s) (textListeners s).

Definition set_blursToCleanup (q : list nat) (s : BlurAnything)
  : BlurAnything :=
  mkBlurAnything (isEnabled s) (blurIntensity s) (blurredElements s)
    (isBlurMode s) (isDrawingMode s) (isTextSelectionMode s) (isEraserMode s)
    (blursHidden s) q (startCoords s) (drawingOverlay s)
    (toolbarDisplayFlex s) (cursor s) (textListeners s).

Definition set_drawing (c : option (Z * Z)) (o : option DrawingOverlay)
    (s : BlurAnything) : BlurAnything :=
  mkBlurAnything (isEnabled s) (blurIntensity s) (blurredElements s)
    (isBlurMode s) (isDrawingMode s) (isTextSelectionMode s) (isEraserMode s)
    (blursHidden s) (blursToCleanup s) c o
    (toolbarDisplayFlex s) (cursor s) (textListeners s).

Definition set_toolbarDisplayFlex (b : bool) (s : BlurAnything)
  : BlurAnything :=
  mkBlurAnything (isEnabled s) (blurIntensity s) (blurredElements s)
    (isBlurMode s) (isDrawingMode s) (isTextSelectionMode s) (isEraserMode s)
    (blursHidden s) (blursToCleanup s) (startCoords s) (drawingOverlay s)
    b (cursor s) (textListeners s).

Definition set_cursor (c : string) (s : BlurAnything) : BlurAnything :=
  mkBlurAnything (isEnabled s) (blurIntensity s) (blurredElements s)
    (isBlurMode s) (isDrawingMode s) (isTextSelectionMode s) (isEraserMode s)
    (blursHidden s) (blursToCleanup s) (startCoords s) (drawingOverlay s)
    (toolbarDisplayFlex s) c (textListeners s).

Definition set_textListeners (n : nat) (s : BlurAnything) : BlurAnything :=
  mkBlurAnything (isEnabled s) (blurIntensity s) (blurredElements s)
    (isBlurMode s) (isDrawingMode s) (isTextSelectionMode s) (isEraserMode s)
    (blursHidden s) (blursToCleanup s) (startCoords s) (drawingOverlay s)
    (toolbarDisplayFlex s) (cursor s) n.

(** ** Interaction mode machine *)

(** The argument of [setExclusiveMode]. *)
Inductive ExclusiveMode := ModeBlur | ModeDraw | ModeText | ModeEraser | ModeNone.

#[global] Instance ExclusiveMode_eq_dec : EqDecision ExclusiveMode.
Proof. solve_decision. Defined.

(** [setupTextSelectionMode] registers two listeners.
    [cleanupTextSelectionMode] passes a fresh [bind] result to
    [removeEventListener], which matches no registered listener, so the
    count is unchanged. *)
Definition setupTextSelectionMode (s : BlurAnything) : BlurAnything :=
  set_textListeners (textListeners s + 2) s.

Definition cleanupTextSelectionMode (s : BlurAnything) : BlurAnything := s.

Definition setExclusiveMode (mode : ExclusiveMode) (s : BlurAnything)
  : BlurAnything :=
  if negb (isEnabled s) && negb (bool_decide (mode = ModeNone)) then s
  else
    let s := set_modes false false false false s in
    let s := set_cursor "default" s in
    let s := cleanupTextSelectionMode s in
    match mode with
    | ModeBlur => set_cursor "pointer" (set_modes true false false false s)
    | ModeDraw => set_cursor "crosshair" (set_modes false true false false s)
    | ModeText =>
        setupTextSelectionMode
          (set_cursor "text" (set_modes false false true false s))
    | ModeEraser => set_cursor "crosshair" (set_modes false false false true s)
    | ModeNone => s
    end.

(** Toolbar buttons of [setupToolbarEvents]. *)
Inductive ToolbarButton :=
  ToolbarBlurMode | ToolbarDrawMode | ToolbarTextMode | ToolbarEraserMode
| ToolbarClose.

Definition hideFloatingToolbar (s : BlurAnything) : BlurAnything :=
  set_toolbarDisplayFlex false s.

Definition showFloatingToolbar (s : BlurAnything) : BlurAnything :=
  if isEnabled s then set_toolbarDisplayFlex true s else s.

Definition toolbarClick (b : ToolbarButton) (s : BlurAnything) : BlurAnything :=
  match b with
  | ToolbarBlurMode =>
      if isBlurMode s then setExclusiveMode ModeNone s
      else setExclusiveMode ModeBlur s
  | ToolbarDrawMode =>
      if isDrawingMode s then setExclusiveMode ModeNone s
      else setExclusiveMode ModeDraw s
  | ToolbarTextMode =>
      if isTextSelectionMode s then setExclusiveMode ModeNone s
      else setExclusiveMode ModeText s
  | ToolbarEraserMode =>
      if isEraserMode s then setExclusiveMode ModeNone s
      else setExclusiveMode ModeEraser s
  | ToolbarClose => hideFloatingToolbar (setExclusiveMode ModeNone s)
  end.

(** Keyboard shortcuts of [handleKeyDown]. *)
Inductive Key := CtrlShiftB | Escape.

Definition handleKeyDown (k : Key) (s : BlurAnything) : BlurAnything :=
  if negb (isEnabled s) then s
  else match k with
       | CtrlShiftB =>
           if isDrawingMode s then setExclusiveMode ModeNone s
           else setExclusiveMode ModeDraw s
       | Escape =>
           if isDrawingMode s || isEraserMode s
           then set_drawing (startCoords (setExclusiveMode ModeNone s)) None
                  (setExclusiveMode ModeNone s)
           else s
       end.

(** The cases of [handleMessage] that assign a field of the mode machine.
    [settingsUpdated] carries [message.settings.isEnabled] and
    [message.settings.blurIntensity]; the calls that follow its two
    assignments ([updateBlurIntensity], [updateToolbarStates],
    [updateDisabledState]) write to the page, not to these fields. *)
Inductive Message :=
  MsgSettingsUpdated (enabled : bool) (intensity : Z)
| MsgToggleExtension | MsgToggleDrawMode | MsgToggleEraserMode
| MsgShowToolbar | MsgHideToolbar.

Definition handleMessage (m : Message) (s : BlurAnything) : BlurAnything :=
  match m with
  | MsgSettingsUpdated enabled intensity =>
      set_blurIntensity intensity (set_isEnabled enabled s)
  | MsgToggleExtension =>
      let s := set_isEnabled (negb (isEnabled s)) s in
      if negb (isEnabled s)
      then set_cursor "default"
             (hideFloatingToolbar
                (cleanupTextSelectionMode (set_modes false false false false s)))
      else setExclusiveMode ModeBlur s
  | MsgToggleDrawMode =>
      if negb (isEnabled s) then s
      else
        let s := set_modes (isBlurMode s) (negb (isDrawingMode s))
                   (isTextSelectionMode s) (isEraserMode s) s in
        set_cursor (if isDrawingMode s then "crosshair" else "default") s
  | MsgToggleEraserMode =>
      if negb (isEnabled s) then s
      else
        let s := set_modes (isBlurMode s) (isDrawingMode s)
                   (isTextSelectionMode s) (negb (isEraserMode s)) s in
        set_cursor (if isEraserMode s then "crosshair" else "default") s
  | MsgShowToolbar =>
      if isEnabled s then setExclusiveMode ModeBlur (showFloatingToolbar s)
      else s
  | MsgHideToolbar =>
      set_cursor "default"
        (cleanupTextSelectionMode
           (set_modes false false false false (hideFloatingToolbar s)))
  end.

(** One mode-changing operation, and a run of them. *)
Inductive ModeOp :=
  OpSetExclusiveMode (mode : ExclusiveMode)
| OpToolbarClick (b : ToolbarButton)
| OpKeyDown (k : Key)
| OpMessage (m : Message).

Definition modeStep (s : BlurAnything) (op : ModeOp) : BlurAnything :=
  match op with
  | OpSetExclusiveMode mode => setExclusiveMode mode s
  | OpToolbarClick b => toolbarClick b s
  | OpKeyDown k => handleKeyDown k s
  | OpMessage m => handleMessage m s
  end.

Definition runModeOps (s : BlurAnything) (ops : list ModeOp) : BlurAnything :=
  foldl modeStep s ops.

(** Number of gesture modes that are active. *)
Definition activeModes (s : BlurAnything) : nat :=
  Nat.b2n (isBlurMode s) + Nat.b2n (isDrawingMode s)
  + Nat.b2n (isTextSelectionMode s) + Nat.b2n (isEraserMode s).

(** Operations that go through [setExclusiveMode] or clear every flag. *)
Definition usesExclusiveSetter (op : ModeOp) : bool :=
  match op with
  | OpMessage MsgToggleDrawMode | OpMessage MsgToggleEraserMode => false
  | _ => true
  end.

(** ** Blur intensity *)

(** What [adjustBlurIntensity] does besides updating the field. *)
Inductive IntensityEffect :=
  ShowToolbarNotification (message : string)
| UpdateIntensityDisplay (shown : Z)
| UpdateBlurIntensity
| SaveIntensitySetting (saved : Z).

Definition adjustBlurIntensity (change : Z) (s : BlurAnything)
  : BlurAnything * list IntensityEffect :=
  let newIntensity := Z.max 1 (Z.min 10 (blurIntensity s + change)) in
  if (newIntensity =? blurIntensity s)%Z then
    (s,
     if (newIntensity =? 1)%Z
     then [ShowToolbarNotification "Minimum blur intensity (1px)"]
     else if (newIntensity =? 10)%Z
          then [ShowToolbarNotification "Maximum blur intensity (10px)"]
          else [])
  else
    let s := set_blurIntensity newIntensity s in
    (s,
     [UpdateIntensityDisplay (blurIntensity s);
      UpdateBlurIntensity;
      ShowToolbarNotification
        ("Blur intensity: " +:+ pretty (blurIntensity s) +:+ "px");
      SaveIntensitySetting (blurIntensity s)]).

Definition isNotification (e : IntensityEffect) : bool :=
  match e with ShowToolbarNotification _ => true | _ => false end.

(** ** Strings

    The JavaScript string operations the content script relies on. *)

Definition includes (needle hay : string) : bool :=
  match String.index 0 needle hay with Some _ => true | None => false end.

Definition startsWith (p s : string) : bool := String.prefix p s.

Definition isWhitespace (c : ascii) : bool :=
  let n := nat_of_ascii c in
  Nat.eqb n 32 || (Nat.leb 9 n && Nat.leb n 13).

Fixpoint trimStart (s : string) : string :=
  match s with
  | EmptyString => EmptyString
  | String c r => if isWhitespace c then trimStart r else s
  end.

Definition reverseString (s : string) : string :=
  String.string_of_list_ascii (rev (String.list_ascii_of_string s)).

Definition trimEnd (s : string) : string :=
  reverseString (trimStart (reverseString s)).

Definition trim (s : string) : string := trimEnd (trimStart s).

Definition endsWith (p s : string) : bool :=
  String.prefix (reverseString p) (reverseString s).

Definition dropChars (n : nat) (s : string) : string :=
  String.substring n (String.length s - n) s.

Definition toLowerAscii (c : ascii) : ascii :=
  let n := nat_of_ascii c in
  if Nat.leb 65 n && Nat.leb n 90 then ascii_of_nat (n + 32) else c.

Fixpoint toLowerCase (s : string) : string :=
  match s with
  | EmptyString => EmptyString
  | String c r => String (toLowerAscii c) (toLowerCase r)
  end.

(** Rest of [s] after the first [stop] character, if there is one. *)
Fixpoint afterFirst (stop : ascii) (s : string) : option string :=
  match s with
  | EmptyString => None
  | String c r => if Ascii.eqb c stop then Some r else afterFirst stop r
  end.

(** [s.replace(/blur\([^)]*\)/g, "")]. *)
Fixpoint removeBlurFunctionsFrom (fuel : nat) (s : string) : string :=
  match fuel with
  | O => s
  | S fuel =>
      match s with
      | EmptyString => EmptyString
      | String c r =>
          if startsWith "blur(" s then
            match afterFirst ")" (dropChars 5 s) with
            | Some rest => removeBlurFunctionsFrom fuel rest
            | None => String c (removeBlurFunctionsFrom fuel r)
            end
          else String c (removeBlurFunctionsFrom fuel r)
      end
  end.

Definition removeBlurFunctions (s : string) : string :=
  removeBlurFunctionsFrom (S (String.length s)) s.

(** [s.replace(/blur\([^)]*\)/g, by)]. *)
Fixpoint replaceBlurFunctionsFrom (fuel : nat) (by_ s : string) : string :=
  match fuel with
  | O => s
  | S fuel =>
      match s with
      | EmptyString => EmptyString
      | String c r =>
          if startsWith "blur(" s then
            match afterFirst ")" (dropChars 5 s) with
            | Some rest => by_ +:+ replaceBlurFunctionsFrom fuel by_ rest
            | None => String c (replaceBlurFunctionsFrom fuel by_ r)
            end
          else String c (replaceBlurFunctionsFrom fuel by_ r)
      end
  end.

(** Prefix [p] (given in lower case) of [s], compared without case. *)
Fixpoint matchIgnoreCase (p s : string) : option string :=
  match p, s with
  | EmptyString, _ => Some s
  | String a p', String b s' =>
      if Ascii.eqb a (toLowerAscii b) then matchIgnoreCase p' s' else None
  | String _ _, EmptyString => None
  end.

(** The text from the first [;] on (or the empty string). *)
Fixpoint fromSemicolon (s : string) : string :=
  match s with
  | EmptyString => EmptyString
  | String c r => if Ascii.eqb c ";" then s else fromSemicolon r
  end.

(** One match of [/filter\s*:\s*[^;]*/i] (followed by [;?] when
    [eatSemicolon]) at the start of [s]: the text after the match. *)
Definition matchFilterDeclaration (eatSemicolon : bool) (s : string)
  : option string :=
  match matchIgnoreCase "filter" s with
  | None => None
  | Some r =>
      match trimStart r with
      | String ":" r' =>
          let rest := fromSemicolon r' in
          Some (if eatSemicolon
                then match rest with String ";" t => t | _ => rest end
                else rest)
      | _ => None
      end
  end.

Fixpoint removeFilterDeclarationsFrom (fuel : nat) (eatSemicolon : bool)
    (s : string) : string :=
  match fuel with
  | O => s
  | S fuel =>
      match s with
      | EmptyString => EmptyString
      | String c r =>
          match matchFilterDeclaration eatSemicolon s with
          | Some rest => removeFilterDeclarationsFrom fuel eatSemicolon rest
          | None => String c (removeFilterDeclarationsFrom fuel eatSemicolon r)
          end
      end
  end.

(** [s.replace(/filter\s*:\s*[^;]*/gi, "")] and, with [eatSemicolon],
    [s.replace(/filter\s*:\s*[^;]*;?/gi, "")]. *)
Definition removeFilterDeclarations (eatSemicolon : bool) (s : string)
  : string :=
  removeFilterDeclarationsFrom (S (String.length s)) eatSemicolon s.

(** [s.replace(/;\s*;/g, ";")]. *)
Fixpoint collapseSemicolonsFrom (fuel : nat) (s : string) : string :=
  match fuel with
  | O => s
  | S fuel =>
      match s with
      | EmptyString => EmptyString
      | String c r =>
          if Ascii.eqb c ";" then
            match trimStart r with
            | String ";" t => String ";" (collapseSemicolonsFrom fuel t)
            | _ => String c (collapseSemicolonsFrom fuel r)
            end
          else String c (collapseSemicolonsFrom fuel r)
      end
  end.

Definition collapseSemicolons (s : string) : string :=
  collapseSemicolonsFrom (S (String.length s)) s.

Fixpoint dropLeadingSemicolons (s : string) : string :=
  match s with
  | String ";" r => dropLeadingSemicolons r
  | _ => s
  end.

(** [s.replace(/^;+|;+$/g, "")]. *)
Definition stripOuterSemicolons (s : string) : string :=
  reverseString
    (dropLeadingSemicolons (reverseString (dropLeadingSemicolons s))).

(** The template literal [`blur(${intensity}px)`]. *)
Definition blurFunction (intensity : Z) : string :=
  "blur(" +:+ pretty intensity +:+ "px)".

(** ** Document model *)

(** One declaration of an inline style. *)
Record Declaration := mkDeclaration {
  property : string;
  value : string;
  important : bool;
}.

#[global] Instance Declaration_eq_dec : EqDecision Declaration.
Proof. solve_decision. Defined.

(** Which DOM interface the element implements: only an [HTMLElement]
    passes [instanceof HTMLElement], and the [className] of an
    [SVGElement] is not a string. *)
Inductive ElementInterface := HTMLElement | SVGElement | OtherElement.

#[global] Instance ElementInterface_eq_dec : EqDecision ElementInterface.
Proof. solve_decision. Defined.

(** An element.  [tagName] is kept in lower case, as the source lower-cases
    it before use; [attributes] holds every attribute other than [id],
    [class] and [style]; [computedDisplay] and [computedVisibility] are
    what [getComputedStyle] reports. *)
Record Element := mkElement {
  tagName : string;
  id : string;
  classList : list string;
  attributes : list (string * string);
  style : list Declaration;
  computedDisplay : string;
  computedVisibility : string;
  interface : ElementInterface;
}.

Inductive NodeKind := ElementNode (e : Element) | TextNode (data : string).

(** A node with its identity and its parent; a document lists its nodes in
    document order. *)
Record Node := mkNode { uid : nat; parentNode : option nat; kind : NodeKind }.

Record Document := mkDocument { nodes : list Node; body : nat }.

Definition set_classList (l : list string) (e : Element) : Element :=
  mkElement (tagName e) (id e) l (attributes e) (style e)
    (computedDisplay e) (computedVisibility e) (interface e).

Definition set_attributes (l : list (string * string)) (e : Element)
  : Element :=
  mkElement (tagName e) (id e) (classList e) l (style e)
    (computedDisplay e) (computedVisibility e) (interface e).

Definition set_style (l : list Declaration) (e : Element) : Element :=
  mkElement (tagName e) (id e) (classList e) (attributes e) l
    (computedDisplay e) (computedVisibility e) (interface e).

Definition set_id (i : string) (e : Element) : Element :=
  mkElement (tagName e) i (classList e) (attributes e) (style e)
    (computedDisplay e) (computedVisibility e) (interface e).

Definition getNode (doc : Document) (u : nat) : option Node :=
  find (fun n => Nat.eqb (uid n) u) (nodes doc).

Definition asElement (n : Node) : option Element :=
  match kind n with ElementNode e => Some e | TextNode _ => None end.

Definition getElement (doc : Document) (u : nat) : option Element :=
  match getNode doc u with Some n => asElement n | None => None end.

Definition updateNode (u : nat) (f : Element -> Element) (n : Node) : Node :=
  if Nat.eqb (uid n) u then
    match kind n with
    | ElementNode e => mkNode (uid n) (parentNode n) (ElementNode (f e))
    | TextNode _ => n
    end
  else n.

Definition updateElement (doc : Document) (u : nat) (f : Element -> Element)
  : Document :=
  mkDocument (map (updateNode u f) (nodes doc)) (body doc).

(** [element.parentElement]. *)
Definition parentElement (doc : Document) (u : nat) : option nat :=
  match getNode doc u with
  | Some n =>
      match parentNode n with
      | Some p => match getElement doc p with Some _ => Some p | None => None end
      | None => None
      end
  | None => None
  end.

(** [parent.children]: the element children, in document order. *)
Definition children (doc : Document) (p : nat) : list nat :=
  map uid
    (filter (fun n => parentNode n = Some p /\ is_Some (asElement n))
       (nodes doc)).

(** A uid no node of the document carries. *)
Definition freshUid (doc : Document) : nat :=
  S (foldr Nat.max 0 (map uid (nodes doc))).

(** *** [classList], attributes and [CSSStyleDeclaration] *)

Definition contains (c : string) (e : Element) : bool :=
  bool_decide (c ∈ classList e).

Definition classListAdd (c : string) (e : Element) : Element :=
  if contains c e then e else set_classList (classList e ++ [c]) e.

Definition classListRemove (c : string) (e : Element) : Element :=
  set_classList (filter (fun c' => c' <> c) (classList e)) e.

Definition getAttribute (name : string) (e : Element) : option string :=
  snd <$> find (fun a => String.eqb (fst a) name) (attributes e).

Definition hasAttribute (name : string) (e : Element) : bool :=
  bool_decide (is_Some (getAttribute name e)).

Definition removeAttribute (name : string) (e : Element) : Element :=
  set_attributes (filter (fun a => fst a <> name) (attributes e)) e.

Definition setAttribute (name v : string) (e : Element) : Element :=
  if hasAttribute name e then
    set_attributes
      (map (fun a => if String.eqb (fst a) name then (name, v) else a)
         (attributes e)) e
  else set_attributes (attributes e ++ [(name, v)]) e.

Definition getDeclaration (p : string) (s : list Declaration)
  : option Declaration :=
  find (fun d => String.eqb (property d) p) s.

Definition getPropertyValue (p : string) (s : list Declaration) : string :=
  match getDeclaration p s with Some d => value d | None => "" end.

Definition removeProperty (p : string) (s : list Declaration)
  : list Declaration :=
  filter (fun d => property d <> p) s.

(** The attribute text of an inline style ([getAttribute("style")]). *)
Definition cssText (s : list Declaration) : string :=
  foldr (fun d acc =>
           property d +:+ ": " +:+ value d
           +:+ (if important d then " !important" else "") +:+ ";"
           +:+ (if bool_decide (acc = "") then "" else " " +:+ acc))
    "" s.

(** What the page's browser decides: whether a value parses for a property
    ([CSS.supports]), how the text of a [style] attribute (or of
    [style.cssText]) parses, and the base64 rendering [btoa]. *)
Class Browser := {
  cssSupports : string -> string -> bool;
  parseStyleAttribute : string -> list Declaration;
  btoa : string -> string;
  (** [document.querySelector] on the text of a stored selector: [None]
      when it throws, [Some None] for [null]. *)
  querySelectorText : Document -> string -> option (option nat);
}.

Section Style.
Context `{Browser}.

(** [style.setProperty(p, v, priority)]: the empty value removes the
    property, a value that does not parse is ignored. *)
Definition setProperty (p v : string) (prio : bool) (s : list Declaration)
  : list Declaration :=
  if bool_decide (v = "") then removeProperty p s
  else if negb (cssSupports p v) then s
  else match getDeclaration p s with
       | Some _ =>
           map (fun d => if String.eqb (property d) p
                         then mkDeclaration p v prio else d) s
       | None => s ++ [mkDeclaration p v prio]
       end.

(** [element.style.filter = v]. *)
Definition setFilter (v : string) (e : Element) : Element :=
  set_style (setProperty "filter" v false (style e)) e.

(** [element.setAttribute("style", text)]. *)
Definition setStyleAttribute (text : string) (e : Element) : Element :=
  set_style (parseStyleAttribute text) e.
End Style.

(** ** Effect applier *)

Definition problematicTags : list string :=
  ["html"; "head"; "title"; "meta"; "link"; "script"; "style"; "noscript";
   "iframe"; "embed"; "object"; "svg"; "canvas"].

Definition standardTags : list string :=
  ["h1"; "h2"; "h3"; "h4"; "h5"; "h6"; "p"; "div"; "span"; "section";
   "article"; "aside"; "main"; "nav"; "header"; "footer"; "ul"; "ol"; "li";
   "a"; "img"; "button"; "input"; "textarea"; "label"; "form"].

Definition markerClass : string := "blur-anything-blurred".
Definition textMarkerClass : string := "blur-anything-text-blur".
Definition areaClass : string := "blur-anything-area".

Section Effect.
Context `{Browser}.

(** The probe at the end of [canApplyBlurToElement]: it writes
    [blur(0px)], reads it back and writes the original value again. *)
Definition probeFilter (e : Element) : Element :=
  setFilter (getPropertyValue "filter" (style e)) (setFilter "blur(0px)" e).

Definition canApplyBlurToElement (doc : Document) (u : nat)
  : bool * Document :=
  match getNode doc u with
  | None => (false, doc)
  | Some n =>
      match parentNode n, kind n with
      | Some _, ElementNode e =>
          if negb (bool_decide (interface e = HTMLElement)) then (false, doc)
          else if bool_decide (computedDisplay e = "none")
                  || bool_decide (computedVisibility e = "hidden")
          then (false, doc)
          else if bool_decide (tagName e ∈ problematicTags) then (false, doc)
          else if hasAttribute "readonly" e || hasAttribute "disabled" e
          then (false, doc)
          else if bool_decide (getAttribute "contenteditable" e = Some "false")
          then (false, doc)
          else
            let doc' := updateElement doc u probeFilter in
            if bool_decide
                 (getPropertyValue "filter" (style (setFilter "blur(0px)" e))
                  = "blur(0px)")
            then (true, doc')
            else (bool_decide (tagName e ∈ standardTags), doc')
      | _, _ => (false, doc)
      end
  end.

(** The new filter value of methods 1 and 2. *)
Definition blurredFilter (intensity : Z) (currentFilter : string) : string :=
  let cleanFilter := trim (removeBlurFunctions currentFilter) in
  if bool_decide (cleanFilter = "") then blurFunction intensity
  else cleanFilter +:+ " " +:+ blurFunction intensity.

(** Method 1: assignment to [element.style.filter].  The assignment does
    not throw on an element, so the method always returns. *)
Definition applyDirectFilter (intensity : Z) (e : Element) : option Element :=
  Some (setFilter
          (blurredFilter intensity (getPropertyValue "filter" (style e))) e).

(** Method 2: [element.style.setProperty]. *)
Definition applySetProperty (intensity : Z) (e : Element) : option Element :=
  Some (set_style
          (setProperty "filter"
             (blurredFilter intensity (getPropertyValue "filter" (style e)))
             false (style e)) e).

(** Method 3: rewriting the text of the [style] attribute. *)
Definition applyStyleAttribute (intensity : Z) (e : Element)
  : option Element :=
  let newStyle := removeFilterDeclarations false (cssText (style e)) in
  let newStyle :=
    if negb (bool_decide (newStyle = "")) && negb (endsWith ";" newStyle)
    then newStyle +:+ "; " else newStyle in
  Some (setStyleAttribute
          (newStyle +:+ "filter: " +:+ blurFunction intensity +:+ ";") e).

Definition wrapperElement (intensity : Z) : Element :=
  mkElement "div" "" ["blur-anything-wrapper"] []
    [mkDeclaration "backdrop-filter" (blurFunction intensity) false;
     mkDeclaration "-webkit-backdrop-filter" (blurFunction intensity) false;
     mkDeclaration "display" "inline-block" false;
     mkDeclaration "position" "relative" false]
    "inline-block" "visible" HTMLElement.

(** Method 4: a wrapper is inserted before the element, which then moves
    into it; an element without a parent makes it throw. *)
Definition applyBlurWithWrapper (intensity : Z) (doc : Document) (u : nat)
  : option Document :=
  match getNode doc u with
  | None => None
  | Some n =>
      match parentNode n with
      | None => None
      | Some p =>
          let w := freshUid doc in
          Some (mkDocument
                  (flat_map
                     (fun m =>
                        if Nat.eqb (uid m) u
                        then [mkNode w (Some p)
                                (ElementNode (wrapperElement intensity));
                              mkNode (uid m) (Some w) (kind m)]
                        else [m])
                     (nodes doc))
                  (body doc))
      end
  end.

(** Runs one element-level method on the element [u]: [None] when the
    element is missing or the method throws. *)
Definition tryOnElement (method : Element -> option Element) (doc : Document)
    (u : nat) : option Document :=
  match getElement doc u with
  | None => None
  | Some e =>
      match method e with
      | Some _ =>
          Some (updateElement doc u
                  (fun e0 => match method e0 with Some e' => e' | None => e0 end))
      | None => None
      end
  end.

(** The first method that returns wins; [None] is the final [throw]. *)
Definition applyBlurWithFallbacks (intensity : Z) (doc : Document) (u : nat)
  : option Document :=
  match tryOnElement (applyDirectFilter intensity) doc u with
  | Some doc' => Some doc'
  | None =>
      match tryOnElement (applySetProperty intensity) doc u with
      | Some doc' => Some doc'
      | None =>
          match tryOnElement (applyStyleAttribute intensity) doc u with
          | Some doc' => Some doc'
          | None => applyBlurWithWrapper intensity doc u
          end
      end
  end.

(** [applyBlurToElement]; the flag is [false] when it throws. *)
Definition applyBlurToElement (intensity : Z) (doc : Document) (u : nat)
  : Document * bool :=
  let '(ok, doc) := canApplyBlurToElement doc u in
  if negb ok then (doc, false)
  else
    match applyBlurWithFallbacks intensity doc u with
    | None => (doc, false)
    | Some doc =>
        (updateElement doc u
           (fun e => setAttribute "data-blur-applied" "true"
                       (classListAdd markerClass e)),
         true)
    end.

(** Method 3 of the removal, on the text of the [style] attribute. *)
Definition cleanStyleAttribute (e : Element) : Element :=
  let currentStyle := cssText (style e) in
  if includes "filter" currentStyle then
    let cleanStyle :=
      trim (stripOuterSemicolons
              (collapseSemicolons
                 (removeFilterDeclarations true currentStyle))) in
    if bool_decide (cleanStyle = "") then set_style [] e
    else setStyleAttribute cleanStyle e
  else e.

Definition removeBlur (e : Element) : Element :=
  let e := set_style (removeProperty "filter" (style e)) e in
  let e := set_style (setProperty "filter" "" false (style e)) e in
  let e := cleanStyleAttribute e in
  let e := classListRemove markerClass e in
  let e := removeAttribute "data-blur-applied" e in
  let e := removeAttribute "data-blur-id" e in
  let e := classListRemove textMarkerClass e in
  let e := set_style (setProperty "filter" "none" true (style e)) e in
  let e := set_style (setProperty "backdrop-filter" "none" true (style e)) e in
  set_style (setProperty "opacity" "1" true (style e)) e.

Definition removeBlurFromElement (doc : Document) (u : nat) : Document :=
  updateElement doc u removeBlur.

(** Any number of [applyBlurToElement] calls on one element, each with
    the intensity current at the time. *)
Definition applyRepeatedly (intensities : list Z) (doc : Document) (u : nat)
  : Document :=
  foldl (fun d i => (applyBlurToElement i d u).1) doc intensities.
End Effect.

(** The [filter] that wins between the inline style and the rule that
    [preInjectBlurCSS] injects for the element (always [!important]): an
    inline [!important] declaration beats the rule, the rule beats a normal
    inline declaration. *)
Definition cascadedFilter (injected : option string) (e : Element) : string :=
  match getDeclaration "filter" (style e), injected with
  | Some d, Some v => if important d then value d else v
  | Some d, None => value d
  | None, Some v => v
  | None, None => "none"
  end.

(** Two element states that differ at most in what the applier manages:
    the inline [filter] declaration, the marker class and the
    [data-blur-applied] attribute. *)
Definition sameButEffect (e cur : Element) : Prop :=
  filter (fun c => c <> markerClass) (classList cur)
  = filter (fun c => c <> markerClass) (classList e)
  /\ filter (fun a : string * string => a.1 <> "data-blur-applied")
       (attributes cur)
     = filter (fun a : string * string => a.1 <> "data-blur-applied")
         (attributes e)
  /\ removeProperty "filter" (style cur) = removeProperty "filter" (style e)
  /\ tagName cur = tagName e /\ id cur = id e
  /\ computedDisplay cur = computedDisplay e
  /\ computedVisibility cur = computedVisibility e
  /\ interface cur = interface e.

(** ** Locator synthesizer *)

Definition isLetter (c : ascii) : bool :=
  let n := nat_of_ascii c in
  (Nat.leb 65 n && Nat.leb n 90) || (Nat.leb 97 n && Nat.leb n 122).

Definition isDigit (c : ascii) : bool :=
  let n := nat_of_ascii c in Nat.leb 48 n && Nat.leb n 57.

Definition isIdentifierStart (c : ascii) : bool :=
  isLetter c || Ascii.eqb c "_" || Ascii.eqb c "-".

Definition isIdentifierChar (c : ascii) : bool :=
  isLetter c || isDigit c || Ascii.eqb c "_" || Ascii.eqb c "-".

Fixpoint allChars (f : ascii -> bool) (s : string) : bool :=
  match s with
  | EmptyString => true
  | String c r => f c && allChars f r
  end.

(** [/^[a-zA-Z_-][a-zA-Z0-9_-]*$/.test(str)]. *)
Definition isValidCSSIdentifier (str : string) : bool :=
  match str with
  | EmptyString => false
  | String c r => isIdentifierStart c && allChars isIdentifierChar r
  end.

(** [str.replace(/[^a-zA-Z0-9_-]/g, "\\$&")]. *)
Fixpoint escapeCSSIdentifier (str : string) : string :=
  match str with
  | EmptyString => EmptyString
  | String c r =>
      if isIdentifierChar c then String c (escapeCSSIdentifier r)
      else String "\" (String c (escapeCSSIdentifier r))
  end.

(** One segment [tag.class1.class2:nth-child(k)] of a path. *)
Record Compound := mkCompound {
  compoundTag : string;
  compoundClasses : list string;
  nthChild : option nat;
}.

#[global] Instance Compound_eq_dec : EqDecision Compound.
Proof. solve_decision. Defined.

(** The selectors the synthesizer produces: [#ident], a path of segments
    joined by [" > "], and [[name="value"]]. *)
Inductive Selector :=
  IdSelector (ident : string)
| PathSelector (path : list Compound)
| AttributeSelector (name attrValue : string).

#[global] Instance Selector_eq_dec : EqDecision Selector.
Proof. solve_decision. Defined.

Definition compoundText (c : Compound) : string :=
  compoundTag c
  +:+ foldr (fun cls acc => "." +:+ cls +:+ acc) "" (compoundClasses c)
  +:+ match nthChild c with
      | Some k => ":nth-child(" +:+ pretty k +:+ ")"
      | None => ""
      end.

Fixpoint joinWith (sep : string) (l : list string) : string :=
  match l with
  | [] => ""
  | [a] => a
  | a :: r => a +:+ sep +:+ joinWith sep r
  end.

Definition doubleQuote : string := String (ascii_of_nat 34) EmptyString.

(** The selector text the source builds. *)
Definition selectorText (sel : Selector) : string :=
  match sel with
  | IdSelector ident => "#" +:+ ident
  | PathSelector path => joinWith " > " (map compoundText path)
  | AttributeSelector name v =>
      "[" +:+ name +:+ "=" +:+ doubleQuote +:+ v +:+ doubleQuote +:+ "]"
  end.

(** Whether a name made of identifier characters parses as a CSS
    identifier: it may not start with a digit, nor with a hyphen that is
    alone or followed by a digit. *)
Definition parsesAsIdentifier (s : string) : bool :=
  match s with
  | EmptyString => false
  | String c EmptyString => negb (isDigit c) && negb (Ascii.eqb c "-")
  | String c (String d _) =>
      negb (isDigit c) && negb (Ascii.eqb c "-" && isDigit d)
  end.

Definition elementSatisfies (f : Element -> bool) (n : Node) : bool :=
  match kind n with ElementNode e => f e | TextNode _ => false end.

(** Position (from 1) of a node among the element children of its parent;
    the root element is the first child of the document. *)
Definition childIndex (doc : Document) (n : Node) : option nat :=
  match parentNode n with
  | Some p =>
      S <$> (fst <$> list_find (fun c => c = uid n) (children doc p))
  | None => Some 1
  end.

Definition matchesCompound (doc : Document) (n : Node) (c : Compound) : bool :=
  match kind n with
  | TextNode _ => false
  | ElementNode e =>
      bool_decide (tagName e = toLowerCase (compoundTag c))
      && forallb (fun cls => bool_decide (cls ∈ classList e)) (compoundClasses c)
      && match nthChild c with
         | Some k => bool_decide (childIndex doc n = Some k)
         | None => true
         end
  end.

(** [rpath] is the path from the target's own segment up: each segment
    after the first constrains the parent element of the previous one. *)
Fixpoint matchesPathFrom (doc : Document) (rpath : list Compound) (n : Node)
  : bool :=
  match rpath with
  | [] => true
  | c :: above =>
      matchesCompound doc n c
      && match above with
         | [] => true
         | _ =>
             match parentNode n with
             | Some p =>
                 match getNode doc p with
                 | Some pn => matchesPathFrom doc above pn
                 | None => false
                 end
             | None => false
             end
         end
  end.

Definition compoundParses (c : Compound) : bool :=
  parsesAsIdentifier (compoundTag c)
  && forallb parsesAsIdentifier (compoundClasses c).

(** [document.querySelectorAll]: the matches in document order, or [None]
    when the selector does not parse. *)
Definition querySelectorAll (doc : Document) (sel : Selector)
  : option (list nat) :=
  match sel with
  | IdSelector ident =>
      if parsesAsIdentifier ident
      then Some (map uid
                   (List.filter
                      (elementSatisfies (fun e => bool_decide (id e = ident)))
                      (nodes doc)))
      else None
  | PathSelector [] => None
  | PathSelector path =>
      if forallb compoundParses path
      then Some (map uid
                   (List.filter (matchesPathFrom doc (rev path)) (nodes doc)))
      else None
  | AttributeSelector name v =>
      Some (map uid
              (List.filter
                 (elementSatisfies
                    (fun e => bool_decide (getAttribute name e = Some v)))
                 (nodes doc)))
  end.

(** [document.querySelector]: [None] when it throws, [Some None] for
    [null]. *)
Definition querySelector (doc : Document) (sel : Selector)
  : option (option nat) :=
  head <$> querySelectorAll doc sel.

Fixpoint hasAncestor (fuel : nat) (doc : Document) (u p : nat) : bool :=
  match fuel with
  | O => false
  | S fuel =>
      match getNode doc u with
      | Some n =>
          match parentNode n with
          | Some q => Nat.eqb q p || hasAncestor fuel doc q p
          | None => false
          end
      | None => false
      end
  end.

(** [parent.querySelectorAll(tag + classSelector)]: the matching
    descendants of [parent]. *)
Definition querySelectorAllWithin (doc : Document) (parent : nat)
    (c : Compound) : option (list nat) :=
  if compoundParses c
  then Some (map uid
               (List.filter
                  (fun n => matchesCompound doc n c
                            && hasAncestor (length (nodes doc)) doc
                                 (uid n) parent)
                  (nodes doc)))
  else None.

Definition shouldAddNthChild (doc : Document) (e : Element) (parent : nat)
  : bool :=
  let valid := List.filter isValidCSSIdentifier (classList e) in
  if negb (bool_decide (classList e = [])) && bool_decide (valid = [])
  then true
  else
    match querySelectorAllWithin doc parent (mkCompound (tagName e) valid None)
    with
    | Some matches => Nat.ltb 1 (length matches)
    | None => true
    end.

(** The segment for [current]; [None] is the [TypeError] raised by
    [className.trim()] on an SVG element. *)
Definition segmentOf (doc : Document) (current : nat) (e : Element)
  : option Compound :=
  if bool_decide (interface e = SVGElement) then None
  else
    let classes :=
      take 3 (map escapeCSSIdentifier
                (List.filter isValidCSSIdentifier (classList e)))
    in
    let nth :=
      match parentElement doc current with
      | Some parent =>
          if shouldAddNthChild doc e parent then
            let siblings :=
              List.filter
                (fun s => match getElement doc s with
                          | Some se => bool_decide (tagName se = tagName e)
                          | None => false
                          end)
                (children doc parent) in
            if Nat.ltb 1 (length siblings) && Nat.leb (length siblings) 20
            then S <$> (fst <$> list_find (fun s => s = current) siblings)
            else None
          else None
      | None => None
      end in
    Some (mkCompound (tagName e) classes nth).

Inductive PathResult :=
  UniquePath (path : list Compound)
| BestEffortPath (path : list Compound)
| PathThrew.

(** The [while] loop of [generateSelector]; [remaining] is
    [maxAttempts - attempts]. *)
Fixpoint buildPath (doc : Document) (element : nat) (remaining : nat)
    (current : option nat) (path : list Compound) : PathResult :=
  match remaining with
  | O => BestEffortPath path
  | S remaining =>
      match current with
      | None => BestEffortPath path
      | Some c =>
          if Nat.eqb c (body doc) then BestEffortPath path
          else
            match getElement doc c with
            | None => BestEffortPath path
            | Some e =>
                match segmentOf doc c e with
                | None => PathThrew
                | Some seg =>
                    let path := seg :: path in
                    if Nat.leb 2 (length path)
                       && bool_decide
                            (querySelectorAll doc (PathSelector path)
                             = Some [element])
                    then UniquePath path
                    else buildPath doc element remaining
                           (parentElement doc c) path
                end
            end
      end
  end.

Definition maxAttempts : nat := 6.

(** [generateSelector(element)].  [now] is [Date.now()] and [rand] the
    random suffix; the fallbacks imprint an attribute on the element. *)
Definition generateSelector (doc : Document) (element : nat) (now : Z)
    (rand : string) : Selector * Document :=
  let viaPath :=
    match buildPath doc element maxAttempts (Some element) [] with
    | PathThrew =>
        let fallbackId := "blur-fallback-" +:+ pretty now in
        (AttributeSelector "data-blur-fallback" fallbackId,
         updateElement doc element (setAttribute "data-blur-fallback" fallbackId))
    | UniquePath path => (PathSelector path, doc)
    | BestEffortPath path =>
        if bool_decide (querySelector doc (PathSelector path)
                        = Some (Some element))
        then (PathSelector path, doc)
        else
          let fallbackId := "blur-" +:+ pretty now +:+ "-" +:+ rand in
          (AttributeSelector "data-blur-id" fallbackId,
           updateElement doc element (setAttribute "data-blur-id" fallbackId))
    end in
  match getElement doc element with
  | None => viaPath
  | Some e =>
      if negb (bool_decide (id e = "")) && isValidCSSIdentifier (id e) then
        let idSelector := IdSelector (escapeCSSIdentifier (id e)) in
        match querySelector doc idSelector with
        | Some _ => (idSelector, doc)
        | None => viaPath
        end
      else viaPath
  end.

(** ** Freemium limits ([freemium-service.ts]) *)

Module FreemiumService.
Inductive UserTier := Free | Premium.
Inductive BlurKind := Click | Rectangle | TextKind | CustomArea.
(** A numeric limit; [Infinity] is the JavaScript value. *)
Inductive Limit := Finite (n : Z) | Infinity.

#[global] Instance BlurKind_eq_dec : EqDecision BlurKind.
Proof. solve_decision. Defined.

Record FeatureLimits := mkLimits {
  maxBlursPerDay : Limit;
  allowedBlurTypes : list BlurKind;
  maxRectangleSize : Limit * Limit;
  maxTextSelectionLength : Limit;
}.

Record DailyUsage := mkUsage { date : string; blurCount : Z }.

(** [stored] is the [dailyUsage] entry of [browser.storage.local]. *)
Record State := mkState {
  currentTier : UserTier;
  dailyUsage : option DailyUsage;
  stored : option DailyUsage;
  contextValid : bool;
}.

Definition ltLimit (z : Z) (l : Limit) : bool :=
  match l with Finite n => (z <? n)%Z | Infinity => true end.

Definition gtLimit (z : Z) (l : Limit) : bool :=
  match l with Finite n => (n <? z)%Z | Infinity => false end.

Definition isPremium (st : State) : bool :=
  match currentTier st with Premium => true | Free => false end.

Definition getFeatureLimits (st : State) : FeatureLimits :=
  match currentTier st with
  | Premium =>
      mkLimits Infinity [Click; Rectangle; TextKind; CustomArea]
        (Infinity, Infinity) Infinity
  | Free =>
      mkLimits (Finite 10) [Click; Rectangle; TextKind]
        (Finite 200, Finite 200) (Finite 100)
  end.

Definition initializeDailyUsage (today : string) (st : State) : State :=
  if negb (contextValid st)
  then mkState (currentTier st) (Some (mkUsage today 0)) (stored st)
         (contextValid st)
  else
    match stored st with
    | Some u =>
        if bool_decide (date u = today)
        then mkState (currentTier st) (Some u) (stored st) (contextValid st)
        else mkState (currentTier st) (Some (mkUsage today 0))
               (Some (mkUsage today 0)) (contextValid st)
    | None =>
        mkState (currentTier st) (Some (mkUsage today 0))
          (Some (mkUsage today 0)) (contextValid st)
    end.

(** [debugAuthState]: [user] tells whether
    [extensionAuthService.getCurrentUser()] returns a user once
    [refreshCurrentUser()] has run, that is, whether Firebase's
    [auth.currentUser] is set. *)
Definition debugAuthState (user : bool) (st : State) : State :=
  if user && negb (isPremium st)
  then mkState Premium (dailyUsage st) (stored st) (contextValid st)
  else st.

Definition canAddBlur (user : bool) (today : string) (st : State)
  : bool * State :=
  let st := debugAuthState user st in
  if isPremium st then (true, st)
  else
    let st := initializeDailyUsage today st in
    let currentCount :=
      match dailyUsage st with Some u => blurCount u | None => 0%Z end in
    (ltLimit currentCount (maxBlursPerDay (getFeatureLimits st)), st).

Definition canUseBlurType (k : BlurKind) (st : State) : bool :=
  bool_decide (k ∈ allowedBlurTypes (getFeatureLimits st)).

Definition getMaxRectangleSize (st : State) : Limit * Limit :=
  maxRectangleSize (getFeatureLimits st).

Definition getMaxTextSelectionLength (st : State) : Limit :=
  maxTextSelectionLength (getFeatureLimits st).

Definition incrementDailyBlurCount (today : string) (st : State) : State :=
  if isPremium st then st
  else
    let st := initializeDailyUsage today st in
    match dailyUsage st with
    | Some u =>
        let u := mkUsage (date u) (blurCount u + 1) in
        mkState (currentTier st) (Some u)
          (if contextValid st then Some u else stored st) (contextValid st)
    | None => st
    end.
End FreemiumService.

(** ** Storage collaborators *)

(** The background worker's [saveBlurData] / [getBlurData] / [clearAllBlurs]
    handlers over the [blurredElements] object of [browser.storage.sync]. *)
Module Background.
Definition saveBlurData (url : option string) (blurData : list BlurData)
    (st : gmap string (list BlurData)) : gmap string (list BlurData) :=
  match url with
  | Some saveUrl =>
      if bool_decide (saveUrl = "") then st else <[saveUrl := blurData]> st
  | None => st
  end.

Definition getBlurData (url : string) (st : gmap string (list BlurData))
  : list BlurData :=
  default [] (st !! url).

Definition clearAllBlurs (url : option string)
    (st : gmap string (list BlurData)) : gmap string (list BlurData) :=
  match url with
  | Some u => if bool_decide (u = "") then st else delete u st
  | None => st
  end.
End Background.

(** [sync-service.ts] over the signed-in user's [sites] collection;
    [None] is a collection on which every Firestore call rejects.
    Documents are keyed by [getUrlKey] of the url. *)
Module SyncService.
Fixpoint replaceNonAlphanumeric (s : string) : string :=
  match s with
  | EmptyString => EmptyString
  | String c r =>
      String (if isLetter c || isDigit c then c else "_"%char)
        (replaceNonAlphanumeric r)
  end.

Section WithBrowser.
Context `{Browser}.

Definition getUrlKey (url : string) : string :=
  replaceNonAlphanumeric (btoa url).

Definition loadBlurData (signedIn : bool) (url : string)
    (sites : option (gmap string (list BlurData))) : list BlurData :=
  if negb signedIn then []
  else match sites with
       | Some docs => default [] (docs !! getUrlKey url)
       | None => []
       end.

(** [None]: the call throws (no user, or [setDoc] rejects).
    [setDocResolves] tells whether Firestore accepts this write; a write
    it rejects leaves the collection as it was, still readable. *)
Definition saveBlurData (signedIn : bool) (url : string)
    (blurData : list BlurData) (setDocResolves : bool)
    (sites : option (gmap string (list BlurData)))
  : option (gmap string (list BlurData)) :=
  if negb signedIn then None
  else match sites with
       | Some docs =>
           if setDocResolves then Some (<[getUrlKey url := blurData]> docs)
           else None
       | None => None
       end.
End WithBrowser.
End SyncService.

(** The [blur-anything-data] entry of the page's [localStorage]. *)
Module LocalStorage.
(** The object written by [saveBlurDataLocally]; [blurData] is [None]
    when the parsed object has no such member. *)
Record LocalData := mkLocalData {
  url : string;
  blurData : option (list BlurData);
  timestamp : Z;
}.

(** What [getItem] returns: text that parses to such an object, or text on
    which [JSON.parse] (or the member access) throws. *)
Inductive Item := Parsed (data : LocalData) | Unparsable (raw : string).
End LocalStorage.

(** ** The page session

    The content script instance together with everything it reads and
    writes.  [isAuthenticated] is [authService.isAuthenticated()], that
    is, whether the auth service's [currentUser] is set; [firebaseUser]
    tells whether [auth.currentUser] of the Firebase SDK is set, which is
    what [refreshCurrentUser] reads; [setDocResolves] tells whether
    Firestore accepts a write. *)
Record Page := mkPage {
  self : BlurAnything;
  document : Document;
  href : string;
  localStorage : option LocalStorage.Item;
  extensionStorage : gmap string (list BlurData);
  extensionAvailable : bool;
  isAuthenticated : bool;
  firebaseUser : bool;
  firestore : option (gmap string (list BlurData));
  setDocResolves : bool;
  freemium : FreemiumService.State;
  injectedStyles : list string;
  notifications : list string;
}.

Definition set_self (a : BlurAnything) (p : Page) : Page :=
  mkPage a (document p) (href p) (localStorage p) (extensionStorage p)
    (extensionAvailable p) (isAuthenticated p) (firebaseUser p) (firestore p)
    (setDocResolves p) (freemium p)
    (injectedStyles p) (notifications p).

Definition set_document (d : Document) (p : Page) : Page :=
  mkPage (self p) d (href p) (localStorage p) (extensionStorage p)
    (extensionAvailable p) (isAuthenticated p) (firebaseUser p) (firestore p)
    (setDocResolves p) (freemium p)
    (injectedStyles p) (notifications p).

Definition set_localStorage (l : option LocalStorage.Item) (p : Page) : Page :=
  mkPage (self p) (document p) (href p) l (extensionStorage p)
    (extensionAvailable p) (isAuthenticated p) (firebaseUser p) (firestore p)
    (setDocResolves p) (freemium p)
    (injectedStyles p) (notifications p).

Definition set_extensionStorage (e : gmap string (list BlurData)) (p : Page)
  : Page :=
  mkPage (self p) (document p) (href p) (localStorage p) e
    (extensionAvailable p) (isAuthenticated p) (firebaseUser p) (firestore p)
    (setDocResolves p) (freemium p)
    (injectedStyles p) (notifications p).

Definition set_firestore (f : option (gmap string (list BlurData))) (p : Page)
  : Page :=
  mkPage (self p) (document p) (href p) (localStorage p) (extensionStorage p)
    (extensionAvailable p) (isAuthenticated p) (firebaseUser p) f
    (setDocResolves p) (freemium p) (injectedStyles p) (notifications p).

Definition set_freemium (f : FreemiumService.State) (p : Page) : Page :=
  mkPage (self p) (document p) (href p) (localStorage p) (extensionStorage p)
    (extensionAvailable p) (isAuthenticated p) (firebaseUser p) (firestore p)
    (setDocResolves p) f
    (injectedStyles p) (notifications p).

Definition set_injectedStyles (l : list string) (p : Page) : Page :=
  mkPage (self p) (document p) (href p) (localStorage p) (extensionStorage p)
    (extensionAvailable p) (isAuthenticated p) (firebaseUser p) (firestore p)
    (setDocResolves p) (freemium p)
    l (notifications p).

Definition set_href (h : string) (p : Page) : Page :=
  mkPage (self p) (document p) h (localStorage p) (extensionStorage p)
    (extensionAvailable p) (isAuthenticated p) (firebaseUser p) (firestore p)
    (setDocResolves p) (freemium p)
    (injectedStyles p) (notifications p).

Definition notify (message : string) (p : Page) : Page :=
  mkPage (self p) (document p) (href p) (localStorage p) (extensionStorage p)
    (extensionAvailable p) (isAuthenticated p) (firebaseUser p) (firestore p)
    (setDocResolves p) (freemium p)
    (injectedStyles p) (notifications p ++ [message]).

Definition set_isAuthenticated (b : bool) (p : Page) : Page :=
  mkPage (self p) (document p) (href p) (localStorage p) (extensionStorage p)
    (extensionAvailable p) b (firebaseUser p) (firestore p)
    (setDocResolves p) (freemium p) (injectedStyles p) (notifications p).

(** [this.blurredElements = marks]. *)
Definition setMarks (marks : list BlurData) (p : Page) : Page :=
  set_self (set_blurredElements marks (self p)) p.

Definition marks (p : Page) : list BlurData := blurredElements (self p).

(** [browser.runtime.sendMessage] of a [saveBlurData] request: [None] when
    the call throws. *)
Definition sendSaveBlurData (url : option string) (blurData : list BlurData)
    (p : Page) : option Page :=
  if extensionAvailable p
  then Some (set_extensionStorage
               (Background.saveBlurData url blurData (extensionStorage p)) p)
  else None.

(** ** Persistence gateway *)

Definition saveBlurDataLocally (now : Z) (p : Page) : Page :=
  set_localStorage
    (Some (LocalStorage.Parsed
             (LocalStorage.mkLocalData (href p) (Some (marks p)) now))) p.

Definition loadBlurDataLocally (p : Page) : list BlurData :=
  match localStorage p with
  | Some (LocalStorage.Parsed data) =>
      if bool_decide (LocalStorage.url data = href p) then
        match LocalStorage.blurData data with
        | Some l => l
        | None => []
        end
      else []
  | Some (LocalStorage.Unparsable _) => []
  | None => []
  end.

Definition clearLocalData (p : Page) : Page := set_localStorage None p.

Section Persistence.
Context `{Browser}.

Definition saveBlurData (now : Z) (p : Page) : Page :=
  let p := saveBlurDataLocally now p in
  let p :=
    if isAuthenticated p then
      match SyncService.saveBlurData (isAuthenticated p) (href p)
              (marks p) (setDocResolves p) (firestore p) with
      | Some docs => set_firestore (Some docs) p
      | None => p
      end
    else p in
  match sendSaveBlurData (Some (href p)) (marks p) p with
  | Some p' => p'
  | None => p
  end.

(** The synchronous part runs inside [loadBlurData]; the request it sends
    carries the marks but no [url] member. *)
Definition syncLocalDataIfNeeded (p : Page) : Page :=
  match localStorage p with
  | Some (LocalStorage.Parsed data) =>
      match LocalStorage.blurData data with
      | Some local =>
          if bool_decide (LocalStorage.url data = href p)
             && Nat.ltb 0 (length local)
             && negb (LocalStorage.timestamp data =? 0)%Z
          then
            let localCount := length local in
            let extensionCount := length (marks p) in
            if Nat.ltb extensionCount localCount then
              let p := setMarks local p in
              match sendSaveBlurData None (marks p) p with
              | Some p' => p'
              | None => p
              end
            else p
          else p
      | None => p
      end
  | _ => p
  end.

Definition loadBlurData (p : Page) : Page :=
  let firebaseData :=
    if isAuthenticated p
    then SyncService.loadBlurData (isAuthenticated p) (href p)
           (firestore p)
    else [] in
  if isAuthenticated p && Nat.ltb 0 (length firebaseData)
  then setMarks firebaseData p
  else if extensionAvailable p then
    syncLocalDataIfNeeded
      (setMarks (Background.getBlurData (href p) (extensionStorage p)) p)
  else setMarks (loadBlurDataLocally p) p.
End Persistence.

(** The list of the local cache that [syncLocalDataIfNeeded] considers:
    stored under the current url, with a time stamp. *)
Definition localCache (p : Page) : list BlurData :=
  match localStorage p with
  | Some (LocalStorage.Parsed data) =>
      if bool_decide (LocalStorage.url data = href p)
         && negb (LocalStorage.timestamp data =? 0)%Z
      then match LocalStorage.blurData data with
           | Some l => l
           | None => []
           end
      else []
  | _ => []
  end.

(** ** Gestures *)

Record MouseEvent := mkMouseEvent {
  pageX : Z;
  pageY : Z;
  targetIsExtensionElement : bool;
}.

(** What the layout reports when the preview is measured:
    [getBoundingClientRect()] of the preview and the scroll offsets. *)
Record Layout := mkLayout { overlayRect : DOMRect; scrollX : Z; scrollY : Z }.

(** A DOM [Range] of the current selection, with the answers of its
    [cloneContents()] queries and its two mutations as methods.
    [deleteContents] gives the document the call leaves and whether it
    returned ([false]: it threw); [insertNode] gives the document the call
    leaves and the uid given to the inserted element, or [None] when it
    threw. *)
Record Range := mkRange {
  startContainer : nat;
  endContainer : nat;
  commonAncestorContainer : nat;
  cloneContentsHasImages : bool;
  cloneContentsHasBlocks : bool;
  deleteContents : Document -> Document * bool;
  insertNode : Document -> Element -> Document * option nat;
}.

Record TextSelection := mkSelection {
  selectionText : string;
  ranges : list Range;
}.

Definition coordsString (cx cy : Z) : string := pretty cx +:+ "," +:+ pretty cy.

(** The text assigned to [style.cssText] of a blur area (its line breaks
    are immaterial to the parser). *)
Definition areaCssText (c : Coords) : string :=
  "position: absolute; left: " +:+ pretty (x c) +:+ "px; top: "
  +:+ pretty (y c) +:+ "px; width: " +:+ pretty (width c) +:+ "px; height: "
  +:+ pretty (height c)
  +:+ "px; z-index: 999998; border: none; cursor: pointer; overflow: hidden;".

Definition appendToBody (doc : Document) (e : Element) : Document :=
  mkDocument
    (nodes doc ++ [mkNode (freshUid doc) (Some (body doc)) (ElementNode e)])
    (body doc).

Definition showUpgradeNotification (reason : string) (p : Page) : Page :=
  notify ("upgrade: " +:+ reason) p.

(** [extensionAuthService.refreshCurrentUser()]: the auth service reads
    its [currentUser] again from Firebase's [auth.currentUser]. *)
Definition refreshCurrentUser (p : Page) : Page :=
  set_isAuthenticated (firebaseUser p) p.

(** [freemiumService.debugAuthState()] on the page. *)
Definition debugAuthState (p : Page) : Page :=
  let p := refreshCurrentUser p in
  set_freemium
    (FreemiumService.debugAuthState (isAuthenticated p) (freemium p)) p.

(** [await freemiumService.canAddBlur()] on the page. *)
Definition canAddBlur (today : string) (p : Page) : bool * Page :=
  let p := refreshCurrentUser p in
  let '(allowed, fs) :=
    FreemiumService.canAddBlur (isAuthenticated p) today (freemium p) in
  (allowed, set_freemium fs p).

Definition hideDrawingOverlay (p : Page) : Page :=
  set_self (set_drawing (startCoords (self p)) None (self p)) p.

Definition clearStartCoords (p : Page) : Page :=
  set_self (set_drawing None (drawingOverlay (self p)) (self p)) p.

Definition safeInlineElements : list string :=
  ["span"; "em"; "strong"; "b"; "i"; "u"; "small"; "sub"; "sup"].

Definition blockElements : list string :=
  ["div"; "p"; "h1"; "h2"; "h3"; "h4"; "h5"; "h6"; "li"; "td"; "th";
   "section"; "article"].

Definition isTextNode (doc : Document) (u : nat) : bool :=
  match getNode doc u with
  | Some n => match kind n with TextNode _ => true | ElementNode _ => false end
  | None => false
  end.

Definition tagIn (doc : Document) (tags : list string) (u : option nat)
  : bool :=
  match u with
  | Some v =>
      match getElement doc v with
      | Some e => bool_decide (tagName e ∈ tags)
      | None => false
      end
  | None => false
  end.

Definition canSafelyWrapSelection (doc : Document) (range : Range) : bool :=
  if Nat.eqb (startContainer range) (endContainer range) then true
  else
    let startParent := parentElement doc (startContainer range) in
    let endParent := parentElement doc (endContainer range) in
    let bothText :=
      isTextNode doc (startContainer range)
      && isTextNode doc (endContainer range) in
    if bothText && bool_decide (startParent = endParent) then true
    else if bothText && tagIn doc safeInlineElements startParent
            && tagIn doc safeInlineElements endParent
    then bool_decide
           ((startParent ≫= parentElement doc)
            = (endParent ≫= parentElement doc))
    else if tagIn doc blockElements (Some (commonAncestorContainer range))
    then negb (cloneContentsHasBlocks range)
    else false.

(** [closest(sel)] for a class or an id: the element itself or an ancestor
    satisfies [f]. *)
Fixpoint closestSatisfies (fuel : nat) (doc : Document) (f : Element -> bool)
    (u : nat) : bool :=
  match fuel with
  | O => false
  | S fuel =>
      match getNode doc u with
      | Some n =>
          elementSatisfies f n
          || match parentNode n with
             | Some q => closestSatisfies fuel doc f q
             | None => false
             end
      | None => false
      end
  end.

Definition closest (doc : Document) (f : Element -> bool) (u : nat) : bool :=
  closestSatisfies (S (length (nodes doc))) doc f u.

Definition isTextBlur (e : Element) : bool := contains textMarkerClass e.

Definition isFloatingToolbar (e : Element) : bool :=
  bool_decide (id e = "blur-anything-floating-toolbar").

(** [element.querySelector(".blur-anything-text-blur")]: a descendant
    carries the class. *)
Definition hasTextBlurDescendant (doc : Document) (u : nat) : bool :=
  existsb (fun n => elementSatisfies isTextBlur n
                    && hasAncestor (length (nodes doc)) doc (uid n) u)
    (nodes doc).

Section Gestures.
Context `{Browser}.

Definition createProperBlurOverlay (intensity : Z) (e : Element) : Element :=
  set_style
    (setProperty "background" "rgba(0, 0, 0, 0.1)" false
       (setProperty "-webkit-backdrop-filter" (blurFunction intensity) false
          (setProperty "backdrop-filter" (blurFunction intensity) false
             (style e)))) e.

Definition handleMouseDown (ev : MouseEvent) (p : Page) : Page :=
  if negb (isEnabled (self p)) || negb (isDrawingMode (self p)) then p
  else if targetIsExtensionElement ev then p
  else set_self
         (set_drawing (Some (pageX ev, pageY ev)) (Some (mkOverlay None))
            (self p)) p.

Definition handleMouseMove (ev : MouseEvent) (p : Page) : Page :=
  match startCoords (self p), drawingOverlay (self p) with
  | Some (sx, sy), Some _ =>
      if negb (isEnabled (self p)) || negb (isDrawingMode (self p)) then p
      else
        set_self
          (set_drawing (startCoords (self p))
             (Some (mkOverlay
                      (Some (mkRect (Z.min (pageX ev) sx)
                               (Z.min (pageY ev) sy)
                               (Z.abs (pageX ev - sx))
                               (Z.abs (pageY ev - sy))))))
             (self p)) p
  | _, _ => p
  end.

(** The element built by [createBlurArea] once it is finished. *)
Definition blurAreaElement (intensity : Z) (c : Coords) : Element :=
  setAttribute "data-coords" (coordsString (x c) (y c))
    (createProperBlurOverlay intensity
       (mkElement "div" "" [areaClass] []
          (parseStyleAttribute (areaCssText c)) "block" "visible"
          HTMLElement)).

Definition areaSelector (c : Coords) : string :=
  ".blur-anything-area[data-coords=" +:+ doubleQuote
  +:+ coordsString (x c) (y c) +:+ doubleQuote +:+ "]".

Definition createBlurArea (layout : Layout) (now : Z) (today : string)
    (p : Page) : Page :=
  match drawingOverlay (self p), startCoords (self p) with
  | Some _, Some _ =>
      let rect := overlayRect layout in
      let c := mkCoords (left rect + scrollX layout)
                 (top rect + scrollY layout) (rectWidth rect)
                 (rectHeight rect) in
      let effectiveIntensity := Z.max 1 (blurIntensity (self p)) in
      let p := set_document
                 (appendToBody (document p)
                    (blurAreaElement effectiveIntensity c)) p in
      let blurData := mkBlurData (areaSelector c) TypeArea (Some c) None now in
      let p := setMarks (marks p ++ [blurData]) p in
      let p := set_freemium
                 (FreemiumService.incrementDailyBlurCount today (freemium p))
                 p in
      notify ("Draw area created! Total: " +:+ pretty (length (marks p))) p
  | _, _ => p
  end.

Definition handleMouseUp (layout : Layout) (now : Z) (today : string)
    (ev : MouseEvent) (p : Page) : Page :=
  match startCoords (self p), drawingOverlay (self p) with
  | Some (sx, sy), Some _ =>
      if negb (isEnabled (self p)) || negb (isDrawingMode (self p)) then p
      else
        let w := Z.abs (pageX ev - sx) in
        let h := Z.abs (pageY ev - sy) in
        if (w <? 10)%Z || (h <? 10)%Z
        then clearStartCoords (hideDrawingOverlay p)
        else
          let p := debugAuthState p in
          let maxSize := FreemiumService.getMaxRectangleSize (freemium p) in
          if FreemiumService.gtLimit w maxSize.1
             || FreemiumService.gtLimit h maxSize.2
          then clearStartCoords
                 (hideDrawingOverlay
                    (showUpgradeNotification "rectangle-size" p))
          else
            let p := debugAuthState p in
            let '(allowed, p) := canAddBlur today p in
            if negb allowed
            then clearStartCoords
                   (hideDrawingOverlay
                      (showUpgradeNotification "daily-limit" p))
            else clearStartCoords
                   (hideDrawingOverlay (createBlurArea layout now today p))
  | _, _ => p
  end.

(** The rules [preInjectBlurCSS] writes for the marks. *)
Definition injectedRule (intensity : Z) (blur : BlurData) : string :=
  match type blur, coords blur with
  | TypeElement, _ =>
      if bool_decide (selector blur = "") then ""
      else selector blur +:+ " { filter: " +:+ blurFunction intensity
           +:+ " !important; }"
  | TypeArea, Some c =>
      "[data-coords=" +:+ doubleQuote +:+ coordsString (x c) (y c) +:+ ","
      +:+ pretty (width c) +:+ "," +:+ pretty (height c) +:+ doubleQuote
      +:+ "] { backdrop-filter: " +:+ blurFunction intensity
      +:+ " !important; -webkit-backdrop-filter: "
      +:+ blurFunction intensity +:+ " !important; }"
  | _, _ => ""
  end.

Definition preInjectBlurCSS (blurData : list BlurData) (p : Page) : Page :=
  let cssRules :=
    foldr (fun b acc => injectedRule (blurIntensity (self p)) b +:+ acc) ""
      blurData in
  if bool_decide (cssRules = "") then p
  else set_injectedStyles (cssRules :: injectedStyles p) p.

Definition removeInjectedBlurCSS (p : Page) : Page :=
  set_injectedStyles [] p.

Definition rebuildInjectedCSS (p : Page) : Page :=
  preInjectBlurCSS (marks p) (removeInjectedBlurCSS p).

Definition unblurElement (element : nat) (sel : string) (now : Z) (p : Page)
  : Page :=
  let p := set_document (removeBlurFromElement (document p) element) p in
  let p := setMarks (filter (fun b => selector b <> sel) (marks p)) p in
  saveBlurData now (rebuildInjectedCSS p).

(** [blurElement(element)]; when [applyBlurToElement] throws the promise
    rejects after the locator was generated. *)
Definition blurElement (element : nat) (now : Z) (rand today : string)
    (p : Page) : Page :=
  if negb (FreemiumService.canUseBlurType FreemiumService.Click (freemium p))
  then showUpgradeNotification "click-blur" p
  else
    let '(allowed, p) := canAddBlur today p in
    if negb allowed then showUpgradeNotification "blur-limit" p
    else
      let '(sel, doc) := generateSelector (document p) element now rand in
      let p := set_document doc p in
      let sel := selectorText sel in
      if existsb (fun b => bool_decide (selector b = sel)) (marks p)
      then unblurElement element sel now p
      else
        let '(doc, ok) :=
          applyBlurToElement (blurIntensity (self p)) (document p) element in
        let p := set_document doc p in
        if negb ok then p
        else
          let p := set_freemium
                     (FreemiumService.incrementDailyBlurCount today
                        (freemium p)) p in
          setMarks (marks p ++ [mkBlurData sel TypeElement None None now]) p.

(** The span that [handleTextSelection] inserts. *)
Definition textBlurSpan (intensity : Z) (content : string) : Element :=
  set_style
    (setProperty "transition" "filter 0.3s ease" false
       (setProperty "filter" (blurFunction intensity) false []))
    (mkElement "span" "" [textMarkerClass] [] [] "inline" "visible"
       HTMLElement).

Definition allWhitespace (s : string) : bool := allChars isWhitespace s.

(** The notification of a selection that is too long. *)
Definition selectionTooLong (length : nat) (maxTextLength : FreemiumService.Limit)
  : string :=
  "Text selection too long: " +:+ pretty length +:+ " > "
  +:+ match maxTextLength with
      | FreemiumService.Finite n => pretty n
      | FreemiumService.Infinity => "Infinity"
      end
  +:+ " characters. Sign in for unlimited text selection.".

(** The feedback after a text blur. *)
Definition blurredFeedback (selectedText : string) : string :=
  "Blurred: " +:+ doubleQuote +:+ String.substring 0 30 selectedText
  +:+ (if Nat.ltb 30 (String.length selectedText) then "..." else "")
  +:+ doubleQuote.

(** [handleTextSelection]; [rand] is the random part of the span's id.
    [checkFeatureAccess("text-selection")] takes the [default] case of its
    [switch] and answers [true]. *)
Definition handleTextSelection (selection : option TextSelection) (now : Z)
    (rand today : string) (p : Page) : Page :=
  if negb (isEnabled (self p)) || negb (isTextSelectionMode (self p)) then p
  else
    let '(allowed, p) := canAddBlur today p in
    if negb allowed then showUpgradeNotification "daily-limit" p
    else
      match selection with
      | None => p
      | Some sel =>
          match ranges sel with
          | [] => p
          | range :: _ =>
              let selectedText := trim (selectionText sel) in
              let maxTextLength :=
                FreemiumService.getMaxTextSelectionLength (freemium p) in
              if bool_decide (selectedText = "") then p
              else if FreemiumService.gtLimit
                        (Z.of_nat (String.length selectedText)) maxTextLength
              then notify
                     (selectionTooLong (String.length selectedText)
                        maxTextLength) p
              else if cloneContentsHasImages range
              then notify "Cannot blur images or icons - select text only" p
              else if allWhitespace selectedText then p
              else
                let container := commonAncestorContainer range in
                if negb (isTextNode (document p) container)
                   && (closest (document p) isTextBlur container
                       || hasTextBlurDescendant (document p) container
                       || closest (document p) isFloatingToolbar container)
                then p
                else if negb (canSafelyWrapSelection (document p) range)
                then notify "Complex selection - use element blur instead" p
                else
                  let span :=
                    textBlurSpan (blurIntensity (self p)) selectedText in
                  let '(doc, deleted) := deleteContents range (document p) in
                  let p := set_document doc p in
                  if negb deleted
                  then notify "Failed to blur selected text" p
                  else
                    let '(doc, inserted) := insertNode range doc span in
                    let p := set_document doc p in
                    match inserted with
                    | None => notify "Failed to blur selected text" p
                    | Some span =>
                        let uniqueId :=
                          "blur-text-" +:+ pretty now +:+ "-" +:+ rand in
                        let doc := updateElement doc span (set_id uniqueId) in
                        let p := set_document doc p in
                        let blurData :=
                          mkBlurData ("#" +:+ uniqueId) TypeText None
                            (Some selectedText) now in
                        let p := setMarks (marks p ++ [blurData]) p in
                        let p :=
                          set_freemium
                            (FreemiumService.incrementDailyBlurCount today
                               (freemium p)) p in
                        notify (blurredFeedback selectedText) p
                    end
          end
      end.
End Gestures.

(** The invariant of [BlurData]: the tag decides which optional members
    are present. *)
Definition kindDeterminesFields (b : BlurData) : Prop :=
  match type b with
  | TypeElement => coords b = None /\ text b = None
  | TypeArea => is_Some (coords b) /\ text b = None
  | TypeText => coords b = None /\ is_Some (text b)
  end.

(** The gestures that construct marks. *)
Inductive Gesture :=
  GestureClick (element : nat) (now : Z) (rand today : string)
| GestureMouseDown (ev : MouseEvent)
| GestureMouseMove (ev : MouseEvent)
| GestureMouseUp (layout : Layout) (now : Z) (today : string) (ev : MouseEvent)
| GestureSelectText (selection : option TextSelection) (now : Z)
    (rand today : string).

Definition gestureStep `{Browser} (p : Page) (g : Gesture) : Page :=
  match g with
  | GestureClick element now rand today => blurElement element now rand today p
  | GestureMouseDown ev => handleMouseDown ev p
  | GestureMouseMove ev => handleMouseMove ev p
  | GestureMouseUp layout now today ev => handleMouseUp layout now today ev p
  | GestureSelectText selection now rand today =>
      handleTextSelection selection now rand today p
  end.

(** An enabled session as [init] leaves it: [loadSettings] read
    [isEnabled = true], then [setExclusiveMode("blur")] ran. *)
Definition enabledSession : BlurAnything :=
  setExclusiveMode ModeBlur (set_isEnabled true newBlurAnything).

(** ** Restoration coordinator *)

(** [s.replace(/\s+/g, " ")]; [inRun] tells that the previous character
    was white space. *)
Fixpoint collapseWhitespaceFrom (inRun : bool) (s : string) : string :=
  match s with
  | EmptyString => EmptyString
  | String c r =>
      if isWhitespace c then
        if inRun then collapseWhitespaceFrom true r
        else String " " (collapseWhitespaceFrom true r)
      else String c (collapseWhitespaceFrom false r)
  end.

Definition collapseWhitespace (s : string) : string :=
  collapseWhitespaceFrom false s.

(** [s.replace(/\s*>\s*/g, " > ")]. *)
Fixpoint normalizeCombinatorsFrom (fuel : nat) (s : string) : string :=
  match fuel with
  | O => s
  | S fuel =>
      match s with
      | EmptyString => EmptyString
      | String c r =>
          match trimStart s with
          | String ">" t =>
              " > " +:+ normalizeCombinatorsFrom fuel (trimStart t)
          | _ => String c (normalizeCombinatorsFrom fuel r)
          end
      end
  end.

Definition normalizeCombinators (s : string) : string :=
  normalizeCombinatorsFrom (S (String.length s)) s.

(** The longest prefix of characters that do not satisfy [stop], and the
    rest. *)
Fixpoint spanUntil (stop : ascii -> bool) (s : string) : string * string :=
  match s with
  | EmptyString => (EmptyString, EmptyString)
  | String c r =>
      if stop c then (EmptyString, s)
      else let '(run, rest) := spanUntil stop r in (String c run, rest)
  end.

(** Deletes every [start] character that is followed by a non-empty run
    of characters not satisfying [stop], together with the run: the
    replacements [/:[^:>\s]+/g] and [/\.[^>\s:]+/g] by the empty string. *)
Fixpoint deleteRunsFrom (fuel : nat) (start : ascii) (stop : ascii -> bool)
    (s : string) : string :=
  match fuel with
  | O => s
  | S fuel =>
      match s with
      | EmptyString => EmptyString
      | String c r =>
          if Ascii.eqb c start then
            match spanUntil stop r with
            | (EmptyString, _) => String c (deleteRunsFrom fuel start stop r)
            | (_, rest) => deleteRunsFrom fuel start stop rest
            end
          else String c (deleteRunsFrom fuel start stop r)
      end
  end.

Definition removePseudoSelectors (s : string) : string :=
  deleteRunsFrom (S (String.length s)) ":"
    (fun c => Ascii.eqb c ":" || Ascii.eqb c ">" || isWhitespace c) s.

Definition removeClasses (s : string) : string :=
  deleteRunsFrom (S (String.length s)) "."
    (fun c => Ascii.eqb c ">" || isWhitespace c || Ascii.eqb c ":") s.

(** [s.replace(/\[[^\]]*\]/g, "")]. *)
Fixpoint removeAttributeSelectorsFrom (fuel : nat) (s : string) : string :=
  match fuel with
  | O => s
  | S fuel =>
      match s with
      | EmptyString => EmptyString
      | String c r =>
          if Ascii.eqb c "[" then
            match afterFirst "]" r with
            | Some rest => removeAttributeSelectorsFrom fuel rest
            | None => String c (removeAttributeSelectorsFrom fuel r)
            end
          else String c (removeAttributeSelectorsFrom fuel r)
      end
  end.

Definition removeAttributeSelectors (s : string) : string :=
  removeAttributeSelectorsFrom (S (String.length s)) s.

(** The last piece of [s.split(" > ")], when there is more than one. *)
Fixpoint lastPartFrom (fuel : nat) (s : string) (seen : bool) : option string :=
  match fuel with
  | O => None
  | S fuel =>
      match String.index 0 " > " s with
      | Some i => lastPartFrom fuel (dropChars (i + 3) s) true
      | None => if seen then Some s else None
      end
  end.

Definition lastPart (s : string) : option string :=
  lastPartFrom (S (String.length s)) s false.

(** The capture of the [match] that looks for a quoted, non-empty
    [data-blur-id] value in the selector text. *)
Fixpoint blurIdMatchFrom (fuel : nat) (s : string) : option string :=
  match fuel with
  | O => None
  | S fuel =>
      match s with
      | EmptyString => None
      | String _ r =>
          if startsWith ("data-blur-id=" +:+ doubleQuote) s then
            match spanUntil (fun c => Ascii.eqb c (ascii_of_nat 34))
                    (dropChars 14 s) with
            | (String a run, String _ _) => Some (String a run)
            | _ => blurIdMatchFrom fuel r
            end
          else blurIdMatchFrom fuel r
      end
  end.

Definition blurIdMatch (s : string) : option string :=
  blurIdMatchFrom (S (String.length s)) s.

(** What a restoration pass does to the page. *)
Inductive RestoreEvent :=
  AppliedToElement (target : nat)
| RecreatedArea (coordsText : string)
| BlurredExistingArea (target : nat)
| RestyledTextBlur (target : nat)
| MarkedTextBlur (target : nat)
| WrappedText (leaf span : nat)
| QueuedForCleanup (index : nat).

#[global] Instance RestoreEvent_eq_dec : EqDecision RestoreEvent.
Proof. solve_decision. Defined.

Definition markBlurForCleanup (index : nat) (a : BlurAnything) : BlurAnything :=
  if bool_decide (index ∈ blursToCleanup a) then a
  else set_blursToCleanup (blursToCleanup a ++ [index]) a.

Fixpoint insertDescending (i : nat) (l : list nat) : list nat :=
  match l with
  | [] => [i]
  | j :: r => if Nat.leb j i then i :: l else j :: insertDescending i r
  end.

(** [indices.sort((a, b) => b - a)]. *)
Definition sortDescending (l : list nat) : list nat :=
  foldr insertDescending [] l.

(** The [forEach] of [performBlurCleanup]: [splice(index, 1)] when the
    index is in range. *)
Definition spliceOut (store : list BlurData) (index : nat) : list BlurData :=
  if Nat.ltb index (length store) then delete index store else store.

Definition areValidCoordinates (c : Coords) : bool :=
  (0 <? width c)%Z && (0 <? height c)%Z && (0 <=? x c)%Z && (0 <=? y c)%Z.

(** The marks that are not queued, in their order; [k] is the index of
    the first mark of [l]. *)
Fixpoint keepUnqueuedFrom (k : nat) (queue : list nat) (l : list BlurData)
  : list BlurData :=
  match l with
  | [] => []
  | b :: r =>
      if bool_decide (k ∈ queue) then keepUnqueuedFrom (S k) queue r
      else b :: keepUnqueuedFrom (S k) queue r
  end.

Definition keepUnqueued (queue : list nat) (l : list BlurData)
  : list BlurData :=
  keepUnqueuedFrom 0 queue l.

(** A text node accepted by the [acceptNode] filter's first test: its
    parent is no mark container, no extension element and not inside the
    toolbar. *)
Definition insideExtensionUI (doc : Document) (n : Node) : bool :=
  match parentNode n with
  | Some parent =>
      match getElement doc parent with
      | Some pe =>
          contains textMarkerClass pe
          || startsWith "blur-anything-" (id pe)
          || closest doc isFloatingToolbar parent
      | None => false
      end
  | None => false
  end.

Section Restoration.
Context `{Browser}.

Definition performBlurCleanup (now : Z) (p : Page) : Page :=
  if bool_decide (blursToCleanup (self p) = []) then p
  else
    let sortedIndices := sortDescending (blursToCleanup (self p)) in
    let store := foldl spliceOut (marks p) sortedIndices in
    let removedCount := length (marks p) - length store in
    let p := setMarks store p in
    let p := set_self (set_blursToCleanup [] (self p)) p in
    if Nat.ltb 0 removedCount then saveBlurData now p else p.

(** [createFallbackSelector]: the selector text, and the document, in
    which method 4 imprints an attribute. *)
Definition createFallbackSelector (doc : Document) (blurData : BlurData)
    (index : nat) (now : Z) : Document * option string :=
  let originalSelector := selector blurData in
  let resolves text :=
    match querySelectorText doc text with
    | Some (Some _) => true
    | _ => false
    end in
  let simplifiedSelector :=
    removeAttributeSelectors
      (removePseudoSelectors
         (normalizeCombinators (collapseWhitespace originalSelector))) in
  if resolves simplifiedSelector then (doc, Some simplifiedSelector)
  else
    let viaLast :=
      match lastPart originalSelector with
      | Some part =>
          let part := removePseudoSelectors part in
          if resolves part then Some part else None
      | None => None
      end in
    match viaLast with
    | Some part => (doc, Some part)
    | None =>
        let tagOnlySelector :=
          trim (collapseWhitespace
                  (removeAttributeSelectors
                     (removePseudoSelectors
                        (removeClasses originalSelector)))) in
        if negb (bool_decide (tagOnlySelector = ""))
           && negb (bool_decide (tagOnlySelector = originalSelector))
           && resolves tagOnlySelector
        then (doc, Some tagOnlySelector)
        else
          match List.find
                  (elementSatisfies
                     (fun e => negb (hasAttribute "data-blur-fallback" e)))
                  (nodes doc) with
          | Some n =>
              let fallbackId :=
                "blur-recovery-" +:+ pretty index +:+ "-" +:+ pretty now in
              (updateElement doc (uid n)
                 (setAttribute "data-blur-fallback" fallbackId),
               Some ("[data-blur-fallback=" +:+ doubleQuote +:+ fallbackId
                     +:+ doubleQuote +:+ "]"))
          | None => (doc, None)
          end
    end.

Definition hasMarkerClass (doc : Document) (u : nat) : bool :=
  match getElement doc u with
  | Some e => contains markerClass e
  | None => false
  end.

(** The [type === "element"] branch of the scan. *)
Definition restoreElementMark (index : nat) (blurData : BlurData) (now : Z)
    (st : Page * list RestoreEvent) : Page * list RestoreEvent :=
  let '(p, log) := st in
  if bool_decide (selector blurData = "") then st
  else
    let '(doc, found) :=
      match querySelectorText (document p) (selector blurData) with
      | Some r => (document p, r)
      | None =>
          let '(doc, fallbackSelector) :=
            createFallbackSelector (document p) blurData index now in
          let viaFallback :=
            match fallbackSelector with
            | Some text =>
                match querySelectorText doc text with
                | Some r => r
                | None => None
                end
            | None => None
            end in
          match viaFallback with
          | Some u => (doc, Some u)
          | None =>
              match blurIdMatch (selector blurData) with
              | Some blurId =>
                  (doc,
                   match querySelector doc
                           (AttributeSelector "data-blur-id" blurId) with
                   | Some r => r
                   | None => None
                   end)
              | None => (doc, None)
              end
          end
      end in
    match found with
    | None =>
        (set_self (markBlurForCleanup index (self p)) (set_document doc p),
         log ++ [QueuedForCleanup index])
    | Some element =>
        let '(ok, doc) := canApplyBlurToElement doc element in
        if negb ok then (set_document doc p, log)
        else if hasMarkerClass doc element then (set_document doc p, log)
        else
          let '(doc, applied) :=
            applyBlurToElement (blurIntensity (self p)) doc element in
          (set_document doc p,
           if applied then log ++ [AppliedToElement element] else log)
    end.

Definition recreateBlurArea (intensity : Z) (c : Coords) (doc : Document)
  : Document :=
  appendToBody doc
    (set_style (parseStyleAttribute (areaCssText c))
       (createProperBlurOverlay intensity
          (setAttribute "data-coords" (coordsString (x c) (y c))
             (mkElement "div" "" [areaClass] [] [] "block" "visible"
                HTMLElement)))).

(** The [type === "area"] branch of the scan. *)
Definition restoreAreaMark (c : Coords) (st : Page * list RestoreEvent)
  : Page * list RestoreEvent :=
  let '(p, log) := st in
  if negb (areValidCoordinates c) then st
  else
    let coordsText := coordsString (x c) (y c) in
    match querySelector (document p)
            (AttributeSelector "data-coords" coordsText) with
    | Some (Some existingArea) =>
        let hasBlur :=
          match getElement (document p) existingArea with
          | Some e =>
              includes "blur" (getPropertyValue "backdrop-filter" (style e))
          | None => false
          end in
        if hasBlur then st
        else
          (set_document
             (updateElement (document p) existingArea
                (createProperBlurOverlay (blurIntensity (self p)))) p,
           log ++ [BlurredExistingArea existingArea])
    | _ =>
        (set_document
           (recreateBlurArea (blurIntensity (self p)) c (document p)) p,
         log ++ [RecreatedArea coordsText])
    end.

Definition styleTextBlur (intensity : Z) (e : Element) : Element :=
  set_style
    (setProperty "cursor" "pointer" false
       (setProperty "transition" "filter 0.3s ease" false
          (setProperty "filter" (blurFunction intensity) false (style e))))
    e.

(** [restoreTextBlurBySelector]: whether it restored, and its event. *)
Definition restoreTextBlurBySelector (sel : string) (p : Page)
  : option (Page * RestoreEvent) :=
  match querySelectorText (document p) sel with
  | Some (Some element) =>
      match getElement (document p) element with
      | Some e =>
          if contains textMarkerClass e
          then Some (set_document
                       (updateElement (document p) element
                          (styleTextBlur (blurIntensity (self p)))) p,
                     RestyledTextBlur element)
          else Some (set_document
                       (updateElement (document p) element
                          (fun e => styleTextBlur (blurIntensity (self p))
                                      (classListAdd textMarkerClass e))) p,
                     MarkedTextBlur element)
      | None => None
      end
  | _ => None
  end.

Definition restoredSpan (intensity : Z) (index : nat) (now : Z) : Element :=
  styleTextBlur intensity
    (mkElement "span"
       ("blur-text-restored-" +:+ pretty index +:+ "-" +:+ pretty now)
       [textMarkerClass] [] [] "inline" "visible" HTMLElement).

(** The text nodes the [TreeWalker] accepts: below [document.body],
    outside mark containers and extension elements, and containing the
    text. *)
Definition acceptNode (doc : Document) (searchText : string) (n : Node)
  : bool :=
  match kind n with
  | TextNode data =>
      hasAncestor (length (nodes doc)) doc (uid n) (body doc)
      && negb (insideExtensionUI doc n)
      && includes searchText (trim data)
  | ElementNode _ => false
  end.

(** [range.surroundContents(span)] on the match inside one text node:
    the node keeps the text before the match, the span (with uid [s])
    holds a new node with the match, a new node holds the text after
    it. *)
Definition surroundContents (s : nat) (searchText : string) (span : Element)
    (n : Node) : list Node :=
  match kind n with
  | TextNode data =>
      match String.index 0 searchText data with
      | Some textIndex =>
          [mkNode (uid n) (parentNode n)
             (TextNode (String.substring 0 textIndex data));
           mkNode s (parentNode n) (ElementNode span);
           mkNode (S s) (Some s) (TextNode searchText);
           mkNode (S (S s)) (parentNode n)
             (TextNode
                (dropChars (textIndex + String.length searchText) data))]
      | None => [n]
      end
  | ElementNode _ => [n]
  end.

(** The [while] loop over the walker: the first accepted node in which
    [indexOf] finds the text is wrapped. *)
Fixpoint wrapFirst (accept : Node -> bool) (wrap : Node -> list Node)
    (l : list Node) : option (list Node * nat) :=
  match l with
  | [] => None
  | n :: r =>
      if accept n then Some (wrap n ++ r, uid n)
      else match wrapFirst accept wrap r with
           | Some (r', u) => Some (n :: r', u)
           | None => None
           end
  end.

Definition containsText (searchText : string) (n : Node) : bool :=
  match kind n with
  | TextNode data => includes searchText data
  | ElementNode _ => false
  end.

Definition findAndBlurTextContent (textContent : string) (blurIndex : nat)
    (now : Z) (p : Page) : option (Page * RestoreEvent) :=
  if Nat.ltb (String.length (trim textContent)) 2 then None
  else
    let searchText := trim textContent in
    let doc := document p in
    match wrapFirst
            (fun n => acceptNode doc searchText n && containsText searchText n)
            (surroundContents (freshUid doc) searchText
               (restoredSpan (blurIntensity (self p)) blurIndex now))
            (nodes doc) with
    | Some (l, leaf) =>
        Some (set_document (mkDocument l (body doc)) p,
              WrappedText leaf (freshUid doc))
    | None => None
    end.

(** The [type === "text"] branch of the scan. *)
Definition restoreTextMark (index : nat) (blurData : BlurData) (now : Z)
    (st : Page * list RestoreEvent) : Page * list RestoreEvent :=
  let '(p, log) := st in
  match querySelectorText (document p) (selector blurData) with
  | None => st
  | Some _ =>
      match restoreTextBlurBySelector (selector blurData) p with
      | Some (p, ev) => (p, log ++ [ev])
      | None =>
          let viaText :=
            match text blurData with
            | Some t =>
                if bool_decide (t = "") then None
                else findAndBlurTextContent t index now p
            | None => None
            end in
          match viaText with
          | Some (p, ev) => (p, log ++ [ev])
          | None =>
              (set_self (markBlurForCleanup index (self p)) p,
               log ++ [QueuedForCleanup index])
          end
      end
  end.

(** The callback of [this.blurredElements.forEach]. *)
Definition restoreMark (now : Z) (st : Page * list RestoreEvent)
    (entry : nat * BlurData) : Page * list RestoreEvent :=
  let '(index, blurData) := entry in
  match type blurData, coords blurData with
  | TypeElement, _ => restoreElementMark index blurData now st
  | TypeArea, Some c => restoreAreaMark c st
  | TypeText, _ => restoreTextMark index blurData now st
  | TypeArea, None => st
  end.

(** The scan of one pass over the store as it is at the start. *)
Definition scanMarks (now : Z) (p : Page) : Page * list RestoreEvent :=
  foldl (restoreMark now) (p, []) (imap (fun i b => (i, b)) (marks p)).

(** One restoration pass. *)
Definition applyExistingBlurs (now : Z) (p : Page)
  : Page * list RestoreEvent :=
  if bool_decide (marks p = []) then (p, [])
  else
    let '(p, log) := scanMarks now p in
    (performBlurCleanup now p, log).

End Restoration.

(** *** What the cleanup queue holds *)

(** Strictly descending lists of indices. *)
Fixpoint descending (l : list nat) : Prop :=
  match l with
  | [] => True
  | i :: r => (forall j, j ∈ r -> j < i) /\ descending r
  end.

Definition isQueueEvent (ev : RestoreEvent) : bool :=
  match ev with QueuedForCleanup _ => true | _ => false end.

(** The queue holds exactly the indices whose cleanup was logged, once
    each, all below [n]. *)
Definition queueInvariant (n : nat) (st : Page * list RestoreEvent) : Prop :=
  NoDup (blursToCleanup (self st.1))
  /\ (forall i, i ∈ blursToCleanup (self st.1)
                <-> QueuedForCleanup i ∈ st.2)
  /\ (forall i, i ∈ blursToCleanup (self st.1) -> i < n).

(** *** The passes of [init] *)

Section RestorationSequence.
Context `{Browser}.



(** What [init] runs that reads or writes the store or restores from it. *)
Inductive RestorationStep :=
  ImmediateRestoration (now : Z)
| LoadSettings (settings : option (option bool * option Z))
| LoadBlurData
| RestorationPass (now : Z).



(** The order of [init]: the pass before the load, the settings, the
    load, then [scheduleBlurRestoration] with its pass and its retry. *)
Definition initSteps (now : Z) (settings : option (option bool * option Z))
    (scheduled retry : Z) : list RestorationStep :=
  [ImmediateRestoration now; LoadSettings settings; LoadBlurData;
   RestorationPass scheduled; RestorationPass retry].
End RestorationSequence.

(** *** What a pass may not undo *)


Definition markedTarget (ev : RestoreEvent) : option nat :=
  match ev with MarkedTextBlur u => Some u | _ => None end.

Definition recreatedArea (ev : RestoreEvent) : option string :=
  match ev with RecreatedArea cs => Some cs | _ => None end.

Definition wrappedSpan (ev : RestoreEvent) : option nat :=
  match ev with WrappedText _ s => Some s | _ => None end.




Definition markedTargets (log : list RestoreEvent) : list nat :=
  omap markedTarget log.

Definition recreatedAreas (log : list RestoreEvent) : list string :=
  omap recreatedArea log.

Definition wrappedSpans (log : list RestoreEvent) : list nat :=
  omap wrappedSpan log.



Definition hasTextMarkerClass (doc : Document) (u : nat) : bool :=
  match getElement doc u with
  | Some e => contains textMarkerClass e
  | None => false
  end.

(** The test of the region branch: the inline [backdrop-filter] holds a
    blur. *)
Definition hasBackdropBlur (e : Element) : bool :=
  includes "blur" (getPropertyValue "backdrop-filter" (style e)).


(** Some element carries [data-coords] with this value. *)
Definition hasArea (doc : Document) (coordsText : string) : Prop :=
  exists n e, n ∈ nodes doc /\ asElement n = Some e
              /\ getAttribute "data-coords" e = Some coordsText.

(** A text node whose parent is a mark container. *)
Definition insideMarkContainer (doc : Document) (n : Node) : Prop :=
  (exists data, kind n = TextNode data)
  /\ exists q pe, parentNode n = Some q /\ getElement doc q = Some pe
                  /\ textMarkerClass ∈ classList pe.

(** [doc'] keeps every element of [doc] with at least its classes, its
    [data-coords] and its inline backdrop blur, every [data-coords]
    overlay, and every text node inside a mark container. *)
Definition grows (doc doc' : Document) : Prop :=
  (forall u e, getElement doc u = Some e ->
     exists e', getElement doc' u = Some e' /\ classList e ⊆ classList e'
                /\ getAttribute "data-coords" e'
                   = getAttribute "data-coords" e
                /\ (hasBackdropBlur e = true -> hasBackdropBlur e' = true))
  /\ (forall cs, hasArea doc cs -> hasArea doc' cs)
  /\ (forall n, n ∈ nodes doc -> insideMarkContainer doc n -> n ∈ nodes doc').

(** Element updates that drop no class, keep [data-coords] and keep an
    inline backdrop blur. *)
Definition benign (f : Element -> Element) : Prop :=
  forall e, classList e ⊆ classList (f e)
            /\ getAttribute "data-coords" (f e) = getAttribute "data-coords" e
            /\ (hasBackdropBlur e = true -> hasBackdropBlur (f e) = true).

(** Element updates that do not add the mark-container class. *)
Definition quiet (f : Element -> Element) : Prop :=
  forall e, textMarkerClass ∈ classList (f e) -> textMarkerClass ∈ classList e.


(** Every element that carries the mark-container class in [doc'] carried
    it in [doc], was marked by an event of the log or is a container that
    an event of the log created. *)
Definition onlyMarked (doc doc' : Document) (log : list RestoreEvent) : Prop :=
  forall u, hasTextMarkerClass doc' u = true ->
            hasTextMarkerClass doc u = true
            \/ u ∈ markedTargets log \/ u ∈ wrappedSpans log.




(** Between [doc] and [doc'] nothing was marked: [doc'] grows [doc] and
    no element gained the mark-container class. *)
Definition silent (doc doc' : Document) : Prop :=
  grows doc doc' /\ onlyMarked doc doc' [].



(** ** Intensity update *)

(** [s.replace(/blur\([^)]*\)/g, by)]. *)
Definition replaceBlurFunctions (by_ s : string) : string :=
  replaceBlurFunctionsFrom (S (String.length s)) by_ s.

(** [document.querySelectorAll("." + c).forEach(f)], for an [f] that
    changes only the element it is given. *)
Definition forEachWithClass (c : string) (f : Element -> Element)
    (doc : Document) : Document :=
  mkDocument
    (map (fun n =>
            match kind n with
            | ElementNode e =>
                if contains c e
                then mkNode (uid n) (parentNode n) (ElementNode (f e))
                else n
            | TextNode _ => n
            end)
       (nodes doc))
    (body doc).

Section IntensityUpdate.
Context `{Browser}.

Definition updateBlurOverlay (intensity : Z) (e : Element) : Element :=
  set_style
    (setProperty "-webkit-backdrop-filter" (blurFunction intensity) false
       (setProperty "backdrop-filter" (blurFunction intensity) false
          (style e))) e.

(** The three loops of [performBlurIntensityUpdate]: marked elements,
    overlays (a hidden one has its stored value updated instead), text
    containers. *)
Definition updateMarkedElement (intensity : Z) (e : Element) : Element :=
  setFilter
    (replaceBlurFunctions (blurFunction intensity)
       (getPropertyValue "filter" (style e))) e.

Definition updateArea (intensity : Z) (e : Element) : Element :=
  if hasAttribute "data-original-backdrop" e
  then setAttribute "data-original-backdrop" (blurFunction intensity) e
  else
    let effectiveIntensity := Z.max 1 intensity in
    let e := set_style
               (removeProperty "filter"
                  (removeProperty "-webkit-backdrop-filter"
                     (removeProperty "backdrop-filter" (style e)))) e in
    let e := updateBlurOverlay effectiveIntensity e in
    set_style
      (setProperty "background-color" "rgba(0, 0, 0, 0.05)" false (style e))
      e.

Definition performBlurIntensityUpdate (intensity : Z) (doc : Document)
  : Document :=
  let doc := forEachWithClass markerClass (updateMarkedElement intensity) doc in
  let doc := forEachWithClass areaClass (updateArea intensity) doc in
  forEachWithClass textMarkerClass (setFilter (blurFunction intensity)) doc.
End IntensityUpdate.

(** ** Auxiliary notions of the properties *)


(** The toolbar's text button pressed twice, [k] times over. *)
Definition textModeToggles (k : nat) : list ModeOp :=
  concat (replicate k [OpToolbarClick ToolbarTextMode;
                       OpToolbarClick ToolbarTextMode]).

(** No user is present, the context is live and the daily count of the
    free tier is within the limit. *)
Definition withinDailyLimit (p : Page) : Prop :=
  firebaseUser p = false
  /\ FreemiumService.currentTier (freemium p) = FreemiumService.Free
  /\ FreemiumService.contextValid (freemium p) = true
  /\ forall u, FreemiumService.stored (freemium p) = Some u ->
               (FreemiumService.blurCount u <= 10)%Z.

(** ** A reference browser and sample pages

    Used to run the definitions on concrete inputs. *)

Fixpoint splitOn (sep : ascii) (s : string) : list string :=
  match s with
  | EmptyString => [EmptyString]
  | String c r =>
      if Ascii.eqb c sep then EmptyString :: splitOn sep r
      else match splitOn sep r with
           | piece :: rest => String c piece :: rest
           | [] => [String c EmptyString]
           end
  end.

Fixpoint beforeFirst (stop : ascii) (s : string) : string :=
  match s with
  | EmptyString => EmptyString
  | String c r =>
      if Ascii.eqb c stop then EmptyString else String c (beforeFirst stop r)
  end.

(** One [property: value [!important]] piece of a style text. *)
Definition parseDeclaration (piece : string) : option Declaration :=
  match afterFirst ":" piece with
  | None => None
  | Some v =>
      let name := toLowerCase (trim (beforeFirst ":" piece)) in
      let v := trim v in
      let prio := endsWith "!important" v in
      let v := if prio
               then trim (String.substring 0 (String.length v - 10) v)
               else v in
      if bool_decide (name = "") || bool_decide (v = "")
         || negb (allChars isIdentifierChar name)
      then None
      else Some (mkDeclaration name v prio)
  end.

Definition parseDeclarations (text : string) : list Declaration :=
  omap parseDeclaration (splitOn ";" text).

(** Accepts every value, parses style text declaration by declaration,
    renders [btoa] as the identity and resolves the selector texts that
    are a tag name or [#id]. *)
Definition referenceBrowser : Browser :=
  {| cssSupports := fun _ _ => true;
     parseStyleAttribute := parseDeclarations;
     btoa := fun s => s;
     querySelectorText := fun doc text =>
       Some (head (map uid
                     (List.filter
                        (elementSatisfies
                           (fun e => bool_decide (tagName e = text)
                                     || bool_decide ("#" +:+ id e = text)))
                        (nodes doc)))) |}.

Definition plainElement (tag ident : string) : Element :=
  mkElement tag ident [] [] [] "block" "visible" HTMLElement.

(** [html > body > (div#dup, div#dup)]: two elements share an id. *)
Definition duplicateIdDocument : Document :=
  mkDocument
    [mkNode 1 None (ElementNode (plainElement "html" ""));
     mkNode 2 (Some 1) (ElementNode (plainElement "body" ""));
     mkNode 3 (Some 2) (ElementNode (plainElement "div" "dup"));
     mkNode 4 (Some 2) (ElementNode (plainElement "div" "dup"))]
    2.

(** [html > body > h1]. *)
Definition headingDocument : Document :=
  mkDocument
    [mkNode 1 None (ElementNode (plainElement "html" ""));
     mkNode 2 (Some 1) (ElementNode (plainElement "body" ""));
     mkNode 3 (Some 2)
       (ElementNode
          (mkElement "h1" "" ["title"] [("lang", "en")]
             [mkDeclaration "color" "red" false] "block" "visible"
             HTMLElement))]
    2.

Definition freeTier : FreemiumService.State :=
  FreemiumService.mkState FreemiumService.Free None None true.

(** A signed-out page on [url] with nothing stored anywhere. *)
Definition freshPage (url : string) (doc : Document) : Page :=
  mkPage newBlurAnything doc url None ∅ true false false None true freeTier [] [].

Definition sampleMark (sel : string) (now : Z) : BlurData :=
  mkBlurData sel TypeElement None None now.

(** A signed-out page whose local cache holds two marks for its url while
    the in-extension store holds one. *)
Definition staleExtensionPage : Page :=
  let url := "https://example.org/a" in
  mkPage newBlurAnything headingDocument url
    (Some (LocalStorage.Parsed
             (LocalStorage.mkLocalData url
                (Some [sampleMark "h1" 1; sampleMark "p" 2]) 1700)))
    {[ url := [sampleMark "h1" 1] ]} true false false None true freeTier [] [].



(** [html > body > (div#main, div)]: one element has an id, and it is the
    only one with that id. *)
Definition mainDocument : Document :=
  mkDocument
    [mkNode 1 None (ElementNode (plainElement "html" ""));
     mkNode 2 (Some 1) (ElementNode (plainElement "body" ""));
     mkNode 3 (Some 2) (ElementNode (plainElement "div" "main"));
     mkNode 4 (Some 2) (ElementNode (plainElement "div" ""))]
    2.

(** A stored region mark. *)
Definition regionMark (c : Coords) (now : Z) : BlurData :=
  mkBlurData (areaSelector c) TypeArea (Some c) None now.




(** The same page with a Firebase user present. *)
Definition withFirebaseUser (p : Page) : Page :=
  mkPage (self p) (document p) (href p) (localStorage p) (extensionStorage p)
    (extensionAvailable p) (isAuthenticated p) true (firestore p)
    (setDocResolves p) (freemium p) (injectedStyles p) (notifications p).

(** A page in draw mode with an anchor at (50, 50) and a preview. *)
Definition drawingPage : Page :=
  set_self
    (set_drawing (Some (50, 50)%Z) (Some (mkOverlay None))
       (setExclusiveMode ModeDraw (set_isEnabled true newBlurAnything)))
    (freshPage "https://example.org/a" headingDocument).

(* ================================================================== *)
(** * Properties *)

(** ** Interaction mode machine *)

Lemma setExclusiveMode_activeModes mode s :
  activeModes (setExclusiveMode mode s) <= 1 \/
  setExclusiveMode mode s = s.
Proof.
  unfold setExclusiveMode.
  destruct (negb (isEnabled s) && negb (bool_decide (mode = ModeNone))).
  - by right.
  - left. destruct mode; cbn; lia.
Qed.

Lemma setExclusiveMode_exclusive mode s :
  activeModes s <= 1 -> activeModes (setExclusiveMode mode s) <= 1.
Proof.
  intros Hs. destruct (setExclusiveMode_activeModes mode s) as [H | ->]; done.
Qed.

Lemma modeStep_exclusive s op :
  usesExclusiveSetter op = true ->
  activeModes s <= 1 -> activeModes (modeStep s op) <= 1.
Proof.
  intros Hop Hs. destruct op as [mode | b | k | m]; cbn.
  - by apply setExclusiveMode_exclusive.
  - pose proof (setExclusiveMode_exclusive ModeNone s Hs) as Hnone.
    destruct b; cbn;
      first [ exact Hnone
            | match goal with
              | |- context [if ?c then _ else _] => destruct c
              end; by apply setExclusiveMode_exclusive ].
  - unfold handleKeyDown. destruct (negb (isEnabled s)); [done |].
    destruct k.
    + destruct (isDrawingMode s); by apply setExclusiveMode_exclusive.
    + destruct (isDrawingMode s || isEraserMode s); [| done].
      pose proof (setExclusiveMode_exclusive ModeNone s Hs) as H.
      by unfold activeModes in *.
  - destruct m; try discriminate; unfold handleMessage.
    + done.
    + destruct (isEnabled s) eqn:He; cbn; lia.
    + unfold showFloatingToolbar. destruct (isEnabled s); [| done].
      apply setExclusiveMode_exclusive. by unfold activeModes in *.
    + cbn. lia.
Qed.

(** Every run that only uses [setExclusiveMode], the toolbar buttons, the
    keyboard shortcuts and the enable / toolbar messages keeps at most one
    gesture mode active. *)
Lemma exclusive_setter_runs ops s :
  forallb usesExclusiveSetter ops = true ->
  activeModes s <= 1 -> activeModes (runModeOps s ops) <= 1.
Proof.
  revert s. induction ops as [| op ops IH]; intros s Hops Hs; [done |].
  cbn in Hops. apply andb_prop in Hops as [Hop Hops].
  cbn. apply IH; [done |]. by apply modeStep_exclusive.
Qed.

(** C2 (evaluation at the failing input): after [init] of an enabled
    session the [toggleDrawMode] message handler flips [isDrawingMode]
    without clearing [isBlurMode], so two gesture modes are active at once;
    [toggleEraserMode] then makes it three. *)
Theorem toggle_messages_break_exclusivity :
  let s1 := runModeOps enabledSession [OpMessage MsgToggleDrawMode] in
  let s2 := runModeOps enabledSession
              [OpMessage MsgToggleDrawMode; OpMessage MsgToggleEraserMode] in
  activeModes enabledSession = 1 /\
  isBlurMode s1 = true /\ isDrawingMode s1 = true /\ activeModes s1 = 2 /\
  activeModes s2 = 3.
Proof. repeat split; reflexivity. Qed.

(** ** Blur intensity *)

(** C9: from an intensity in [1, 10], a change of +1 or -1 leaves the
    intensity in [1, 10]; when the change would cross a bound the state is
    returned unchanged and the only effects are toolbar notifications. *)
Theorem adjustBlurIntensity_bounds (change : Z) (s : BlurAnything) :
  (1 <= blurIntensity s <= 10)%Z ->
  change = 1%Z \/ change = (-1)%Z ->
  let r := adjustBlurIntensity change s in
  (1 <= blurIntensity (r.1) <= 10)%Z /\
  ((blurIntensity s + change < 1 \/ 10 < blurIntensity s + change)%Z ->
     r.1 = s /\ r.2 <> [] /\ forallb isNotification (r.2) = true) /\
  ((1 <= blurIntensity s + change <= 10)%Z ->
     blurIntensity (r.1) = (blurIntensity s + change)%Z).
Proof.
  intros Hrange Hchange. unfold adjustBlurIntensity. cbn zeta.
  destruct (Z.eqb_spec (Z.max 1 (Z.min 10 (blurIntensity s + change)))
              (blurIntensity s)) as [Heq | Hne]; cbn.
  - split; [lia |]. split.
    + intros Hcross. split; [done |].
      repeat match goal with
             | |- context [Z.eqb ?a ?b] => destruct (Z.eqb_spec a b)
             end; cbn; try done; lia.
    + lia.
  - split; [lia |]. split; [lia | lia].
Qed.

Lemma adjustBlurIntensity_bounds_witness :
  let s := set_blurIntensity 10 newBlurAnything in
  let r := adjustBlurIntensity 1 s in
  (1 <= blurIntensity (r.1) <= 10)%Z /\
  ((blurIntensity s + 1 < 1 \/ 10 < blurIntensity s + 1)%Z ->
     r.1 = s /\ r.2 <> [] /\ forallb isNotification (r.2) = true) /\
  ((1 <= blurIntensity s + 1 <= 10)%Z ->
     blurIntensity (r.1) = (blurIntensity s + 1)%Z).
Proof.
  apply (adjustBlurIntensity_bounds 1 (set_blurIntensity 10 newBlurAnything));
    [cbn; lia | by left].
Defined.

(** ** Document model *)

Lemma uid_updateNode u f n : uid (updateNode u f n) = uid n.
Proof.
  unfold updateNode. destruct (Nat.eqb (uid n) u); [| done].
  by destruct (kind n).
Qed.

Lemma getNode_updateElement doc u v f :
  getNode (updateElement doc u f) v = updateNode u f <$> getNode doc v.
Proof.
  unfold getNode, updateElement; cbn.
  induction (nodes doc) as [| n l IH]; [done |]. cbn.
  rewrite uid_updateNode.
  destruct (Nat.eqb (uid n) v); [done | apply IH].
Qed.

Lemma getElement_updateElement doc u f :
  getElement (updateElement doc u f) u = f <$> getElement doc u.
Proof.
  unfold getElement. rewrite getNode_updateElement.
  destruct (getNode doc u) as [n |] eqn:Hn; [| done]. cbn.
  apply find_some in Hn as [_ Hn]. unfold updateNode. rewrite Hn.
  unfold asElement. destruct (kind n) eqn:Hk; cbn; [done |]. by rewrite Hk.
Qed.

Lemma getElement_updateElement_ne doc u v f :
  u <> v -> getElement (updateElement doc u f) v = getElement doc v.
Proof.
  intros Hne. unfold getElement. rewrite getNode_updateElement.
  destruct (getNode doc v) as [n |] eqn:Hn; [| done]. cbn.
  apply find_some in Hn as [_ Hn]. apply Nat.eqb_eq in Hn.
  unfold updateNode. destruct (Nat.eqb_spec (uid n) u); [congruence | done].
Qed.

(** ** Inline style *)

Section StyleFacts.
Context `{Browser}.

Lemma getDeclaration_setProperty p v prio s :
  v <> "" -> cssSupports p v = true ->
  getDeclaration p (setProperty p v prio s) = Some (mkDeclaration p v prio).
Proof.
  intros Hv Hsup. unfold setProperty.
  rewrite bool_decide_false by done. rewrite Hsup. cbn.
  destruct (getDeclaration p s) as [d |] eqn:Hd; unfold getDeclaration in *.
  - induction s as [| d' s IH]; [done |]. cbn in *.
    destruct (String.eqb (property d') p) eqn:He; cbn.
    + by rewrite String.eqb_refl.
    + rewrite He. by apply IH.
  - induction s as [| d' s IH]; cbn in *.
    + by rewrite String.eqb_refl.
    + destruct (String.eqb (property d') p) eqn:He; [done |]. by apply IH.
Qed.

Lemma getDeclaration_setProperty_ne p q v prio s :
  p <> q ->
  getDeclaration p (setProperty q v prio s) = getDeclaration p s.
Proof.
  intros Hne. unfold setProperty, removeProperty, getDeclaration.
  assert (Hq : forall d, property d = q -> String.eqb (property d) p = false).
  { intros d <-. apply String.eqb_neq. congruence. }
  case_bool_decide.
  - induction s as [| d s IH]; [done |]. cbn.
    destruct (decide (property d <> q)) as [Hd | Hd]; cbn.
    + destruct (String.eqb (property d) p); [done | apply IH].
    + apply dec_stable in Hd. rewrite (Hq d Hd). apply IH.
  - destruct (cssSupports q v); cbn; [| done].
    destruct (find _ s) as [d0 |] eqn:Hfind.
    + clear Hfind. induction s as [| d s IH]; [done |]. cbn.
      destruct (String.eqb_spec (property d) q) as [Hd | Hd]; cbn.
      * rewrite (Hq d Hd).
        destruct (String.eqb_spec q p); [congruence | apply IH].
      * destruct (String.eqb (property d) p); [done | apply IH].
    + clear Hfind. induction s as [| d s IH]; cbn.
      * destruct (String.eqb_spec q p); [congruence | done].
      * destruct (String.eqb (property d) p); [done | apply IH].
Qed.
End StyleFacts.

(** ** Effect applier *)

Lemma sameButEffect_refl e : sameButEffect e e.
Proof. by repeat split. Qed.

Lemma sameButEffect_trans e1 e2 e3 :
  sameButEffect e1 e2 -> sameButEffect e2 e3 -> sameButEffect e1 e3.
Proof.
  intros (? & ? & ? & ? & ? & ? & ? & ?) (? & ? & ? & ? & ? & ? & ? & ?).
  repeat split; congruence.
Qed.

Lemma filter_replace_attribute (name v : string) (l : list (string * string)) :
  filter (fun a : string * string => a.1 <> name)
    (map (fun a : string * string =>
            if String.eqb a.1 name then (name, v) else a) l)
  = filter (fun a : string * string => a.1 <> name) l.
Proof.
  induction l as [| [k w] l IH]; [done |].
  rewrite map_cons, !filter_cons. cbn [fst].
  destruct (String.eqb_spec k name) as [-> | Hk]; cbn [fst].
  - rewrite !decide_False by (by intros []). apply IH.
  - rewrite !decide_True by done. by f_equal.
Qed.

Lemma sameButEffect_classListAdd e :
  sameButEffect e (classListAdd markerClass e).
Proof.
  unfold sameButEffect, classListAdd.
  destruct (contains markerClass e); [done |]. cbn [classList set_classList].
  rewrite filter_app, filter_cons, decide_False by (by intros []).
  by rewrite filter_nil, app_nil_r.
Qed.

Lemma sameButEffect_setAttribute e :
  sameButEffect e (setAttribute "data-blur-applied" "true" e).
Proof.
  unfold sameButEffect, setAttribute.
  destruct (hasAttribute "data-blur-applied" e);
    cbn [attributes classList tagName id set_attributes].
  - by rewrite filter_replace_attribute.
  - rewrite filter_app, filter_cons, decide_False by (by intros []).
    by rewrite filter_nil, app_nil_r.
Qed.

Lemma sameButEffect_mark e :
  sameButEffect e
    (setAttribute "data-blur-applied" "true" (classListAdd markerClass e)).
Proof.
  eapply sameButEffect_trans;
    [apply sameButEffect_classListAdd | apply sameButEffect_setAttribute].
Qed.

Lemma removeProperty_idempotent p s :
  removeProperty p (removeProperty p s) = removeProperty p s.
Proof.
  unfold removeProperty. induction s as [| d s IH]; [done |].
  rewrite filter_cons. destruct (decide (property d <> p)) as [Hd | Hd].
  - rewrite filter_cons, decide_True by done. by f_equal.
  - done.
Qed.

Section EffectFacts.
Context `{Browser}.

(** A write to the inline [filter] touches no other declaration. *)
Lemma removeProperty_setProperty p v prio s :
  removeProperty p (setProperty p v prio s) = removeProperty p s.
Proof.
  unfold setProperty. case_bool_decide; [apply removeProperty_idempotent |].
  destruct (cssSupports p v); cbn [negb]; [| done].
  unfold removeProperty.
  destruct (getDeclaration p s) as [d0 |].
  - induction s as [| d s IH]; [done |]. rewrite map_cons, !filter_cons.
    destruct (String.eqb_spec (property d) p) as [Hd | Hd].
    + cbn [property]. rewrite !decide_False by (by intros []). apply IH.
    + rewrite !decide_True by done. by f_equal.
  - rewrite filter_app, filter_cons. cbn [property].
    rewrite decide_False by (by intros []).
    by rewrite filter_nil, app_nil_r.
Qed.

Lemma sameButEffect_setFilter v e : sameButEffect e (setFilter v e).
Proof.
  unfold sameButEffect, setFilter.
  cbn [style set_style classList attributes tagName id computedDisplay
       computedVisibility interface].
  rewrite removeProperty_setProperty. by repeat split.
Qed.

Lemma sameButEffect_probeFilter e : sameButEffect e (probeFilter e).
Proof.
  unfold probeFilter.
  eapply sameButEffect_trans; apply sameButEffect_setFilter.
Qed.

Lemma applyBlurToElement_element intensity doc t e :
  getElement doc t = Some e ->
  exists cur,
    getElement (applyBlurToElement intensity doc t).1 t = Some cur
    /\ sameButEffect e cur.
Proof.
  intros He. unfold applyBlurToElement, canApplyBlurToElement.
  assert (Hprobe : getElement (updateElement doc t probeFilter) t
                   = Some (probeFilter e))
    by (by rewrite getElement_updateElement, He).
  assert (Hstay : exists cur, getElement doc t = Some cur
                              /\ sameButEffect e cur)
    by (exists e; split; [done | apply sameButEffect_refl]).
  assert (Hprobed : exists cur,
             getElement (updateElement doc t probeFilter) t = Some cur
             /\ sameButEffect e cur).
  { exists (probeFilter e). split; [done |]. apply sameButEffect_probeFilter. }
  assert (Hdone : exists cur,
    getElement
      (match applyBlurWithFallbacks intensity
               (updateElement doc t probeFilter) t with
       | Some d =>
           (updateElement d t
              (fun e => setAttribute "data-blur-applied" "true"
                          (classListAdd markerClass e)), true)
       | None => (updateElement doc t probeFilter, false)
       end).1 t = Some cur /\ sameButEffect e cur).
  { unfold applyBlurWithFallbacks, tryOnElement. rewrite Hprobe. cbn.
    rewrite !getElement_updateElement, He. cbn. eexists. split; [done |].
    eapply sameButEffect_trans; [| apply sameButEffect_mark].
    eapply sameButEffect_trans;
      [apply sameButEffect_probeFilter | apply sameButEffect_setFilter]. }
  destruct (getNode doc t) as [n |]; [| done].
  destruct (parentNode n); [| done].
  destruct (kind n) as [e0 |]; [| done].
  repeat match goal with
         | |- context [if ?c then _ else _] =>
             destruct c; cbn -[applyBlurWithFallbacks]; try done
         end.
Qed.

Lemma applyRepeatedly_element intensities doc t e :
  getElement doc t = Some e ->
  exists cur,
    getElement (applyRepeatedly intensities doc t) t = Some cur
    /\ sameButEffect e cur.
Proof.
  unfold applyRepeatedly. revert doc e.
  induction intensities as [| i l IH]; intros doc e He; cbn.
  - exists e. split; [done | apply sameButEffect_refl].
  - destruct (applyBlurToElement_element i doc t e He) as (c1 & Hc1 & Hs1).
    destruct (IH _ _ Hc1) as (c2 & Hc2 & Hs2).
    exists c2. split; [done |]. by eapply sameButEffect_trans.
Qed.

(** Method 3 of the removal reads and writes the inline style only. *)
Lemma cleanStyleAttribute_frame e :
  classList (cleanStyleAttribute e) = classList e
  /\ attributes (cleanStyleAttribute e) = attributes e
  /\ tagName (cleanStyleAttribute e) = tagName e
  /\ id (cleanStyleAttribute e) = id e
  /\ computedDisplay (cleanStyleAttribute e) = computedDisplay e
  /\ computedVisibility (cleanStyleAttribute e) = computedVisibility e
  /\ interface (cleanStyleAttribute e) = interface e.
Proof.
  unfold cleanStyleAttribute.
  repeat match goal with
         | |- context [if ?c then _ else _] => destruct c
         end; done.
Qed.

Lemma cleanStyleAttribute_style e e' :
  style e = style e' ->
  style (cleanStyleAttribute e) = style (cleanStyleAttribute e').
Proof.
  intros Hs. unfold cleanStyleAttribute. rewrite Hs.
  repeat match goal with
         | |- context [if ?c then _ else _] => destruct c
         end; done.
Qed.

(** What [removeBlur] leaves outside the inline style. *)
Lemma removeBlur_frame cur :
  let e' := removeBlur cur in
  classList e'
  = filter (fun c => c <> textMarkerClass)
      (filter (fun c => c <> markerClass) (classList cur))
  /\ attributes e'
     = filter (fun a : string * string => a.1 <> "data-blur-id")
         (filter (fun a : string * string => a.1 <> "data-blur-applied")
            (attributes cur))
  /\ tagName e' = tagName cur /\ id e' = id cur
  /\ computedDisplay e' = computedDisplay cur
  /\ computedVisibility e' = computedVisibility cur
  /\ interface e' = interface cur.
Proof.
  unfold removeBlur.
  set (e1 := cleanStyleAttribute _).
  destruct (cleanStyleAttribute_frame
              (set_style
                 (setProperty "filter" "" false
                    (style (set_style (removeProperty "filter" (style cur))
                              cur)))
                 (set_style (removeProperty "filter" (style cur)) cur)))
    as (Hc & Ha & Ht & Hi & Hd & Hv & Hf).
  fold e1 in Hc, Ha, Ht, Hi, Hd, Hv, Hf.
  cbn -[setProperty getDeclaration filter].
  rewrite Hc, Ha, Ht, Hi, Hd, Hv, Hf. done.
Qed.

(** The inline style that [removeBlur] leaves depends on the style it
    finds only through the declarations other than [filter]. *)
Lemma removeBlur_style cur e :
  removeProperty "filter" (style cur) = removeProperty "filter" (style e) ->
  style (removeBlur cur) = style (removeBlur e).
Proof.
  intros Hs. unfold removeBlur.
  cbn -[setProperty getDeclaration filter cleanStyleAttribute].
  do 3 f_equal.
  cbn -[setProperty getDeclaration filter cleanStyleAttribute].
  apply cleanStyleAttribute_style. cbn. by rewrite Hs.
Qed.

Lemma element_eq (e e' : Element) :
  tagName e = tagName e' -> id e = id e' -> classList e = classList e' ->
  attributes e = attributes e' -> style e = style e' ->
  computedDisplay e = computedDisplay e' ->
  computedVisibility e = computedVisibility e' ->
  interface e = interface e' ->
  e = e'.
Proof. destruct e, e'. cbn. congruence. Qed.

(** [removeBlur] forgets what the applier wrote. *)
Lemma removeBlur_sameButEffect e cur :
  sameButEffect e cur -> removeBlur cur = removeBlur e.
Proof.
  intros (Hc & Ha & Hs & Ht & Hi & Hd & Hv & Hf).
  destruct (removeBlur_frame cur) as (C1 & C2 & C3 & C4 & C5 & C6 & C7).
  destruct (removeBlur_frame e) as (E1 & E2 & E3 & E4 & E5 & E6 & E7).
  apply element_eq; try congruence.
  by apply removeBlur_style.
Qed.

(** What [removeBlur] leaves on one element. *)
Lemma removeBlur_result cur :
  cssSupports "filter" "none" = true ->
  cssSupports "backdrop-filter" "none" = true ->
  cssSupports "opacity" "1" = true ->
  let e' := removeBlur cur in
  getDeclaration "filter" (style e')
  = Some (mkDeclaration "filter" "none" true)
  /\ getDeclaration "backdrop-filter" (style e')
     = Some (mkDeclaration "backdrop-filter" "none" true)
  /\ getDeclaration "opacity" (style e')
     = Some (mkDeclaration "opacity" "1" true).
Proof.
  intros Hf Hb Ho. unfold removeBlur.
  cbn -[setProperty getDeclaration filter cleanStyleAttribute].
  repeat split.
  - rewrite getDeclaration_setProperty_ne by done.
    rewrite getDeclaration_setProperty_ne by done.
    by apply getDeclaration_setProperty.
  - rewrite getDeclaration_setProperty_ne by done.
    by apply getDeclaration_setProperty.
  - by apply getDeclaration_setProperty.
Qed.

(** When the element's own style mentions [filter] nowhere else, method 3
    of the removal does nothing and the style left is the element's own
    declarations without [filter], followed by the three overrides. *)
Lemma removeBlur_style_plain e :
  includes "filter" (cssText (removeProperty "filter" (style e))) = false ->
  style (removeBlur e)
  = setProperty "opacity" "1" true
      (setProperty "backdrop-filter" "none" true
         (setProperty "filter" "none" true
            (removeProperty "filter" (style e)))).
Proof.
  intros Hplain. unfold removeBlur.
  cbn -[setProperty getDeclaration filter cleanStyleAttribute].
  do 3 f_equal. unfold cleanStyleAttribute.
  cbn -[setProperty getDeclaration filter includes cssText].
  assert (Hs : setProperty "filter" "" false
                 (removeProperty "filter" (style e))
               = removeProperty "filter" (style e)).
  { unfold setProperty. rewrite bool_decide_true by done.
    apply removeProperty_idempotent. }
  rewrite Hs, Hplain. done.
Qed.
End EffectFacts.

(** C3: for every element [t] and any number of earlier
    [applyBlurToElement] calls on it, [removeBlurFromElement] leaves [t]
    in exactly the state in which it leaves the [t] that was never
    blurred: nothing that the applier wrote (the inline [filter], the
    marker class, [data-blur-applied]) survives in the classes, the
    attributes or the inline style.  [t] has exactly the classes it had
    before minus the two marker classes, exactly the attributes it had
    before minus [data-blur-applied] and [data-blur-id], and an inline
    [filter] that is the neutral [none !important] (as are
    [backdrop-filter] and [opacity]), so that no blur is in effect even
    against an injected [!important] rule; and when [t]'s own style
    mentions [filter] in no other declaration, its inline style is
    exactly its own declarations without [filter], followed by these
    three overrides of the remover. *)
Theorem removeBlurFromElement_leaves_no_residue `{Browser}
    (doc : Document) (t : nat) (e : Element) (intensities : list Z) :
  cssSupports "filter" "none" = true ->
  cssSupports "backdrop-filter" "none" = true ->
  cssSupports "opacity" "1" = true ->
  getElement doc t = Some e ->
  exists e',
    getElement (removeBlurFromElement (applyRepeatedly intensities doc t) t) t
    = Some e'
    /\ e' = removeBlur e
    /\ classList e'
       = filter (fun c => c <> textMarkerClass)
           (filter (fun c => c <> markerClass) (classList e))
    /\ attributes e'
       = filter (fun a : string * string => a.1 <> "data-blur-id")
           (filter (fun a : string * string => a.1 <> "data-blur-applied")
              (attributes e))
    /\ (markerClass ∉ classList e') /\ (textMarkerClass ∉ classList e')
    /\ getAttribute "data-blur-applied" e' = None
    /\ getAttribute "data-blur-id" e' = None
    /\ getDeclaration "filter" (style e')
       = Some (mkDeclaration "filter" "none" true)
    /\ getDeclaration "backdrop-filter" (style e')
       = Some (mkDeclaration "backdrop-filter" "none" true)
    /\ getDeclaration "opacity" (style e')
       = Some (mkDeclaration "opacity" "1" true)
    /\ (forall injected, cascadedFilter injected e' = "none")
    /\ (includes "filter" (cssText (removeProperty "filter" (style e)))
        = false ->
        style e'
        = setProperty "opacity" "1" true
            (setProperty "backdrop-filter" "none" true
               (setProperty "filter" "none" true
                  (removeProperty "filter" (style e)))))
    /\ tagName e' = tagName e /\ id e' = id e.
Proof.
  intros Hf Hb Ho He.
  destruct (applyRepeatedly_element intensities doc t e He)
    as (cur & Hcur & Hsame).
  exists (removeBlur cur).
  split; [unfold removeBlurFromElement;
          by rewrite getElement_updateElement, Hcur |].
  rewrite (removeBlur_sameButEffect e cur Hsame).
  destruct (removeBlur_frame e) as (Rc & Ra & Rt & Ri & _).
  destruct (removeBlur_result e Hf Hb Ho) as (Rf & Rb & Ro).
  split; [done |]. rewrite Rc, Ra.
  repeat split; try done.
  - intros Hin. apply list_elem_of_filter in Hin as [_ Hin].
    by apply list_elem_of_filter in Hin as [Hin _].
  - intros Hin. by apply list_elem_of_filter in Hin as [Hin _].
  - unfold getAttribute. rewrite Ra.
    destruct (find _ _) as [a |] eqn:Hfind; [| done].
    apply find_some in Hfind as [Hin Heq]. apply String.eqb_eq in Heq.
    apply list_elem_of_In, list_elem_of_filter in Hin as [_ Hin].
    by apply list_elem_of_filter in Hin as [Hin _].
  - unfold getAttribute. rewrite Ra.
    destruct (find _ _) as [a |] eqn:Hfind; [| done].
    apply find_some in Hfind as [Hin Heq]. apply String.eqb_eq in Heq.
    by apply list_elem_of_In, list_elem_of_filter in Hin as [Hin _].
  - intros injected. unfold cascadedFilter. rewrite Rf. by destruct injected.
  - apply removeBlur_style_plain.
Qed.

(** ** Locator synthesizer *)

Lemma getAttribute_setAttribute name v e :
  getAttribute name (setAttribute name v e) = Some v.
Proof.
  unfold setAttribute, hasAttribute. case_bool_decide as Hhas.
  - unfold getAttribute in *. cbn [attributes set_attributes].
    destruct Hhas as [w Hw].
    induction (attributes e) as [| [k u] l IH]; [done |]. cbn in *.
    destruct (String.eqb_spec k name) as [-> | Hk]; cbn.
    + by rewrite String.eqb_refl.
    + destruct (String.eqb_spec k name); [done |]. by apply IH.
  - unfold getAttribute in *. cbn [attributes set_attributes].
    induction (attributes e) as [| [k u] l IH]; cbn in *.
    + by rewrite String.eqb_refl.
    + destruct (String.eqb_spec k name) as [-> | Hk]; cbn in *.
      * exfalso. apply Hhas. by eexists.
      * by apply IH.
Qed.

(** An attribute fallback resolves to the element it was imprinted on,
    provided no element carried that attribute value before. *)
Lemma attribute_fallback_resolves doc n e name v :
  getElement doc n = Some e ->
  (forall m e', m ∈ nodes doc -> asElement m = Some e' ->
                getAttribute name e' <> Some v) ->
  querySelector (updateElement doc n (setAttribute name v))
    (AttributeSelector name v) = Some (Some n).
Proof.
  unfold getElement, getNode, querySelector, querySelectorAll, updateElement.
  cbn [nodes]. induction (nodes doc) as [| m l IH]; intros He Hfresh;
    [done |]. cbn in He |- *.
  destruct (Nat.eqb_spec (uid m) n) as [Hm | Hm].
  - unfold updateNode at 1. rewrite (proj2 (Nat.eqb_eq _ _) Hm).
    unfold asElement in He. destruct (kind m) as [e0 |] eqn:Hk; [| done].
    injection He as ->. unfold elementSatisfies at 1. cbn [kind].
    rewrite getAttribute_setAttribute, bool_decide_true by done. cbn.
    by rewrite uid_updateNode, Hm.
  - unfold updateNode at 1. rewrite (proj2 (Nat.eqb_neq _ _) Hm).
    assert (Hno : elementSatisfies
                    (fun e => bool_decide (getAttribute name e = Some v)) m
                  = false).
    { unfold elementSatisfies. destruct (kind m) as [e0 |] eqn:Hk; [| done].
      apply bool_decide_eq_false. apply (Hfresh m e0); [by left |].
      unfold asElement. by rewrite Hk. }
    rewrite Hno. apply IH; [done |].
    intros m' e' Hin. apply Hfresh. by right.
Qed.

Lemma buildPath_unique doc element remaining current path result :
  buildPath doc element remaining current path = UniquePath result ->
  querySelectorAll doc (PathSelector result) = Some [element].
Proof.
  revert current path.
  induction remaining as [| k IH]; intros current path; cbn; [done |].
  destruct current as [c |]; [| done].
  destruct (Nat.eqb c (body doc)); [done |].
  destruct (getElement doc c) as [e |]; [| done].
  destruct (segmentOf doc c e) as [seg |]; [| done].
  match goal with
  | |- context [if ?t then _ else _] => destruct t eqn:Htest
  end.
  - intros [= <-]. apply andb_prop in Htest as [_ Htest].
    by apply bool_decide_eq_true in Htest.
  - apply IH.
Qed.

(** When the id branch is not taken, the selector that [generateSelector]
    returns resolves to the element itself: the path branches compare the
    match with the element, and the attribute fallbacks are fresh. *)
Lemma generateSelector_resolves_without_id doc n e now rand :
  getElement doc n = Some e ->
  id e = "" \/ isValidCSSIdentifier (id e) = false
  \/ parsesAsIdentifier (escapeCSSIdentifier (id e)) = false ->
  (forall m e', m ∈ nodes doc -> asElement m = Some e' ->
     getAttribute "data-blur-id" e'
     <> Some ("blur-" +:+ pretty now +:+ "-" +:+ rand)) ->
  (forall m e', m ∈ nodes doc -> asElement m = Some e' ->
     getAttribute "data-blur-fallback" e'
     <> Some ("blur-fallback-" +:+ pretty now)) ->
  let r := generateSelector doc n now rand in
  querySelector r.2 r.1 = Some (Some n).
Proof.
  intros He Hid Hfresh1 Hfresh2. unfold generateSelector. rewrite He.
  set (viaPath := match buildPath _ _ _ _ _ with
                  | UniquePath _ => _ | BestEffortPath _ => _ | PathThrew => _
                  end).
  assert (Hvia : querySelector viaPath.2 viaPath.1 = Some (Some n)).
  { subst viaPath.
    destruct (buildPath doc n maxAttempts (Some n) []) as [path | path |]
      eqn:Hpath; cbn [fst snd].
    - unfold querySelector. by rewrite (buildPath_unique _ _ _ _ _ _ Hpath).
    - case_bool_decide as Hq; cbn [fst snd]; [done |].
      by eapply attribute_fallback_resolves.
    - by eapply attribute_fallback_resolves. }
  destruct Hid as [Hid | [Hid | Hid]].
  - rewrite Hid. by cbn.
  - rewrite Hid. by rewrite andb_false_r.
  - destruct (negb _ && _); [| done].
    assert (Hthrow : querySelector doc (IdSelector (escapeCSSIdentifier (id e)))
                     = None)
      by (unfold querySelector, querySelectorAll; by rewrite Hid).
    by rewrite Hthrow.
Qed.

(** C1 (evaluation at the failing input): for the second of two elements
    with the same valid id, [generateSelector] returns the id selector
    without comparing its match with the element, and that selector
    resolves to the first element, not to the one it was made for. *)
Theorem generateSelector_duplicate_id (now : Z) (rand : string) :
  let r := generateSelector duplicateIdDocument 4 now rand in
  is_Some (getElement duplicateIdDocument 4)
  /\ r.1 = IdSelector "dup"
  /\ selectorText r.1 = "#dup"
  /\ r.2 = duplicateIdDocument
  /\ querySelector r.2 r.1 = Some (Some 3)
  /\ querySelector r.2 r.1 <> Some (Some 4).
Proof.
  split; [by eexists |]. repeat split. by intros [=].
Qed.

(** ** Persistence gateway *)

(** C10: the local shadow copy is keyed to the exact page url.  What
    [saveBlurDataLocally] wrote on one page is returned on a page with the
    same [href] and is the empty list on any other; a stored object is
    returned only under its own url; text that does not parse and a missing
    entry give the empty list; and whenever the result is not empty the
    stored url equals the current [href]. *)
Theorem loadBlurDataLocally_keyed_by_url (p : Page) :
  (forall now h,
     loadBlurDataLocally (set_href h (saveBlurDataLocally now p))
     = if bool_decide (h = href p) then marks p else [])
  /\ (forall data,
        loadBlurDataLocally
          (set_localStorage (Some (LocalStorage.Parsed data)) p)
        = if bool_decide (LocalStorage.url data = href p)
          then match LocalStorage.blurData data with
               | Some l => l
               | None => []
               end
          else [])
  /\ (forall raw,
        loadBlurDataLocally
          (set_localStorage (Some (LocalStorage.Unparsable raw)) p) = [])
  /\ loadBlurDataLocally (set_localStorage None p) = []
  /\ (loadBlurDataLocally p = []
      \/ exists data,
           localStorage p = Some (LocalStorage.Parsed data)
           /\ LocalStorage.url data = href p
           /\ LocalStorage.blurData data = Some (loadBlurDataLocally p)).
Proof.
  split; [| split; [| split; [| split]]].
  - intros now h. unfold loadBlurDataLocally. cbn.
    destruct (decide (href p = h)) as [<- | Hne].
    + by rewrite !bool_decide_true.
    + rewrite !bool_decide_false; [done | congruence | done].
  - intros data. unfold loadBlurDataLocally. cbn.
    by case_bool_decide.
  - done.
  - done.
  - unfold loadBlurDataLocally.
    destruct (localStorage p) as [[data | raw] |]; [| by left | by left].
    case_bool_decide as Hurl; [| by left].
    destruct (LocalStorage.blurData data) as [l |] eqn:Hl; [| by left].
    right. by exists data.
Qed.

Section PersistenceFacts.
Context `{Browser}.

(** The authoritative store wins outright when the user is signed in and
    it returns a non-empty list. *)
Lemma loadBlurData_firebase_wins p :
  isAuthenticated p = true ->
  SyncService.loadBlurData true (href p) (firestore p) <> [] ->
  marks (loadBlurData p)
  = SyncService.loadBlurData true (href p) (firestore p).
Proof.
  intros Hauth Hne. unfold loadBlurData. rewrite Hauth. cbn [andb].
  destruct (SyncService.loadBlurData true (href p) (firestore p)); done.
Qed.

Lemma marks_sendSaveBlurData url l p p' :
  sendSaveBlurData url l p = Some p' -> marks p' = marks p.
Proof.
  unfold sendSaveBlurData. destruct (extensionAvailable p); [| done].
  by intros [= <-].
Qed.

Lemma marks_syncLocalDataIfNeeded p :
  marks (syncLocalDataIfNeeded p)
  = if Nat.ltb (length (marks p)) (length (localCache p))
    then localCache p else marks p.
Proof.
  assert (Hnil : forall l : list BlurData,
             (if Nat.ltb (length l) (length (@nil BlurData))
              then [] else l) = l).
  { intros l. by destruct (Nat.ltb_spec (length l) (length (@nil BlurData)));
      [cbn in *; lia |]. }
  unfold syncLocalDataIfNeeded, localCache.
  destruct (localStorage p) as [[data | raw] |];
    [| by rewrite Hnil | by rewrite Hnil].
  destruct (LocalStorage.blurData data) as [local |].
  - destruct (bool_decide _); cbn [andb]; [| by rewrite Hnil].
    destruct (LocalStorage.timestamp data =? 0)%Z; cbn [negb andb].
    + rewrite andb_false_r. by rewrite Hnil.
    + rewrite andb_true_r.
      destruct (Nat.ltb_spec 0 (length local)) as [Hpos | Hzero].
      * destruct (Nat.ltb (length (marks p)) (length local)); [| done].
        destruct (sendSaveBlurData _ _ _) as [p' |] eqn:Hsend.
        -- by rewrite (marks_sendSaveBlurData _ _ _ _ Hsend).
        -- done.
      * destruct (Nat.ltb_spec (length (marks p)) (length local));
          [lia | done].
  - destruct (_ && _); by rewrite Hnil.
Qed.

(** When the authoritative store gives nothing, the local cache replaces
    the in-extension result exactly when it has strictly more entries. *)
Lemma loadBlurData_fallback p :
  isAuthenticated p = false
  \/ SyncService.loadBlurData true (href p) (firestore p) = [] ->
  extensionAvailable p = true ->
  let remote := Background.getBlurData (href p) (extensionStorage p) in
  marks (loadBlurData p)
  = if Nat.ltb (length remote) (length (localCache p))
    then localCache p else remote.
Proof.
  intros Hfb Hext. unfold loadBlurData. rewrite Hext.
  assert (Hno : isAuthenticated p
                && Nat.ltb 0
                     (length (if isAuthenticated p
                              then SyncService.loadBlurData
                                     (isAuthenticated p) (href p)
                                     (firestore p)
                              else [])) = false).
  { destruct Hfb as [-> | Hempty]; [done |].
    destruct (isAuthenticated p); [| done]. by rewrite Hempty. }
  rewrite Hno. by rewrite marks_syncLocalDataIfNeeded.
Qed.

(** A request without [url] leaves the in-extension store as it is. *)
Lemma extensionStorage_sendSaveBlurData_None l p p' :
  sendSaveBlurData None l p = Some p' ->
  extensionStorage p' = extensionStorage p.
Proof.
  unfold sendSaveBlurData. destruct (extensionAvailable p); [| done].
  by intros [= <-].
Qed.

(** No run of [loadBlurData] changes the in-extension store: the resync
    request of [syncLocalDataIfNeeded] is dropped by the handler. *)
Lemma loadBlurData_extensionStorage p :
  extensionStorage (loadBlurData p) = extensionStorage p.
Proof.
  unfold loadBlurData.
  destruct (isAuthenticated p && _); [done |].
  destruct (extensionAvailable p); [| done].
  unfold syncLocalDataIfNeeded. cbn.
  destruct (localStorage p) as [[data | raw] |]; try done.
  destruct (LocalStorage.blurData data) as [local |]; [| done].
  repeat match goal with
         | |- context [if ?c then _ else _] => destruct c; [| done]
         end.
  destruct (sendSaveBlurData _ _ _) as [p' |] eqn:Hsend; [| done].
  by rewrite (extensionStorage_sendSaveBlurData_None _ _ _ Hsend).
Qed.
End PersistenceFacts.

(** ** Gestures and the mark store *)

Section GestureFacts.
Context `{Browser}.

Lemma marks_saveBlurData now p : marks (saveBlurData now p) = marks p.
Proof.
  unfold saveBlurData.
  set (p1 := saveBlurDataLocally now p).
  set (p2 := if isAuthenticated p1 then _ else p1).
  assert (H2 : marks p2 = marks p).
  { subst p2. destruct (isAuthenticated p1); [| done].
    by destruct (SyncService.saveBlurData _ _ _ _). }
  destruct (sendSaveBlurData _ _ p2) as [p' |] eqn:Hsend; [| done].
  by rewrite (marks_sendSaveBlurData _ _ _ _ Hsend).
Qed.

Lemma marks_preInjectBlurCSS l p : marks (preInjectBlurCSS l p) = marks p.
Proof. unfold preInjectBlurCSS. by case_bool_decide. Qed.

Lemma marks_unblurElement element sel now p :
  marks (unblurElement element sel now p)
  = filter (fun b => selector b <> sel) (marks p).
Proof.
  unfold unblurElement, rebuildInjectedCSS.
  by rewrite marks_saveBlurData, marks_preInjectBlurCSS.
Qed.

(** What [createBlurArea] commits. *)
Lemma marks_createBlurArea layout now today p ov start :
  drawingOverlay (self p) = Some ov ->
  startCoords (self p) = Some start ->
  let c := mkCoords (left (overlayRect layout) + scrollX layout)
             (top (overlayRect layout) + scrollY layout)
             (rectWidth (overlayRect layout))
             (rectHeight (overlayRect layout)) in
  marks (createBlurArea layout now today p)
  = marks p ++ [mkBlurData (areaSelector c) TypeArea (Some c) None now].
Proof. intros Hov Hst. unfold createBlurArea. by rewrite Hov, Hst. Qed.

Lemma marks_createBlurArea_cases layout now today p :
  marks (createBlurArea layout now today p) = marks p
  \/ exists c,
       marks (createBlurArea layout now today p)
       = marks p ++ [mkBlurData (areaSelector c) TypeArea (Some c) None now].
Proof.
  unfold createBlurArea.
  destruct (drawingOverlay (self p)); [| by left].
  destruct (startCoords (self p)); [| by left].
  right. by eexists.
Qed.

Lemma marks_finishDrawing q :
  marks (clearStartCoords (hideDrawingOverlay q)) = marks q.
Proof. done. Qed.

Lemma gestureStep_marks p g :
  Forall kindDeterminesFields (marks p) ->
  Forall kindDeterminesFields (marks (gestureStep p g)).
Proof.
  intros Hp. destruct g as [element now rand today | ev | ev
                           | layout now today ev
                           | selection now rand today]; cbn [gestureStep].
  - unfold blurElement.
    destruct (negb _); [done |]. unfold canAddBlur.
    destruct (FreemiumService.canAddBlur _ today _) as [can fs].
    destruct (negb can); [done |].
    destruct (generateSelector _ _ _ _) as [sel doc].
    destruct (existsb _ _).
    + rewrite marks_unblurElement. apply Forall_forall. intros b Hb.
      apply list_elem_of_filter in Hb as [_ Hb]. revert b Hb.
      by apply Forall_forall.
    + destruct (applyBlurToElement _ _ _) as [doc' ok].
      destruct (negb ok); [done |].
      apply Forall_app. split; [done |].
      apply Forall_singleton. by split.
  - unfold handleMouseDown.
    by repeat match goal with
              | |- context [if ?c then _ else _] => destruct c
              end.
  - unfold handleMouseMove.
    destruct (startCoords (self p)) as [[sx sy] |]; [| done].
    destruct (drawingOverlay (self p)); [| done].
    by destruct (_ || _).
  - unfold handleMouseUp.
    destruct (startCoords (self p)) as [[sx sy] |]; [| done].
    destruct (drawingOverlay (self p)); [| done].
    destruct (negb _ || negb _); [done |].
    destruct (_ || _); [done |].
    destruct (_ || _); [done |]. unfold canAddBlur.
    destruct (FreemiumService.canAddBlur _ today _) as [can fs].
    destruct (negb can); [done |].
    rewrite marks_finishDrawing.
    match goal with
    | |- Forall _ (marks (createBlurArea _ _ _ ?q)) =>
        destruct (marks_createBlurArea_cases layout now today q)
          as [-> | [c ->]]; [done |]
    end.
    apply Forall_app. split; [done |].
    apply Forall_singleton. split; [by eexists | done].
  - unfold handleTextSelection.
    destruct (_ || _); [done |]. unfold canAddBlur.
    destruct (FreemiumService.canAddBlur _ today _) as [can fs].
    destruct (negb can); [done |].
    destruct selection as [sel |]; [| done].
    destruct (ranges sel) as [| range rest]; [done |].
    repeat match goal with
           | |- context [if ?c then _ else _] => destruct c; [done |]
           end.
    destruct (deleteContents _ _) as [doc1 deleted].
    destruct deleted; cbn [negb]; [| done].
    destruct (insertNode _ _ _) as [doc [span |]]; [| done].
    apply Forall_app. split; [done |].
    apply Forall_singleton. split; [done | by eexists].
Qed.

Lemma debugAuthState_idempotent user st :
  FreemiumService.debugAuthState user (FreemiumService.debugAuthState user st)
  = FreemiumService.debugAuthState user st.
Proof.
  unfold FreemiumService.debugAuthState, FreemiumService.isPremium.
  destruct user; [| done]. by destruct st as [[] du sto cv].
Qed.

(** A check of the quota gives the same answer and leaves the same page
    whether or not [debugAuthState] ran just before it. *)
Lemma canAddBlur_debugAuthState today p :
  canAddBlur today (debugAuthState p) = canAddBlur today p.
Proof.
  unfold canAddBlur, debugAuthState, refreshCurrentUser.
  cbn [isAuthenticated firebaseUser freemium set_isAuthenticated set_freemium].
  unfold FreemiumService.canAddBlur. rewrite debugAuthState_idempotent.
  by repeat match goal with
            | |- context [if ?c then _ else _] => destruct c
            end.
Qed.

Lemma getMaxRectangleSize_admits_10 st :
  FreemiumService.gtLimit 10 (FreemiumService.getMaxRectangleSize st).1
  || FreemiumService.gtLimit 10 (FreemiumService.getMaxRectangleSize st).2
  = false.
Proof.
  unfold FreemiumService.getMaxRectangleSize, FreemiumService.getFeatureLimits.
  by destruct (FreemiumService.currentTier st).
Qed.
End GestureFacts.

(** C8: every mark the gestures construct satisfies the invariant that its
    kind determines its fields: starting from a store in which it holds
    (the empty one in particular), it holds of every mark in the store
    after any sequence of clicks, drawn regions and text selections; in
    particular no mark has both [coords] and [text]. *)
Theorem marks_kind_determines_fields `{Browser}
    (p : Page) (gestures : list Gesture) :
  Forall kindDeterminesFields (marks p) ->
  Forall (fun b => kindDeterminesFields b
                   /\ ~ (is_Some (coords b) /\ is_Some (text b)))
    (marks (foldl gestureStep p gestures)).
Proof.
  intros Hp.
  assert (Hinv : Forall kindDeterminesFields (marks (foldl gestureStep p gestures))).
  { revert p Hp. induction gestures as [| g l IH]; intros p Hp; [done |].
    cbn. apply IH. by apply gestureStep_marks. }
  eapply Forall_impl; [exact Hinv |].
  intros b Hb. split; [done |]. unfold kindDeterminesFields in Hb.
  intros [[c Hc] [t Ht]]. destruct (type b); destruct Hb as [H1 H2];
    try congruence; destruct H1; congruence.
Qed.

(** C5: on release of a drawn rectangle, exactly 10 by 10 commits a region
    mark when the daily quota allows it (the maximum size of either tier
    admits it), and commits nothing when the quota refuses; a width or a
    height of 9 commits nothing, discards the preview and leaves the mark
    store and the document unchanged. *)
Theorem region_minimum_size_boundary `{Browser}
    (layout : Layout) (now : Z) (today : string) (ev : MouseEvent) (p : Page)
    (sx sy : Z) (ov : DrawingOverlay) :
  isEnabled (self p) = true ->
  isDrawingMode (self p) = true ->
  startCoords (self p) = Some (sx, sy) ->
  drawingOverlay (self p) = Some ov ->
  let w := Z.abs (pageX ev - sx) in
  let h := Z.abs (pageY ev - sy) in
  let p' := handleMouseUp layout now today ev p in
  let c := mkCoords (left (overlayRect layout) + scrollX layout)
             (top (overlayRect layout) + scrollY layout)
             (rectWidth (overlayRect layout))
             (rectHeight (overlayRect layout)) in
  (w = 10%Z -> h = 10%Z ->
     (if (canAddBlur today p).1
      then marks p'
           = marks p ++ [mkBlurData (areaSelector c) TypeArea (Some c) None now]
      else marks p' = marks p)
     /\ drawingOverlay (self p') = None /\ startCoords (self p') = None)
  /\ (w = 9%Z \/ h = 9%Z ->
        marks p' = marks p /\ document p' = document p
        /\ drawingOverlay (self p') = None /\ startCoords (self p') = None).
Proof.
  intros Hen Hdraw Hst Hov w h p' c. subst p'. unfold handleMouseUp.
  rewrite Hst, Hov, Hen, Hdraw. cbn [negb orb]. fold w h. split.
  - intros Hw Hh. rewrite Hw, Hh. cbn [Z.ltb Z.compare Pos.compare
                                        Pos.compare_cont orb].
    rewrite getMaxRectangleSize_admits_10.
    rewrite !canAddBlur_debugAuthState.
    assert (Hq : self (canAddBlur today p).2 = self p).
    { unfold canAddBlur. by destruct (FreemiumService.canAddBlur _ _ _). }
    destruct (canAddBlur today p) as [can q]. cbn [fst snd] in *.
    destruct can; cbn [negb];
      [| split; [unfold marks; cbn; by rewrite Hq | done]].
    split; [| done].
    match goal with
    | |- marks (clearStartCoords (hideDrawingOverlay ?q)) = _ =>
        change (marks q = marks p
                          ++ [mkBlurData (areaSelector c) TypeArea (Some c)
                                None now])
    end.
    rewrite (marks_createBlurArea layout now today q ov (sx, sy))
      by (by rewrite Hq).
    unfold marks. by rewrite Hq.
  - intros Hsmall.
    assert (Hlt : ((w <? 10)%Z || (h <? 10)%Z) = true).
    { apply orb_true_iff. destruct Hsmall as [-> | ->]; [by left | by right]. }
    by rewrite Hlt.
Qed.

(** ** Restoration coordinator: the cleanup queue *)

Lemma elem_of_insertDescending i j l :
  i ∈ insertDescending j l <-> i = j \/ i ∈ l.
Proof.
  induction l as [| k l IH]; cbn.
  - rewrite list_elem_of_singleton, elem_of_nil. tauto.
  - destruct (Nat.leb k j); rewrite !elem_of_cons; [tauto |].
    rewrite IH. tauto.
Qed.

Lemma elem_of_sortDescending i l : i ∈ sortDescending l <-> i ∈ l.
Proof.
  induction l as [| k l IH]; cbn; [done |].
  rewrite elem_of_insertDescending, IH, elem_of_cons. tauto.
Qed.

Lemma descending_insertDescending j l :
  descending l -> j ∉ l -> descending (insertDescending j l).
Proof.
  induction l as [| k l IH]; cbn; intros Hl Hj.
  - split; [| done]. intros i Hi. by apply elem_of_nil in Hi.
  - destruct Hl as [Hk Hl]. apply not_elem_of_cons in Hj as [Hjk Hj].
    destruct (Nat.leb_spec k j) as [Hle | Hgt]; cbn.
    + split; [| done]. intros i Hi. apply elem_of_cons in Hi as [-> | Hi].
      * lia.
      * specialize (Hk i Hi). lia.
    + split; [| by apply IH].
      intros i Hi. apply elem_of_insertDescending in Hi as [-> | Hi];
        [done | by apply Hk].
Qed.

Lemma descending_sortDescending l : NoDup l -> descending (sortDescending l).
Proof.
  induction 1 as [| k l Hk Hl IH]; cbn; [done |].
  apply descending_insertDescending; [done |].
  by rewrite elem_of_sortDescending.
Qed.

Lemma keepUnqueuedFrom_below k queue l :
  (forall j, j ∈ queue -> j < k) -> keepUnqueuedFrom k queue l = l.
Proof.
  revert k. induction l as [| b r IH]; intros k Hq; cbn; [done |].
  rewrite bool_decide_false.
  - f_equal. apply IH. intros j Hj. specialize (Hq j Hj). lia.
  - intros Hk. specialize (Hq k Hk). lia.
Qed.

Lemma keepUnqueuedFrom_ext k queue queue' l :
  (forall j, j ∈ queue <-> j ∈ queue') ->
  keepUnqueuedFrom k queue l = keepUnqueuedFrom k queue' l.
Proof.
  intros Hq. revert k. induction l as [| b r IH]; intros k; cbn; [done |].
  rewrite (bool_decide_ext _ _ (Hq k)), (IH (S k)). done.
Qed.

Lemma keepUnqueuedFrom_delete k i queue l :
  k <= i -> (forall j, j ∈ queue -> j < i) ->
  keepUnqueuedFrom k queue (delete (i - k) l)
  = keepUnqueuedFrom k (i :: queue) l.
Proof.
  revert k. induction l as [| b r IH]; intros k Hk Hq.
  - by destruct (i - k).
  - destruct (decide (i = k)) as [-> | Hne].
    + rewrite Nat.sub_diag. cbn.
      rewrite bool_decide_true by (by left).
      rewrite !keepUnqueuedFrom_below; [done | |].
      * intros j Hj. apply elem_of_cons in Hj as [-> | Hj]; [lia |].
        specialize (Hq j Hj). lia.
      * done.
    + replace (i - k) with (S (i - S k)) by lia.
      cbn [delete list_delete keepUnqueuedFrom].
      rewrite (bool_decide_ext (k ∈ i :: queue) (k ∈ queue)).
      * specialize (IH (S k) ltac:(lia) Hq).
        destruct (bool_decide (k ∈ queue)); [exact IH | f_equal; exact IH].
      * rewrite elem_of_cons. split; [intros [? | ?]; [lia | done] | tauto].
Qed.

Lemma spliceOut_delete store index : spliceOut store index = delete index store.
Proof.
  unfold spliceOut. destruct (Nat.ltb_spec index (length store)); [done |].
  symmetry. revert index H. induction store as [| b r IH]; intros i Hi.
  - by destruct i.
  - destruct i; cbn in *; [lia |]. f_equal. apply IH. lia.
Qed.

(** Splicing out strictly descending indices removes exactly the marks at
    those indices: no removal shifts an index that is still to come. *)
Lemma foldl_spliceOut_descending queue store :
  descending queue ->
  foldl spliceOut store queue = keepUnqueued queue store.
Proof.
  unfold keepUnqueued. revert store.
  induction queue as [| i queue IH]; intros store Hq; cbn.
  - by rewrite keepUnqueuedFrom_below by (intros j Hj; by apply elem_of_nil in Hj).
  - destruct Hq as [Hi Hq]. rewrite IH by done.
    rewrite spliceOut_delete.
    rewrite <- (keepUnqueuedFrom_delete 0 i queue store) by (done || lia).
    by rewrite Nat.sub_0_r.
Qed.

Lemma cleanup_removes_queued queue store :
  NoDup queue ->
  foldl spliceOut store (sortDescending queue) = keepUnqueued queue store.
Proof.
  intros Hq. rewrite foldl_spliceOut_descending
    by (by apply descending_sortDescending).
  apply keepUnqueuedFrom_ext. intros j. apply elem_of_sortDescending.
Qed.

Lemma length_keepUnqueuedFrom k queue l :
  length (keepUnqueuedFrom k queue l) <= length l.
Proof.
  revert k. induction l as [| b r IH]; intros k; cbn; [done |].
  specialize (IH (S k)). case_bool_decide; cbn; lia.
Qed.

Lemma length_keepUnqueuedFrom_lt k queue l i :
  i ∈ queue -> k <= i < k + length l ->
  length (keepUnqueuedFrom k queue l) < length l.
Proof.
  revert k. induction l as [| b r IH]; intros k Hi Hrange; cbn in *; [lia |].
  case_bool_decide as Hk; cbn.
  - pose proof (length_keepUnqueuedFrom (S k) queue r). lia.
  - assert (i <> k) by congruence.
    specialize (IH (S k) Hi). lia.
Qed.

Lemma blurredElements_markBlurForCleanup i a :
  blurredElements (markBlurForCleanup i a) = blurredElements a.
Proof. unfold markBlurForCleanup. by case_bool_decide. Qed.

Lemma blursToCleanup_markBlurForCleanup i a j :
  j ∈ blursToCleanup (markBlurForCleanup i a)
  <-> j = i \/ j ∈ blursToCleanup a.
Proof.
  unfold markBlurForCleanup. case_bool_decide as Hi; cbn.
  - split; [tauto |]. by intros [-> | ?].
  - rewrite elem_of_app, list_elem_of_singleton. tauto.
Qed.

Lemma NoDup_markBlurForCleanup i a :
  NoDup (blursToCleanup a) -> NoDup (blursToCleanup (markBlurForCleanup i a)).
Proof.
  unfold markBlurForCleanup. case_bool_decide as Hi; cbn; [done |].
  intros Hq. apply NoDup_app. split; [done |]. split.
  - intros j Hj Hj'. apply list_elem_of_singleton in Hj' as ->. done.
  - apply NoDup_singleton.
Qed.

Section ScanFacts.
Context `{Browser}.

(** One step of the scan either leaves the instance as it is and logs no
    queue event, or queues its own index and logs that. *)
Lemma restoreMark_self now st i b :
  let st' := restoreMark now st (i, b) in
  (self st'.1 = self st.1
   /\ exists evs, st'.2 = st.2 ++ evs
                  /\ forall j, QueuedForCleanup j ∉ evs)
  \/ (self st'.1 = markBlurForCleanup i (self st.1)
      /\ st'.2 = st.2 ++ [QueuedForCleanup i]).
Proof.
  pose proof (fun (l : list RestoreEvent) =>
                eq_sym (app_nil_r l)) as Hnil.
  assert (Hnone : forall j, QueuedForCleanup j ∉ @nil RestoreEvent)
    by (intros j Hj; by apply elem_of_nil in Hj).
  assert (Hone : forall ev, isQueueEvent ev = false ->
                            forall j, QueuedForCleanup j ∉ [ev]).
  { intros ev Hev j Hj. apply list_elem_of_singleton in Hj as <-. done. }
  destruct st as [p log]. cbn [restoreMark fst snd].
  destruct (type b) eqn:Hty.
  - unfold restoreElementMark.
    case_bool_decide; [left; split; [done | by exists []] |].
    match goal with
    | |- context [let '(doc, found) := ?m in _] =>
        destruct m as [doc found] eqn:Hm
    end.
    destruct found as [element |]; [| by right].
    destruct (canApplyBlurToElement doc element) as [ok doc'].
    destruct (negb ok); [left; split; [done | by exists []] |].
    destruct (hasMarkerClass doc' element);
      [left; split; [done | by exists []] |].
    destruct (applyBlurToElement _ _ _) as [doc'' applied].
    left. split; [done |]. destruct applied.
    + exists [AppliedToElement element]. split; [done | by apply Hone].
    + by exists [].
  - destruct (coords b) as [c |]; [| left; split; [done | by exists []]].
    unfold restoreAreaMark.
    destruct (negb _); [left; split; [done | by exists []] |].
    destruct (querySelector _ _) as [[existing |] |].
    + destruct (match getElement _ _ with Some _ => _ | None => _ end).
      * left. split; [done | by exists []].
      * left. split; [done |]. exists [BlurredExistingArea existing].
        split; [done | by apply Hone].
    + left. split; [done |]. eexists [_]. split; [done | by apply Hone].
    + left. split; [done |]. eexists [_]. split; [done | by apply Hone].
  - assert (Htext : forall P : Page * list RestoreEvent -> Prop,
               P (restoreTextMark i b now (p, log)) ->
               P (match coords b with
                  | Some _ | _ => restoreTextMark i b now (p, log)
                  end))
      by (intros P HP; by destruct (coords b)).
    try apply (Htext (fun st' => _)). clear Htext. unfold restoreTextMark.
    destruct (querySelectorText _ _); [| left; split; [done | by exists []]].
    destruct (restoreTextBlurBySelector _ _) as [[p' ev] |] eqn:Hsel.
    + left. unfold restoreTextBlurBySelector in Hsel.
      destruct (querySelectorText _ _) as [[element |] |]; try done.
      destruct (getElement _ _); [| done].
      destruct (contains _ _); injection Hsel as <- <-;
        (split; [done | eexists [_]; split; [done | by apply Hone]]).
    + match goal with
      | |- context [match ?v with Some _ => _ | None => _ end] =>
          destruct v as [[p' ev] |] eqn:Hvia
      end; [| by right].
      left. destruct (text b) as [t |]; [| done].
      case_bool_decide; [done |].
      unfold findAndBlurTextContent in Hvia.
      destruct (Nat.ltb _ _); [done |].
      destruct (wrapFirst _ _ _) as [[l leaf] |]; [| done].
      injection Hvia as <- <-.
      split; [done | eexists [_]; split; [done | by apply Hone]].
Qed.

Lemma restoreMark_marks now st entry :
  marks (restoreMark now st entry).1 = marks st.1.
Proof.
  destruct entry as [i b].
  destruct (restoreMark_self now st i b) as [[Hs _] | [Hs _]];
    unfold marks; rewrite Hs; [done |].
  apply blurredElements_markBlurForCleanup.
Qed.

(** The scan never touches the store. *)
Lemma scan_marks now entries st :
  marks (foldl (restoreMark now) st entries).1 = marks st.1.
Proof.
  revert st. induction entries as [| e l IH]; intros st; cbn; [done |].
  by rewrite IH, restoreMark_marks.
Qed.

Lemma restoreMark_queue now n st i b :
  i < n -> queueInvariant n st ->
  queueInvariant n (restoreMark now st (i, b)).
Proof.
  intros Hi (Hnd & Hiff & Hlt).
  destruct (restoreMark_self now st i b)
    as [[Hs [evs [Hlog Hevs]]] | [Hs Hlog]];
    unfold queueInvariant; rewrite Hs, Hlog.
  - repeat split; try done.
    + intros Hj. apply elem_of_app. left. by apply Hiff.
    + intros Hj. apply elem_of_app in Hj as [Hj | Hj]; [by apply Hiff |].
      by apply Hevs in Hj.
  - repeat split.
    + by apply NoDup_markBlurForCleanup.
    + intros Hj. apply blursToCleanup_markBlurForCleanup in Hj as [-> | Hj].
      * apply elem_of_app. right. by apply list_elem_of_singleton.
      * apply elem_of_app. left. by apply Hiff.
    + intros Hj. apply blursToCleanup_markBlurForCleanup.
      apply elem_of_app in Hj as [Hj | Hj]; [right; by apply Hiff |].
      apply list_elem_of_singleton in Hj as [= ->]. by left.
    + intros j Hj. apply blursToCleanup_markBlurForCleanup in Hj as [-> | Hj];
        [done | by apply Hlt].
Qed.

Lemma scan_queue now n entries st :
  Forall (fun e : nat * BlurData => e.1 < n) entries ->
  queueInvariant n st ->
  queueInvariant n (foldl (restoreMark now) st entries).
Proof.
  revert st. induction entries as [| [i b] l IH]; intros st Hl Hst; cbn;
    [done |].
  apply Forall_cons in Hl as [Hi Hl].
  apply IH; [done |]. by apply restoreMark_queue.
Qed.

Lemma imap_indices_lt (l : list BlurData) k :
  Forall (fun e : nat * BlurData => e.1 < k + length l)
    (imap (fun i b => (k + i, b)) l).
Proof.
  revert k. induction l as [| b r IH]; intros k; [by constructor |].
  rewrite imap_cons. apply Forall_cons. split; [simpl; lia |].
  rewrite (imap_ext _ (fun i b => (S k + i, b)))
    by (intros; unfold compose; f_equal; lia).
  eapply Forall_impl; [apply (IH (S k)) |]. intros e He. simpl in *. lia.
Qed.
End ScanFacts.

Section CleanupFacts.
Context `{Browser}.

Lemma saveBlurData_localStorage now p :
  localStorage (saveBlurData now p)
  = Some (LocalStorage.Parsed
            (LocalStorage.mkLocalData (href p) (Some (marks p)) now))
  /\ href (saveBlurData now p) = href p
  /\ self (saveBlurData now p) = self p
  /\ document (saveBlurData now p) = document p.
Proof.
  unfold saveBlurData.
  set (p1 := saveBlurDataLocally now p).
  set (p2 := if isAuthenticated p1 then _ else p1).
  assert (H2 : localStorage p2 = localStorage p1 /\ href p2 = href p
               /\ self p2 = self p /\ document p2 = document p).
  { subst p2. destruct (isAuthenticated p1); [| done].
    by destruct (SyncService.saveBlurData _ _ _ _). }
  destruct H2 as (Hl & Hh & Hs & Hd).
  unfold sendSaveBlurData. destruct (extensionAvailable p2); cbn;
    by rewrite ?Hl, ?Hh, ?Hs, ?Hd.
Qed.

Lemma saveBlurData_extensionStorage now p :
  extensionAvailable p = true -> href p <> "" ->
  Background.getBlurData (href p) (extensionStorage (saveBlurData now p))
  = marks p.
Proof.
  intros Hext Hurl. unfold saveBlurData.
  set (p1 := saveBlurDataLocally now p).
  set (p2 := if isAuthenticated p1 then _ else p1).
  assert (H2 : extensionAvailable p2 = true /\ href p2 = href p
               /\ marks p2 = marks p).
  { subst p2. destruct (isAuthenticated p1); [| done].
    by destruct (SyncService.saveBlurData _ _ _ _). }
  destruct H2 as (He & Hh & Hm).
  unfold sendSaveBlurData. rewrite He. cbn.
  unfold Background.getBlurData, Background.saveBlurData.
  rewrite Hh, Hm, bool_decide_false by done.
  by rewrite lookup_insert_eq.
Qed.

Lemma performBlurCleanup_queue_empty now p :
  blursToCleanup (self (performBlurCleanup now p)) = [].
Proof.
  unfold performBlurCleanup. case_bool_decide as Hq; [done |].
  destruct (Nat.ltb _ _); [| done].
  by destruct (saveBlurData_localStorage now
                 (set_self (set_blursToCleanup []
                    (self (setMarks
                       (foldl spliceOut (marks p)
                          (sortDescending (blursToCleanup (self p)))) p)))
                    (setMarks
                       (foldl spliceOut (marks p)
                          (sortDescending (blursToCleanup (self p)))) p)))
    as (_ & _ & -> & _).
Qed.

Lemma performBlurCleanup_marks now p :
  NoDup (blursToCleanup (self p)) ->
  marks (performBlurCleanup now p)
  = keepUnqueued (blursToCleanup (self p)) (marks p).
Proof.
  intros Hq. unfold performBlurCleanup. case_bool_decide as Hnil.
  - rewrite Hnil. unfold keepUnqueued.
    by rewrite keepUnqueuedFrom_below
      by (intros j Hj; by apply elem_of_nil in Hj).
  - rewrite cleanup_removes_queued by done.
    destruct (Nat.ltb _ _); [| done]. by rewrite marks_saveBlurData.
Qed.


(** When something was queued within range, the flush persists the
    store it has just mutated. *)
Lemma performBlurCleanup_persists now p i :
  NoDup (blursToCleanup (self p)) ->
  i ∈ blursToCleanup (self p) -> i < length (marks p) ->
  let p' := performBlurCleanup now p in
  loadBlurDataLocally p' = marks p'
  /\ (extensionAvailable p = true -> href p <> "" ->
      Background.getBlurData (href p') (extensionStorage p') = marks p').
Proof.
  intros Hq Hi Hlt p'.
  pose proof (performBlurCleanup_marks now p Hq) as Hmarks. fold p' in Hmarks.
  subst p'. revert Hmarks. unfold performBlurCleanup.
  case_bool_decide as Hnil;
    [rewrite Hnil in Hi; by apply elem_of_nil in Hi |].
  rewrite cleanup_removes_queued by done.
  set (store := keepUnqueued (blursToCleanup (self p)) (marks p)).
  assert (Hlen : Nat.ltb 0 (length (marks p) - length store) = true).
  { apply Nat.ltb_lt.
    pose proof (length_keepUnqueuedFrom_lt 0 (blursToCleanup (self p))
                  (marks p) i Hi ltac:(lia)) as Hl.
    fold (keepUnqueued (blursToCleanup (self p)) (marks p)) in Hl.
    fold store in Hl. lia. }
  rewrite Hlen. intros Hmarks.
  set (p2 := set_self _ _) in *.
  destruct (saveBlurData_localStorage now p2) as (Hl & Hh & Hs & Hd).
  split.
  - unfold loadBlurDataLocally. rewrite Hl, Hh. cbn.
    rewrite bool_decide_true by done. by rewrite marks_saveBlurData.
  - intros Hext Hurl. rewrite Hh.
    rewrite (saveBlurData_extensionStorage now p2) by done.
    by rewrite marks_saveBlurData.
Qed.
End CleanupFacts.

(** C6: within one pass over a non-empty store, the scan leaves the store
    untouched at every step and only queues indices (the queue holds, once
    each, exactly the indices whose cleanup was logged, all in range); the
    pass is the scan followed by one [performBlurCleanup], which, splicing
    in descending order, removes exactly the marks at the queued indices,
    empties the queue and, when something was queued, leaves the mutated
    store persisted in the local copy and in the in-extension store. *)
Theorem restoration_pass_cleanup `{Browser} (now : Z) (p : Page) :
  marks p <> [] ->
  blursToCleanup (self p) = [] ->
  let entries := imap (fun i b => (i, b)) (marks p) in
  let scanned := scanMarks now p in
  let queue := blursToCleanup (self scanned.1) in
  let p' := (applyExistingBlurs now p).1 in
  (forall k,
     marks (foldl (restoreMark now) (p, []) (take k entries)).1 = marks p)
  /\ marks scanned.1 = marks p
  /\ NoDup queue
  /\ (forall i, i ∈ queue <-> QueuedForCleanup i ∈ scanned.2)
  /\ (forall i, i ∈ queue -> i < length (marks p))
  /\ p' = performBlurCleanup now scanned.1
  /\ foldl spliceOut (marks p) (sortDescending queue)
     = keepUnqueued queue (marks p)
  /\ marks p' = keepUnqueued queue (marks p)
  /\ blursToCleanup (self p') = []
  /\ (queue <> [] ->
      loadBlurDataLocally p' = marks p'
      /\ (extensionAvailable scanned.1 = true -> href scanned.1 <> "" ->
          Background.getBlurData (href p') (extensionStorage p') = marks p')).
Proof.
  intros Hne Hempty entries scanned queue p'.
  assert (Hinv : queueInvariant (length (marks p)) scanned).
  { apply scan_queue.
    - pose proof (imap_indices_lt (marks p) 0) as Hlt.
      subst entries. eapply Forall_impl; [exact Hlt |]. by intros [i b].
    - unfold queueInvariant. cbn. rewrite Hempty. repeat split.
      + apply NoDup_nil_2.
      + intros Hi. by apply elem_of_nil in Hi.
      + intros Hi. by apply elem_of_nil in Hi.
      + intros i Hi. by apply elem_of_nil in Hi. }
  destruct Hinv as (Hnd & Hiff & Hlt).
  assert (Hscan : marks scanned.1 = marks p) by apply scan_marks.
  assert (Hp' : p' = performBlurCleanup now scanned.1).
  { subst p'. unfold applyExistingBlurs. rewrite bool_decide_false by done.
    fold scanned. by destruct scanned. }
  split; [intros k; apply scan_marks |].
  split; [done |]. split; [done |]. split; [done |]. split; [done |].
  split; [done |].
  split; [by apply cleanup_removes_queued |].
  split; [rewrite Hp', performBlurCleanup_marks, Hscan; done |].
  split; [rewrite Hp'; apply performBlurCleanup_queue_empty |].
  intros Hq. rewrite Hp'. subst queue.
  assert (Hex : exists i, i ∈ blursToCleanup (self scanned.1)).
  { destruct (blursToCleanup (self scanned.1)) as [| i q]; [done |].
    exists i. by left. }
  destruct Hex as [i Hi].
  apply (performBlurCleanup_persists now scanned.1 i); [done | done |].
  rewrite Hscan. by apply Hlt.
Qed.

(** C4 (evaluation at the failing input): a signed-out page whose local
    cache holds two marks for its url while the in-extension store holds
    one.  [loadBlurData] loads the two local marks, but the resync request
    carries no url and the background handler drops it: the in-extension
    store still returns the one mark.  [saveBlurData], which sends the url,
    does update it. *)
Theorem loadBlurData_resync_is_dropped `{Browser} :
  let url := href staleExtensionPage in
  let p' := loadBlurData staleExtensionPage in
  marks p' = [sampleMark "h1" 1; sampleMark "p" 2]
  /\ Background.getBlurData url (extensionStorage staleExtensionPage)
     = [sampleMark "h1" 1]
  /\ Background.getBlurData url (extensionStorage p') = [sampleMark "h1" 1]
  /\ Background.getBlurData url (extensionStorage p') <> marks p'
  /\ (forall now,
        Background.getBlurData url (extensionStorage (saveBlurData now p'))
        = marks p').
Proof.
  cbn zeta.
  assert (Hmarks : marks (loadBlurData staleExtensionPage)
                   = [sampleMark "h1" 1; sampleMark "p" 2]) by reflexivity.
  rewrite loadBlurData_extensionStorage, Hmarks.
  split; [done |]. split; [done |]. split; [done |]. split; [done |].
  intros now. rewrite <- Hmarks.
  exact (saveBlurData_extensionStorage now (loadBlurData staleExtensionPage)
           eq_refl ltac:(discriminate)).
Qed.

(** ** Restoration coordinator: what a pass keeps *)

Lemma startsWith_app p s : startsWith p (p +:+ s) = true.
Proof.
  unfold startsWith. induction p as [| c p IH].
  - by destruct s.
  - change (String c p +:+ s) with (String c (p +:+ s)). cbn.
    destruct (ascii_dec c c); [exact IH | done].
Qed.

Lemma blurFunction_includes_blur (intensity : Z) :
  includes "blur" (blurFunction intensity) = true.
Proof.
  unfold includes.
  destruct (blurFunction intensity) as [| c r] eqn:Hs; [discriminate Hs |].
  cbn [String.index]. rewrite <- Hs.
  change (String.prefix "blur" (blurFunction intensity))
    with (startsWith "blur" ("blur" +:+ ("(" +:+ pretty intensity +:+ "px)"))).
  by rewrite startsWith_app.
Qed.

Lemma grows_refl doc : grows doc doc.
Proof.
  split; [| split]; [| done | done].
  intros u e He. by exists e.
Qed.

Lemma insideMarkContainer_grows doc doc' n :
  grows doc doc' -> insideMarkContainer doc n -> insideMarkContainer doc' n.
Proof.
  intros (G1 & _ & _) (Htext & q & pe & Hq & Hpe & Hcls).
  split; [done |]. destruct (G1 q pe Hpe) as (pe' & Hpe' & Hsub & _).
  exists q, pe'. split; [done |]. split; [done |]. by apply Hsub.
Qed.

Lemma grows_trans doc1 doc2 doc3 :
  grows doc1 doc2 -> grows doc2 doc3 -> grows doc1 doc3.
Proof.
  intros H12 H23.
  pose proof H12 as (G1 & G2 & G3). pose proof H23 as (G1' & G2' & G3').
  split; [| split].
  - intros u e He. destruct (G1 u e He) as (e2 & He2 & Hs2 & Hc2 & Hb2).
    destruct (G1' u e2 He2) as (e3 & He3 & Hs3 & Hc3 & Hb3).
    exists e3. split; [done |]. split; [by etrans |].
    split; [congruence | auto].
  - intros cs Hcs. by apply G2', G2.
  - intros n Hn Hin. apply G3'; [by apply G3 |].
    by eapply insideMarkContainer_grows.
Qed.

Lemma getAttribute_setAttribute_ne name name' v e :
  name <> name' ->
  getAttribute name' (setAttribute name v e) = getAttribute name' e.
Proof.
  intros Hne. unfold setAttribute, getAttribute.
  destruct (hasAttribute name e); cbn [attributes set_attributes].
  - f_equal. induction (attributes e) as [| [k w] l IH]; [done |]. cbn.
    destruct (String.eqb_spec k name) as [-> | Hk]; cbn.
    + destruct (String.eqb_spec name name'); [done | apply IH].
    + destruct (String.eqb k name'); [done | apply IH].
  - f_equal. induction (attributes e) as [| [k w] l IH]; cbn.
    + by destruct (String.eqb_spec name name').
    + destruct (String.eqb k name'); [done | apply IH].
Qed.

Lemma benign_styleOnly f :
  (forall e, classList (f e) = classList e /\ attributes (f e) = attributes e
             /\ (hasBackdropBlur e = true -> hasBackdropBlur (f e) = true)) ->
  benign f.
Proof.
  intros Hf e. destruct (Hf e) as (Hc & Ha & Hb). split; [by rewrite Hc |].
  split; [| done]. unfold getAttribute. by rewrite Ha.
Qed.

Lemma benign_compose f g : benign f -> benign g -> benign (fun e => f (g e)).
Proof.
  intros Hf Hg e. destruct (Hg e) as (Hgc & Hga & Hgb).
  destruct (Hf (g e)) as (Hfc & Hfa & Hfb).
  split; [by etrans |]. split; [congruence | auto].
Qed.

Lemma benign_classListAdd c : benign (classListAdd c).
Proof.
  intros e. unfold classListAdd. destruct (contains c e); [done |].
  split; [| done]. cbn. intros x Hx. apply elem_of_app. by left.
Qed.

Lemma benign_setAttribute name v :
  name <> "data-coords" -> benign (setAttribute name v).
Proof.
  intros Hne e. split; [| split; [by apply getAttribute_setAttribute_ne |]].
  - unfold setAttribute. by destruct (hasAttribute name e).
  - unfold setAttribute. by destruct (hasAttribute name e).
Qed.

Lemma quiet_styleOnly f :
  (forall e, classList (f e) = classList e) -> quiet f.
Proof. intros Hf e. by rewrite Hf. Qed.

Lemma quiet_compose f g : quiet f -> quiet g -> quiet (fun e => f (g e)).
Proof. intros Hf Hg e Hin. by apply Hg, Hf. Qed.

Lemma quiet_classListAdd c : c <> textMarkerClass -> quiet (classListAdd c).
Proof.
  intros Hc e. unfold classListAdd. destruct (contains c e); [done |].
  cbn. intros Hin. apply elem_of_app in Hin as [Hin | Hin]; [done |].
  apply list_elem_of_singleton in Hin. congruence.
Qed.

Lemma quiet_setAttribute name v : quiet (setAttribute name v).
Proof.
  intros e. unfold setAttribute. by destruct (hasAttribute name e).
Qed.

Lemma contains_classListAdd c e : contains c (classListAdd c e) = true.
Proof.
  unfold classListAdd. destruct (contains c e) eqn:Hc; [done |].
  unfold contains. cbn. apply bool_decide_eq_true, elem_of_app. right.
  by apply list_elem_of_singleton.
Qed.

Lemma grows_updateElement doc u f : benign f -> grows doc (updateElement doc u f).
Proof.
  intros Hf. split; [| split].
  - intros v e He. destruct (decide (u = v)) as [<- | Hne].
    + exists (f e). rewrite getElement_updateElement, He. split; [done |].
      apply Hf.
    + exists e. by rewrite getElement_updateElement_ne.
  - intros cs (n & e & Hn & He & Hcs).
    exists (updateNode u f n).
    exists (if Nat.eqb (uid n) u then f e else e).
    split; [apply list_elem_of_fmap; by exists n |].
    unfold asElement, updateNode in *.
    destruct (kind n) as [e0 |] eqn:Hk; [| done]. injection He as ->.
    destruct (Nat.eqb (uid n) u); cbn; rewrite ?Hk; split; try done.
    destruct (Hf e) as (_ & Ha & _). by rewrite Ha.
  - intros n Hn ((data & Hdata) & _).
    apply list_elem_of_fmap. exists n. split; [| done].
    unfold updateNode. rewrite Hdata. by destruct (Nat.eqb (uid n) u).
Qed.

Lemma onlyMarked_refl doc : onlyMarked doc doc [].
Proof. intros u Hu. by left. Qed.

Lemma onlyMarked_updateElement doc u f :
  quiet f -> onlyMarked doc (updateElement doc u f) [].
Proof.
  intros Hf v Hv. left. revert Hv. unfold hasTextMarkerClass.
  destruct (decide (u = v)) as [<- | Hne].
  - rewrite getElement_updateElement.
    destruct (getElement doc u) as [e |]; [| done]. cbn.
    unfold contains. intros Hc. apply bool_decide_eq_true in Hc.
    apply bool_decide_eq_true. by apply Hf.
  - by rewrite getElement_updateElement_ne.
Qed.

Lemma silent_refl doc : silent doc doc.
Proof. split; [apply grows_refl | apply onlyMarked_refl]. Qed.

Lemma silent_trans d1 d2 d3 : silent d1 d2 -> silent d2 d3 -> silent d1 d3.
Proof.
  intros [G12 M12] [G23 M23]. split; [by eapply grows_trans |].
  intros u Hu. destruct (M23 u Hu) as [H2 | [H2 | H2]];
    [| by apply elem_of_nil in H2..].
  exact (M12 u H2).
Qed.

Lemma silent_updateElement doc u f :
  benign f -> quiet f -> silent doc (updateElement doc u f).
Proof.
  intros Hb Hq.
  split; [by apply grows_updateElement | by apply onlyMarked_updateElement].
Qed.


Lemma find_app_None {A} (f : A -> bool) (l k : list A) :
  List.find f l = None -> List.find f (l ++ k) = List.find f k.
Proof.
  induction l as [| b l IH]; [done |]. cbn. by destruct (f b).
Qed.



Lemma uid_lt_freshUid doc n : n ∈ nodes doc -> uid n < freshUid doc.
Proof.
  unfold freshUid. induction (nodes doc) as [| m l IH]; intros Hn.
  - by apply elem_of_nil in Hn.
  - cbn. apply elem_of_cons in Hn as [-> | Hn]; [lia |].
    specialize (IH Hn). lia.
Qed.


Section WrapFacts.
Context `{Browser}.







End WrapFacts.

(** ** Restoration coordinator: no marker is set twice *)
















Section StepFacts.
Context `{Browser}.

Lemma backdropFilter_setProperty_ne p v prio s :
  p <> "backdrop-filter" ->
  getPropertyValue "backdrop-filter" (setProperty p v prio s)
  = getPropertyValue "backdrop-filter" s.
Proof.
  intros Hp. unfold getPropertyValue.
  by rewrite getDeclaration_setProperty_ne by congruence.
Qed.

Lemma backdropFilter_setProperty_blur intensity prio s :
  includes "blur" (getPropertyValue "backdrop-filter" s) = true ->
  includes "blur"
    (getPropertyValue "backdrop-filter"
       (setProperty "backdrop-filter" (blurFunction intensity) prio s))
  = true.
Proof.
  intros Hs.
  destruct (cssSupports "backdrop-filter" (blurFunction intensity)) eqn:Hsup.
  - unfold getPropertyValue.
    rewrite getDeclaration_setProperty; [| | done].
    + apply blurFunction_includes_blur.
    + unfold blurFunction. by destruct (pretty intensity).
  - unfold setProperty. rewrite Hsup. cbn [negb].
    by case_bool_decide.
Qed.

Lemma benign_setFilter v : benign (setFilter v).
Proof.
  apply benign_styleOnly. intros e. split; [done |]. split; [done |].
  unfold hasBackdropBlur, setFilter. cbn [style set_style].
  by rewrite backdropFilter_setProperty_ne.
Qed.

Lemma quiet_setFilter v : quiet (setFilter v).
Proof. by apply quiet_styleOnly. Qed.

Lemma benign_probeFilter : benign probeFilter.
Proof.
  intros e. unfold probeFilter.
  destruct (benign_setFilter "blur(0px)" e) as (C1 & A1 & B1).
  destruct (benign_setFilter (getPropertyValue "filter" (style e))
              (setFilter "blur(0px)" e)) as (C2 & A2 & B2).
  split; [by etrans |]. split; [congruence | auto].
Qed.

Lemma quiet_probeFilter : quiet probeFilter.
Proof. by apply quiet_styleOnly. Qed.

Lemma benign_createProperBlurOverlay intensity :
  benign (createProperBlurOverlay intensity).
Proof.
  apply benign_styleOnly. intros e. split; [done |]. split; [done |].
  unfold hasBackdropBlur, createProperBlurOverlay. cbn [style set_style].
  intros Hb. rewrite !backdropFilter_setProperty_ne by done.
  by apply backdropFilter_setProperty_blur.
Qed.




Lemma canApplyBlurToElement_silent doc u :
  silent doc (canApplyBlurToElement doc u).2.
Proof.
  unfold canApplyBlurToElement.
  destruct (getNode doc u) as [n |]; [| apply silent_refl].
  destruct (parentNode n); [| apply silent_refl].
  destruct (kind n); [| apply silent_refl].
  repeat (match goal with
          | |- context [if ?c then _ else _] => destruct c
          end; cbn [snd negb]); try apply silent_refl;
    apply silent_updateElement;
    first [apply benign_probeFilter | apply quiet_probeFilter].
Qed.

Lemma canApplyBlurToElement_grows doc u :
  grows doc (canApplyBlurToElement doc u).2.
Proof. apply canApplyBlurToElement_silent. Qed.

Lemma canApplyBlurToElement_element doc u doc' :
  canApplyBlurToElement doc u = (true, doc') -> is_Some (getElement doc' u).
Proof.
  unfold canApplyBlurToElement.
  destruct (getNode doc u) as [n |] eqn:Hn; [| done].
  assert (He : forall e, kind n = ElementNode e ->
                 is_Some (getElement (updateElement doc u probeFilter) u)).
  { intros e He. rewrite getElement_updateElement. unfold getElement.
    rewrite Hn. unfold asElement. rewrite He. by eexists. }
  destruct (parentNode n); [| done].
  destruct (kind n) as [e |] eqn:Hk; [| done]. specialize (He e eq_refl).
  repeat (match goal with
          | |- context [if ?c then _ else _] => destruct c
          end; cbn [negb]); intros Heq; try done;
    replace doc' with (updateElement doc u probeFilter) by congruence;
    exact He.
Qed.

Lemma applyBlurToElement_silent intensity doc u :
  silent doc (applyBlurToElement intensity doc u).1
  /\ ((applyBlurToElement intensity doc u).2 = true ->
      hasMarkerClass (applyBlurToElement intensity doc u).1 u = true).
Proof.
  unfold applyBlurToElement.
  pose proof (canApplyBlurToElement_silent doc u) as Hg.
  destruct (canApplyBlurToElement doc u) as [ok doc1] eqn:Hcan.
  cbn [snd] in Hg. destruct ok; cbn [negb]; [| done].
  destruct (canApplyBlurToElement_element _ _ _ Hcan) as [e1 He1].
  unfold applyBlurWithFallbacks, tryOnElement. rewrite He1.
  cbn [applyDirectFilter fst snd]. split.
  - eapply silent_trans; [exact Hg |].
    eapply silent_trans; apply silent_updateElement.
    + intros e. apply benign_setFilter.
    + by apply quiet_styleOnly.
    + apply (benign_compose (setAttribute "data-blur-applied" "true")
               (classListAdd markerClass));
        [by apply benign_setAttribute | apply benign_classListAdd].
    + apply (quiet_compose (setAttribute "data-blur-applied" "true")
               (classListAdd markerClass));
        [apply quiet_setAttribute | by apply quiet_classListAdd].
  - intros _. unfold hasMarkerClass.
    rewrite !getElement_updateElement, He1. cbn [fmap option_fmap option_map].
    unfold setAttribute.
    match goal with
    | |- context [classListAdd markerClass ?e] =>
        pose proof (contains_classListAdd markerClass e) as Hc
    end.
    destruct (hasAttribute _ _); exact Hc.
Qed.

Lemma applyBlurToElement_grows intensity doc u :
  grows doc (applyBlurToElement intensity doc u).1
  /\ ((applyBlurToElement intensity doc u).2 = true ->
      hasMarkerClass (applyBlurToElement intensity doc u).1 u = true).
Proof.
  destruct (applyBlurToElement_silent intensity doc u) as [[Hg _] Hm].
  by split.
Qed.
End StepFacts.








Section PassFacts.
Context `{Browser}.

Lemma createFallbackSelector_silent doc blurData index now :
  silent doc (createFallbackSelector doc blurData index now).1.
Proof.
  unfold createFallbackSelector.
  repeat (match goal with
          | |- context [if ?c then _ else _] => destruct c
          | |- context [match ?x with Some _ => _ | None => _ end] =>
              destruct x
          end; cbn [fst]); try apply silent_refl.
  all: apply silent_updateElement;
    [by apply benign_setAttribute | apply quiet_setAttribute].
Qed.

Lemma createFallbackSelector_grows doc blurData index now :
  grows doc (createFallbackSelector doc blurData index now).1.
Proof. apply createFallbackSelector_silent. Qed.

















End PassFacts.

(** ** Further properties of the interaction mode machine *)

Lemma forallb_take {A} (f : A -> bool) (l : list A) k :
  forallb f l = true -> forallb f (take k l) = true.
Proof.
  revert k. induction l as [| a l IH]; intros [| k] Hl; try done.
  cbn in *. apply andb_prop in Hl as [Ha Hl]. rewrite Ha. by apply IH.
Qed.

(** X1: at every point of a run made of [setExclusiveMode] calls, toolbar
    clicks, keyboard shortcuts and the enable / show / hide messages (every
    operation but the two toggle messages), at most one gesture mode is
    active, whatever state with at most one active mode the run starts
    from. *)
Theorem exclusive_operations_keep_one_mode (ops : list ModeOp)
    (s : BlurAnything) (k : nat) :
  forallb usesExclusiveSetter ops = true ->
  activeModes s <= 1 ->
  activeModes (runModeOps s (take k ops)) <= 1.
Proof.
  intros Hops Hs. apply exclusive_setter_runs; [| done].
  by apply forallb_take.
Qed.



Lemma modeStep_textListeners s op :
  textListeners s <= textListeners (modeStep s op).
Proof.
  destruct s as [en i l b d t e h q sc ov tb c tl].
  destruct op as [[] | [] | [] | []]; destruct en, b, d, t, e;
    unfold modeStep, toolbarClick, handleKeyDown, handleMessage,
      showFloatingToolbar, setExclusiveMode;
    cbn; repeat case_bool_decide; cbn; lia.
Qed.

(** X3: the listeners that text-selection mode registers are never
    removed: no operation lowers their number, and entering and leaving
    the mode [k] times leaves [2 * k] more of them ([cleanupTextSelectionMode]
    hands [removeEventListener] a newly bound function, which matches
    nothing). *)
Theorem text_listeners_accumulate (s : BlurAnything) (ops : list ModeOp)
    (k : nat) :
  isEnabled s = true -> isTextSelectionMode s = false ->
  textListeners s <= textListeners (runModeOps s ops)
  /\ textListeners (runModeOps s (textModeToggles k)) = textListeners s + 2 * k
  /\ isTextSelectionMode (runModeOps s (textModeToggles k)) = false.
Proof.
  intros He Ht. split.
  - clear He Ht. revert s. induction ops as [| op ops IH]; intros s; [done |].
    cbn. etrans; [apply modeStep_textListeners | apply IH].
  - revert s He Ht. induction k as [| k IH]; intros s He Ht.
    + cbn. split; [lia | done].
    + unfold textModeToggles. cbn [replicate concat app].
      unfold runModeOps. cbn [foldl].
      set (s2 := modeStep (modeStep s _) _).
      assert (H2 : isEnabled s2 = true /\ isTextSelectionMode s2 = false
                   /\ textListeners s2 = textListeners s + 2).
      { subst s2. destruct s as [en i l b d t e h q sc ov tb c tl].
        cbn in He, Ht. subst en t. by cbn. }
      destruct H2 as (He2 & Ht2 & Hl2).
      destruct (IH s2 He2 Ht2) as [Hn Hm].
      unfold textModeToggles, runModeOps in Hn, Hm. rewrite Hn, Hm.
      split; [lia | done].
Qed.

(** ** Further properties of the intensity control *)

(** X4: whatever the current intensity and the change, [adjustBlurIntensity]
    leaves an intensity in [1, 10], and a setting it saves is that
    intensity: an out-of-range value, as the [settingsUpdated] message can
    store, is repaired by the first adjustment. *)
Theorem adjustBlurIntensity_always_in_range (change : Z) (s : BlurAnything) :
  let r := adjustBlurIntensity change s in
  (1 <= blurIntensity r.1 <= 10)%Z
  /\ forall v, SaveIntensitySetting v ∈ r.2 ->
       v = blurIntensity r.1 /\ (1 <= v <= 10)%Z.
Proof.
  unfold adjustBlurIntensity. cbn zeta.
  destruct (Z.eqb_spec (Z.max 1 (Z.min 10 (blurIntensity s + change)))
              (blurIntensity s)) as [Heq | Hne]; cbn [fst snd].
  - split; [lia |]. intros v Hv.
    repeat match goal with
           | H : context [Z.eqb ?a ?b] |- _ => destruct (Z.eqb a b)
           end;
      repeat (apply elem_of_cons in Hv as [Hv | Hv]; [done |]);
      by apply elem_of_nil in Hv.
  - cbn. split; [lia |]. intros v Hv.
    repeat (apply elem_of_cons in Hv as [Hv | Hv];
            [first [discriminate Hv | injection Hv as ->] |]).
    + split; [done | lia].
    + by apply elem_of_nil in Hv.
Qed.

(** ** Freemium limits *)

Lemma freemium_free_step today st :
  FreemiumService.currentTier st = FreemiumService.Free ->
  FreemiumService.contextValid st = true ->
  let used st :=
    match FreemiumService.dailyUsage
            (FreemiumService.initializeDailyUsage today st) with
    | Some u => FreemiumService.blurCount u
    | None => 0%Z
    end in
  let st' := FreemiumService.incrementDailyBlurCount today st in
  FreemiumService.currentTier st' = FreemiumService.Free
  /\ FreemiumService.contextValid st' = true
  /\ used st' = (used st + 1)%Z
  /\ FreemiumService.stored st'
     = Some (FreemiumService.mkUsage today (used st + 1)).
Proof.
  intros Ht Hc. destruct st as [tier du sto cv]. cbn in Ht, Hc. subst tier cv.
  unfold FreemiumService.incrementDailyBlurCount,
    FreemiumService.initializeDailyUsage, FreemiumService.isPremium. cbn.
  destruct sto as [[d c] |]; cbn.
  - case_bool_decide as Hd; cbn.
    + subst d. by rewrite bool_decide_true.
    + by rewrite bool_decide_true.
  - by rewrite bool_decide_true.
Qed.

(** X5: on the free tier, with a live extension context and no user
    present, the daily limit counts: after [n] recorded blurs on a day that
    started with [used] blurs in storage, [canAddBlur] answers yes exactly
    while [used + n < 10]; on any other day, after at least one recorded
    blur, it answers yes again.  With a user present the check itself
    raises the tier to premium and answers yes whatever the count. *)
Theorem free_tier_daily_quota (today tomorrow : string) (n : nat)
    (st : FreemiumService.State) :
  FreemiumService.currentTier st = FreemiumService.Free ->
  FreemiumService.contextValid st = true ->
  let used :=
    match FreemiumService.dailyUsage
            (FreemiumService.initializeDailyUsage today st) with
    | Some u => FreemiumService.blurCount u
    | None => 0%Z
    end in
  let st' := Nat.iter n (FreemiumService.incrementDailyBlurCount today) st in
  (FreemiumService.canAddBlur false today st').1
  = (used + Z.of_nat n <? 10)%Z
  /\ (0 < n -> tomorrow <> today ->
      (FreemiumService.canAddBlur false tomorrow st').1 = true)
  /\ (FreemiumService.canAddBlur true today st').1 = true
  /\ FreemiumService.currentTier (FreemiumService.canAddBlur true today st').2
     = FreemiumService.Premium.
Proof.
  intros Ht Hc used st'.
  assert (Hinv : FreemiumService.currentTier st' = FreemiumService.Free
                 /\ FreemiumService.contextValid st' = true
                 /\ match FreemiumService.dailyUsage
                            (FreemiumService.initializeDailyUsage today st') with
                    | Some u => FreemiumService.blurCount u
                    | None => 0%Z
                    end = (used + Z.of_nat n)%Z
                 /\ (0 < n ->
                     exists c, FreemiumService.stored st'
                               = Some (FreemiumService.mkUsage today c))).
  { subst st' used. induction n as [| n IH].
    - cbn. split; [done |]. split; [done |]. split; [lia | lia].
    - destruct IH as (Ht' & Hc' & Hu & _). rewrite Nat.iter_succ.
      destruct (freemium_free_step today _ Ht' Hc') as (H1 & H2 & H3 & H4).
      split; [done |]. split; [done |]. split.
      + rewrite H3, Hu. lia.
      + intros _. by eexists. }
  destruct Hinv as (Ht' & Hc' & Hu & Hs). split; [| split].
  - unfold FreemiumService.canAddBlur, FreemiumService.debugAuthState,
      FreemiumService.isPremium.
    cbn [andb]. rewrite Ht'. cbn [fst]. rewrite Hu.
    unfold FreemiumService.getFeatureLimits.
    assert (Hk : FreemiumService.currentTier
                   (FreemiumService.initializeDailyUsage today st')
                 = FreemiumService.Free).
    { unfold FreemiumService.initializeDailyUsage.
      repeat match goal with
             | |- context [if ?c then _ else _] => destruct c
             | |- context [match ?x with Some _ => _ | None => _ end] =>
                 destruct x
             end; done. }
    by rewrite Hk.
  - intros Hn Hday. destruct (Hs Hn) as [c Hsto].
    unfold FreemiumService.canAddBlur, FreemiumService.debugAuthState,
      FreemiumService.isPremium.
    cbn [andb]. rewrite Ht'. cbn [fst].
    unfold FreemiumService.initializeDailyUsage. rewrite Hc', Hsto. cbn.
    rewrite bool_decide_false by done. cbn. by rewrite Ht'.
  - unfold FreemiumService.canAddBlur, FreemiumService.debugAuthState,
      FreemiumService.isPremium.
    rewrite Ht'. by cbn.
Qed.

(** X6: with an invalidated extension context the daily limit is never
    enforced, on either tier and with or without a user: every check
    starts from a fresh count of zero, so [canAddBlur] answers yes after
    any number of recorded blurs. *)
Theorem invalid_context_never_limits (user : bool) (today : string) (n : nat)
    (st : FreemiumService.State) :
  FreemiumService.contextValid st = false ->
  let st' := Nat.iter n (FreemiumService.incrementDailyBlurCount today) st in
  (FreemiumService.canAddBlur user today st').1 = true.
Proof.
  intros Hc st'.
  assert (Hinv : FreemiumService.contextValid st' = false
                 /\ FreemiumService.currentTier st'
                    = FreemiumService.currentTier st).
  { subst st'. induction n as [| n IH]; [done |].
    destruct IH as [Hc' Ht']. rewrite Nat.iter_succ.
    unfold FreemiumService.incrementDailyBlurCount at 1 3.
    destruct (FreemiumService.isPremium _); [done |].
    unfold FreemiumService.initializeDailyUsage. rewrite Hc'. by cbn. }
  destruct Hinv as [Hc' Ht'].
  unfold FreemiumService.canAddBlur.
  set (st2 := FreemiumService.debugAuthState user st').
  assert (Hc2 : FreemiumService.contextValid st2 = false).
  { subst st2. unfold FreemiumService.debugAuthState.
    by destruct (_ && _). }
  destruct (FreemiumService.isPremium st2) eqn:Hp; [done |]. cbn [fst].
  unfold FreemiumService.initializeDailyUsage. rewrite Hc2. cbn.
  unfold FreemiumService.getFeatureLimits. cbn.
  unfold FreemiumService.isPremium in Hp.
  by destruct (FreemiumService.currentTier st2).
Qed.

(** ** Storage collaborators *)

(** X7: the background worker's store is keyed by url: what [saveBlurData]
    stored under a non-empty url is what [getBlurData] returns for it, other
    urls are untouched, a request without url or with an empty one changes
    nothing, [clearAllBlurs] empties exactly its url, and a url that was
    never saved reads as the empty list. *)
Theorem background_store_keyed_by_url (url other : string)
    (blurData : list BlurData) (st : gmap string (list BlurData)) :
  url <> "" -> other <> url ->
  Background.getBlurData url (Background.saveBlurData (Some url) blurData st)
  = blurData
  /\ Background.getBlurData other
       (Background.saveBlurData (Some url) blurData st)
     = Background.getBlurData other st
  /\ Background.saveBlurData None blurData st = st
  /\ Background.saveBlurData (Some "") blurData st = st
  /\ Background.getBlurData url (Background.clearAllBlurs (Some url) st) = []
  /\ Background.getBlurData other (Background.clearAllBlurs (Some url) st)
     = Background.getBlurData other st
  /\ Background.getBlurData url ∅ = [].
Proof.
  intros Hurl Hother.
  unfold Background.getBlurData, Background.saveBlurData,
    Background.clearAllBlurs.
  rewrite !bool_decide_false by done.
  rewrite lookup_insert_eq, lookup_delete_eq.
  rewrite lookup_insert_ne, lookup_delete_ne by done.
  by rewrite lookup_empty.
Qed.

Section CollaboratorFacts.
Context `{Browser}.

(** X8: for a signed-in user, what [syncService.saveBlurData] wrote for a
    url is what [loadBlurData] returns for it and for every url with the
    same document key, and urls with another key are untouched; signed out,
    loading gives the empty list and saving throws; a write that Firestore
    rejects throws too; a missing document reads as the empty list. *)
Theorem sync_service_round_trip (url : string) (blurData : list BlurData)
    (resolves : bool) (docs docs' : gmap string (list BlurData)) :
  SyncService.saveBlurData true url blurData resolves (Some docs)
  = Some docs' ->
  (forall other,
     SyncService.loadBlurData true other (Some docs')
     = if bool_decide (SyncService.getUrlKey other = SyncService.getUrlKey url)
       then blurData
       else SyncService.loadBlurData true other (Some docs))
  /\ SyncService.loadBlurData true url (Some docs') = blurData
  /\ SyncService.loadBlurData false url (Some docs') = []
  /\ SyncService.saveBlurData false url blurData resolves (Some docs) = None
  /\ SyncService.saveBlurData true url blurData false (Some docs) = None
  /\ SyncService.loadBlurData true url (Some ∅) = [].
Proof.
  unfold SyncService.saveBlurData, SyncService.loadBlurData. cbn.
  destruct resolves; [| done].
  intros [= <-]. split; [| split; [| done]].
  - intros other. case_bool_decide as Hk.
    + by rewrite Hk, lookup_insert_eq.
    + by rewrite lookup_insert_ne.
  - by rewrite lookup_insert_eq.
Qed.
End CollaboratorFacts.

Section LoadFacts.
Context `{Browser}.

(** X9: what [loadBlurData] loads.  Signed in with a non-empty list in
    the authoritative store, that list; otherwise, when the extension
    answers, the in-extension list, or the local list for this url when
    that one is strictly longer; and when the extension does not answer,
    the local list for this url. *)
Theorem loadBlurData_sources (p : Page) :
  let cloud := SyncService.loadBlurData true (href p) (firestore p) in
  let remote := Background.getBlurData (href p) (extensionStorage p) in
  marks (loadBlurData p)
  = if isAuthenticated p && negb (bool_decide (cloud = [])) then cloud
    else if extensionAvailable p
         then if Nat.ltb (length remote) (length (localCache p))
              then localCache p else remote
         else loadBlurDataLocally p.
Proof.
  intros cloud remote.
  destruct (isAuthenticated p) eqn:Hauth; cbn [andb].
  - case_bool_decide as Hcloud; cbn [negb].
    + destruct (extensionAvailable p) eqn:Hext.
      * rewrite loadBlurData_fallback; [done | by right | done].
      * unfold loadBlurData. rewrite Hauth, Hext. fold cloud.
        rewrite Hcloud. done.
    + by apply loadBlurData_firebase_wins.
  - destruct (extensionAvailable p) eqn:Hext.
    + rewrite loadBlurData_fallback; [done | by left | done].
    + unfold loadBlurData. by rewrite Hauth, Hext.
Qed.

(** X10: [loadBlurData] writes to no store: the in-extension store, the
    local copy, the authoritative store and the document are as before,
    whichever source the marks come from. *)
Theorem loadBlurData_writes_no_store (p : Page) :
  let p' := loadBlurData p in
  extensionStorage p' = extensionStorage p
  /\ localStorage p' = localStorage p
  /\ firestore p' = firestore p
  /\ document p' = document p
  /\ href p' = href p.
Proof.
  cbn zeta. split; [apply loadBlurData_extensionStorage |].
  assert (Hsync : forall q,
             localStorage (syncLocalDataIfNeeded q) = localStorage q
             /\ firestore (syncLocalDataIfNeeded q) = firestore q
             /\ document (syncLocalDataIfNeeded q) = document q
             /\ href (syncLocalDataIfNeeded q) = href q).
  { intros q. unfold syncLocalDataIfNeeded, sendSaveBlurData.
    destruct (localStorage q) as [[data | raw] |] eqn:Hls; [| done | done].
    destruct (LocalStorage.blurData data) as [local |]; [| done].
    repeat match goal with
           | |- context [if ?c then _ else _] => destruct c; [| done]
           end.
    done. }
  unfold loadBlurData.
  destruct (isAuthenticated p && _); [done |].
  destruct (extensionAvailable p); [| done].
  destruct (Hsync (setMarks (Background.getBlurData (href p)
                               (extensionStorage p)) p))
    as (H1 & H2 & H3 & H4).
  by rewrite H1, H2, H3, H4.
Qed.



End LoadFacts.

(** ** Further properties of the locator synthesizer *)

Lemma escapeCSSIdentifier_identifierChars s :
  allChars isIdentifierChar s = true -> escapeCSSIdentifier s = s.
Proof.
  induction s as [| c r IH]; [done |]. cbn. intros Hs.
  apply andb_prop in Hs as [Hc Hr]. by rewrite Hc, IH.
Qed.

Lemma escapeCSSIdentifier_valid s :
  isValidCSSIdentifier s = true -> escapeCSSIdentifier s = s.
Proof.
  destruct s as [| c r]; [done |]. cbn [isValidCSSIdentifier]. intros Hs.
  apply andb_prop in Hs as [Hc Hr].
  apply escapeCSSIdentifier_identifierChars. cbn. rewrite Hr, andb_true_r.
  unfold isIdentifierStart in Hc. unfold isIdentifierChar.
  destruct (isLetter c); [done |]. cbn in *.
  destruct (Ascii.eqb c "_"); [by rewrite orb_true_r |].
  cbn in Hc. rewrite Hc. by rewrite !orb_true_r.
Qed.

(** X12: the locator that [generateSelector] returns resolves to the
    element it was made for whenever the element's id, if it has one, is
    carried by no other element (and the two fallback attribute values
    are not in use): through the id selector, through a path that was
    compared with the element, or through an attribute imprinted on it. *)
Theorem generateSelector_round_trip_unique_id (doc : Document) (n : nat)
    (e : Element) (now : Z) (rand : string) :
  getElement doc n = Some e ->
  (id e <> "" ->
   forall m e', m ∈ nodes doc -> asElement m = Some e' ->
                id e' = id e -> uid m = n) ->
  (forall m e', m ∈ nodes doc -> asElement m = Some e' ->
     getAttribute "data-blur-id" e'
     <> Some ("blur-" +:+ pretty now +:+ "-" +:+ rand)) ->
  (forall m e', m ∈ nodes doc -> asElement m = Some e' ->
     getAttribute "data-blur-fallback" e'
     <> Some ("blur-fallback-" +:+ pretty now)) ->
  let r := generateSelector doc n now rand in
  querySelector r.2 r.1 = Some (Some n).
Proof.
  intros He Hunique Hfresh1 Hfresh2.
  destruct (decide (id e = "")) as [Hid | Hid];
    [apply (generateSelector_resolves_without_id _ _ e); auto |].
  destruct (isValidCSSIdentifier (id e)) eqn:Hvalid;
    [| apply (generateSelector_resolves_without_id _ _ e); auto].
  destruct (parsesAsIdentifier (escapeCSSIdentifier (id e))) eqn:Hparse;
    [| apply (generateSelector_resolves_without_id _ _ e); auto].
  cbn zeta. unfold generateSelector. rewrite He, Hvalid.
  rewrite bool_decide_false by done. cbn [negb andb].
  rewrite (escapeCSSIdentifier_valid _ Hvalid) in *.
  assert (Hq : querySelector doc (IdSelector (id e))
               = Some (head (map uid
                               (List.filter
                                  (elementSatisfies
                                     (fun e0 => bool_decide (id e0 = id e)))
                                  (nodes doc)))))
    by (unfold querySelector, querySelectorAll; by rewrite Hparse).
  rewrite Hq. cbn [fst snd]. rewrite Hq. f_equal.
  set (matches := List.filter _ (nodes doc)).
  assert (Hin : exists nd, nd ∈ matches).
  { unfold getElement, getNode in He.
    destruct (List.find _ (nodes doc)) as [nd |] eqn:Hfind; [| done].
    apply find_some in Hfind as [Hnd Huid]. exists nd.
    apply list_elem_of_In, filter_In. split; [done |].
    unfold elementSatisfies. unfold asElement in He.
    destruct (kind nd); [| done]. injection He as ->.
    by apply bool_decide_eq_true. }
  destruct matches as [| m rest] eqn:Hm;
    [destruct Hin as [nd Hnd]; by apply elem_of_nil in Hnd |].
  cbn. f_equal.
  assert (Hmem : m ∈ List.filter
                       (elementSatisfies
                          (fun e0 => bool_decide (id e0 = id e)))
                       (nodes doc))
    by (fold matches; rewrite Hm; by left).
  apply list_elem_of_In, filter_In in Hmem as [Hnodes Hsat].
  unfold elementSatisfies in Hsat.
  destruct (kind m) as [e' |] eqn:Hk; [| done].
  apply bool_decide_eq_true in Hsat.
  apply (Hunique Hid m e'); [by apply list_elem_of_In | | done].
  unfold asElement. by rewrite Hk.
Qed.

(** ** Further properties of the effect applier *)

Section ApplyFacts.
Context `{Browser}.

Lemma canApplyBlurToElement_document doc u :
  (canApplyBlurToElement doc u).2 = doc
  \/ (canApplyBlurToElement doc u).2 = updateElement doc u probeFilter.
Proof.
  unfold canApplyBlurToElement.
  destruct (getNode doc u) as [n |]; [| by left].
  destruct (parentNode n); [| by left].
  destruct (kind n); [| by left].
  repeat (match goal with
          | |- context [if ?c then _ else _] => destruct c
          end; cbn [snd negb]); first [by left | by right].
Qed.

(** X13: [applyBlurToElement] sets the marker exactly when the
    eligibility check passes.  On an eligible element it adds the marker
    class and [data-blur-applied="true"] and keeps every other class; on an
    ineligible one (hidden, a tag such as [script] or [iframe], [readonly],
    [disabled], ...) it reports failure and leaves classes and attributes
    as they were.  Tag and id never change. *)
Theorem applyBlurToElement_marks_iff_eligible (intensity : Z)
    (doc : Document) (u : nat) (e : Element) :
  getElement doc u = Some e ->
  let r := applyBlurToElement intensity doc u in
  r.2 = (canApplyBlurToElement doc u).1
  /\ exists e',
       getElement r.1 u = Some e'
       /\ tagName e' = tagName e /\ id e' = id e
       /\ if r.2
          then markerClass ∈ classList e'
               /\ getAttribute "data-blur-applied" e' = Some "true"
               /\ (forall c, c <> markerClass ->
                     c ∈ classList e' <-> c ∈ classList e)
          else classList e' = classList e /\ attributes e' = attributes e.
Proof.
  intros He. cbn zeta. unfold applyBlurToElement.
  pose proof (canApplyBlurToElement_document doc u) as Hdoc.
  destruct (canApplyBlurToElement doc u) as [ok doc1] eqn:Hcan.
  cbn [fst snd] in *.
  assert (H1 : exists e1, getElement doc1 u = Some e1
                          /\ tagName e1 = tagName e /\ id e1 = id e
                          /\ classList e1 = classList e
                          /\ attributes e1 = attributes e).
  { destruct Hdoc as [-> | ->].
    - by exists e.
    - exists (probeFilter e). by rewrite getElement_updateElement, He. }
  destruct H1 as (e1 & He1 & Htag & Hid & Hcls & Hattr).
  destruct ok; cbn [negb].
  - unfold applyBlurWithFallbacks, tryOnElement. rewrite He1.
    cbn [applyDirectFilter fst snd]. split; [done |].
    rewrite !getElement_updateElement, He1.
    cbn [fmap option_fmap option_map]. eexists. split; [done |].
    set (e2 := setFilter _ e1).
    assert (H2 : tagName e2 = tagName e /\ id e2 = id e
                 /\ classList e2 = classList e) by done.
    destruct H2 as (Htag2 & Hid2 & Hcls2).
    assert (Hset : forall x,
               classList (setAttribute "data-blur-applied" "true" x)
               = classList x
               /\ tagName (setAttribute "data-blur-applied" "true" x)
                  = tagName x
               /\ id (setAttribute "data-blur-applied" "true" x) = id x).
    { intros x. unfold setAttribute. by destruct (hasAttribute _ _). }
    destruct (Hset (classListAdd markerClass e2)) as (Hc & Ht & Hi).
    rewrite Hc, Ht, Hi.
    assert (Hadd : classList (classListAdd markerClass e2)
                   = classList e2
                   \/ classList (classListAdd markerClass e2)
                      = classList e2 ++ [markerClass]).
    { unfold classListAdd. destruct (contains markerClass e2);
        [by left | by right]. }
    pose proof (contains_classListAdd markerClass e2) as Hcontains.
    unfold contains in Hcontains. apply bool_decide_eq_true in Hcontains.
    split; [unfold classListAdd; by destruct (contains _ _) |].
    split; [unfold classListAdd; by destruct (contains _ _) |].
    split; [done |]. split; [apply getAttribute_setAttribute |].
    intros c Hc'. rewrite <- Hcls2.
    destruct Hadd as [-> | ->]; [done |].
    rewrite elem_of_app, list_elem_of_singleton.
    split; [intros [Hin | Hin]; [done | by subst c] | by left].
  - split; [done |]. by exists e1.
Qed.
End ApplyFacts.

(** ** Strings of the effect *)

Lemma allChars_pretty_N_go (P : ascii -> bool) (x : N) (s : string) :
  (forall d, P (pretty_N_char d) = true) ->
  allChars P s = true -> allChars P (pretty_N_go x s) = true.
Proof.
  intros Hdigit. revert s.
  induction (N.lt_wf_0 x) as [x _ IH]; intros s Hs.
  destruct (decide (x = 0)%N) as [-> | Hx]; [by rewrite pretty_N_go_0 |].
  rewrite pretty_N_go_step by lia. apply IH.
  - apply N.div_lt; lia.
  - cbn. by rewrite Hdigit, Hs.
Qed.

Lemma allChars_pretty_Z (P : ascii -> bool) (z : Z) :
  (forall d, P (pretty_N_char d) = true) -> P "-"%char = true ->
  allChars P (pretty z) = true.
Proof.
  intros Hdigit Hdash.
  assert (Hzero : P "0"%char = true) by apply (Hdigit 0%N).
  assert (Hpos : forall p : positive, allChars P (pretty p) = true).
  { intros p. unfold pretty, pretty_positive, pretty, pretty_N.
    case_decide; [done |]. by apply allChars_pretty_N_go. }
  destruct z as [| p | p]; unfold pretty, pretty_Z.
  - cbn. by rewrite Hzero.
  - apply Hpos.
  - change (P "-"%char && allChars P (pretty p) = true).
    rewrite Hdash. apply Hpos.
Qed.

Lemma pretty_N_char_cases (P : ascii -> bool) :
  P "0"%char = true -> P "1"%char = true -> P "2"%char = true ->
  P "3"%char = true -> P "4"%char = true -> P "5"%char = true ->
  P "6"%char = true -> P "7"%char = true -> P "8"%char = true ->
  P "9"%char = true ->
  forall d, P (pretty_N_char d) = true.
Proof.
  intros. unfold pretty_N_char. repeat case_match; done.
Qed.

Lemma afterFirst_app stop s t :
  allChars (fun c => negb (Ascii.eqb c stop)) s = true ->
  afterFirst stop (s +:+ t) = afterFirst stop t.
Proof.
  induction s as [| c r IH]; [done |]. intros Hs. simpl in Hs.
  apply andb_prop in Hs as [Hc Hr].
  change (String c r +:+ t) with (String c (r +:+ t)). simpl.
  destruct (Ascii.eqb c stop); [done |]. by apply IH.
Qed.

Lemma substring_0_length s : String.substring 0 (String.length s) s = s.
Proof. induction s as [| c r IH]; [done |]. cbn. by rewrite IH. Qed.

Lemma dropChars_app p s : dropChars (String.length p) (p +:+ s) = s.
Proof.
  unfold dropChars. induction p as [| c p IH].
  - change ("" +:+ s) with s. cbn [String.length].
    rewrite Nat.sub_0_r. apply substring_0_length.
  - change (String c p +:+ s) with (String c (p +:+ s)). exact IH.
Qed.

Lemma afterFirst_blur_argument (intensity : Z) :
  afterFirst ")" (pretty intensity +:+ "px)") = Some "".
Proof.
  rewrite afterFirst_app; [done |].
  apply allChars_pretty_Z; [| done].
  by apply (pretty_N_char_cases (fun c => negb (Ascii.eqb c ")"))).
Qed.

Lemma removeBlurFunctionsFrom_blur fuel (inner rest : string) :
  allChars (fun c => negb (Ascii.eqb c ")")) inner = true ->
  removeBlurFunctionsFrom (S fuel) ("blur(" +:+ (inner +:+ (")" +:+ rest)))
  = removeBlurFunctionsFrom fuel rest.
Proof.
  intros Hinner.
  destruct ("blur(" +:+ (inner +:+ (")" +:+ rest))) as [| c r] eqn:Hs;
    [discriminate Hs |].
  cbn [removeBlurFunctionsFrom]. rewrite <- Hs.
  rewrite startsWith_app, (dropChars_app "blur("), afterFirst_app by done.
  change (")" +:+ rest) with (String ")" rest). cbn [afterFirst].
  by rewrite Ascii.eqb_refl.
Qed.

Lemma replaceBlurFunctionsFrom_blur fuel (by_ inner rest : string) :
  allChars (fun c => negb (Ascii.eqb c ")")) inner = true ->
  replaceBlurFunctionsFrom (S fuel) by_
    ("blur(" +:+ (inner +:+ (")" +:+ rest)))
  = by_ +:+ replaceBlurFunctionsFrom fuel by_ rest.
Proof.
  intros Hinner.
  destruct ("blur(" +:+ (inner +:+ (")" +:+ rest))) as [| c r] eqn:Hs;
    [discriminate Hs |].
  cbn [replaceBlurFunctionsFrom]. rewrite <- Hs.
  rewrite startsWith_app, (dropChars_app "blur("), afterFirst_app by done.
  change (")" +:+ rest) with (String ")" rest). cbn [afterFirst].
  by rewrite Ascii.eqb_refl.
Qed.

Lemma blurFunction_shape (intensity : Z) :
  blurFunction intensity
  = "blur(" +:+ ((pretty intensity +:+ "px") +:+ (")" +:+ ""))
  /\ allChars (fun c => negb (Ascii.eqb c ")")) (pretty intensity +:+ "px")
     = true.
Proof.
  assert (Happ : forall a b c : string, a +:+ (b +:+ c) = (a +:+ b) +:+ c).
  { intros a b c. induction a as [| x a IH]; [done |].
    change (String x (a +:+ (b +:+ c)) = String x ((a +:+ b) +:+ c)).
    by rewrite IH. }
  assert (Hall : forall P (a b : string),
             allChars P a = true -> allChars P b = true ->
             allChars P (a +:+ b) = true).
  { intros P a b Ha Hb. induction a as [| x a IH]; [done |].
    change (P x && allChars P (a +:+ b) = true).
    change (P x && allChars P a = true) in Ha.
    apply andb_prop in Ha as [Hx Ha]. by rewrite Hx, IH. }
  split.
  - unfold blurFunction. rewrite <- Happ. reflexivity.
  - apply Hall; [| done]. apply allChars_pretty_Z; [| done].
    by apply (pretty_N_char_cases (fun c => negb (Ascii.eqb c ")"))).
Qed.

Lemma removeBlurFunctions_blurFunction (previous : Z) :
  removeBlurFunctions (blurFunction previous) = "".
Proof.
  destruct (blurFunction_shape previous) as [Hshape Hinner].
  unfold removeBlurFunctions. rewrite Hshape at 2.
  rewrite removeBlurFunctionsFrom_blur by done.
  by destruct (String.length _).
Qed.

Lemma replaceBlurFunctions_blurFunction (by_ : string) (previous : Z) :
  replaceBlurFunctions by_ (blurFunction previous) = by_.
Proof.
  destruct (blurFunction_shape previous) as [Hshape Hinner].
  assert (Hnil : forall a : string, a +:+ "" = a).
  { intros a. induction a as [| x a IH]; [done |].
    change (String x (a +:+ "") = String x a). by rewrite IH. }
  unfold replaceBlurFunctions. rewrite Hshape at 2.
  rewrite replaceBlurFunctionsFrom_blur by done.
  destruct (String.length _); cbn [replaceBlurFunctionsFrom]; apply Hnil.
Qed.

(** X14: a blur is replaced, not stacked: the filter that the applier
    composes over an inline filter that is one blur function, of any
    intensity, is the one blur function of the new intensity, as it is
    over no filter at all; and the replacement that the intensity update
    makes in such a filter gives the new blur function. *)
Theorem blurredFilter_replaces_blur (intensity previous : Z) :
  blurredFilter intensity (blurFunction previous) = blurFunction intensity
  /\ blurredFilter intensity "" = blurFunction intensity
  /\ replaceBlurFunctions (blurFunction intensity) (blurFunction previous)
     = blurFunction intensity.
Proof.
  split; [| split].
  - unfold blurredFilter. by rewrite removeBlurFunctions_blurFunction.
  - done.
  - apply replaceBlurFunctions_blurFunction.
Qed.

(** ** Further properties of the gestures *)

Section GestureLimits.
Context `{Browser}.

Lemma debugAuthState_free p :
  FreemiumService.currentTier (freemium p) = FreemiumService.Free ->
  firebaseUser p = false ->
  freemium (debugAuthState p) = freemium p.
Proof.
  intros Ht Hu. unfold debugAuthState, refreshCurrentUser.
  cbn. by rewrite Hu.
Qed.

Lemma debugAuthState_premium p :
  FreemiumService.currentTier (freemium p) = FreemiumService.Premium
  \/ firebaseUser p = true ->
  FreemiumService.currentTier (freemium (debugAuthState p))
  = FreemiumService.Premium.
Proof.
  intros Hp. unfold debugAuthState, refreshCurrentUser. cbn.
  unfold FreemiumService.debugAuthState, FreemiumService.isPremium.
  destruct (firebaseUser p), (FreemiumService.currentTier (freemium p)) eqn:Ht;
    cbn; try done. by destruct Hp.
Qed.

Lemma debugAuthState_frame p :
  self (debugAuthState p) = self p
  /\ document (debugAuthState p) = document p
  /\ notifications (debugAuthState p) = notifications p
  /\ firebaseUser (debugAuthState p) = firebaseUser p.
Proof. done. Qed.

(** X15: the size limit of a drawn region follows the tier.  On the free
    tier with no user present, a rectangle wider or higher than 200 (and
    at least 10 by 10) commits nothing: store, document and daily count
    are as before, [showUpgradeNotification] is called and the preview is
    discarded.  On the premium tier, and on the free tier with a user
    present (the handler's [debugAuthState] then raises the tier), every
    rectangle of at least 10 by 10 commits its region mark. *)
Theorem region_size_limit_by_tier (layout : Layout) (now : Z)
    (today : string) (ev : MouseEvent) (p : Page) (sx sy : Z)
    (ov : DrawingOverlay) :
  isEnabled (self p) = true ->
  isDrawingMode (self p) = true ->
  startCoords (self p) = Some (sx, sy) ->
  drawingOverlay (self p) = Some ov ->
  (10 <= Z.abs (pageX ev - sx))%Z ->
  (10 <= Z.abs (pageY ev - sy))%Z ->
  let w := Z.abs (pageX ev - sx) in
  let h := Z.abs (pageY ev - sy) in
  let p' := handleMouseUp layout now today ev p in
  let c := mkCoords (left (overlayRect layout) + scrollX layout)
             (top (overlayRect layout) + scrollY layout)
             (rectWidth (overlayRect layout))
             (rectHeight (overlayRect layout)) in
  (FreemiumService.currentTier (freemium p) = FreemiumService.Free ->
   firebaseUser p = false ->
   (200 < w \/ 200 < h)%Z ->
   marks p' = marks p /\ document p' = document p
   /\ freemium p' = freemium p
   /\ notifications p' = notifications p ++ ["upgrade: rectangle-size"]
   /\ drawingOverlay (self p') = None /\ startCoords (self p') = None)
  /\ (FreemiumService.currentTier (freemium p) = FreemiumService.Premium
      \/ firebaseUser p = true ->
      marks p'
      = marks p ++ [mkBlurData (areaSelector c) TypeArea (Some c) None now]
      /\ FreemiumService.currentTier (freemium p') = FreemiumService.Premium).
Proof.
  intros He Hd Hs Ho Hw Hh w h p' c. subst p'. unfold handleMouseUp.
  rewrite Hs, Ho, He, Hd. cbn [negb orb]. fold w h.
  assert (Hsmall : (w <? 10)%Z || (h <? 10)%Z = false).
  { apply orb_false_iff. split; apply Z.ltb_ge; done. }
  rewrite Hsmall. split.
  - intros Htier Huser Hbig.
    unfold FreemiumService.getMaxRectangleSize,
      FreemiumService.getFeatureLimits.
    rewrite (debugAuthState_free p Htier Huser), Htier. cbn [fst snd
      FreemiumService.maxRectangleSize FreemiumService.gtLimit].
    assert (Hgt : (200 <? w)%Z || (200 <? h)%Z = true).
    { apply orb_true_iff. destruct Hbig; [left | right]; by apply Z.ltb_lt. }
    rewrite Hgt.
    pose proof (debugAuthState_free p Htier Huser) as Hfs.
    repeat split; try done.
  - intros Hprem.
    pose proof (debugAuthState_premium p Hprem) as Htier.
    unfold FreemiumService.getMaxRectangleSize,
      FreemiumService.getFeatureLimits. rewrite Htier. cbn [fst snd
      FreemiumService.maxRectangleSize FreemiumService.gtLimit orb].
    rewrite !canAddBlur_debugAuthState.
    assert (Hcan : exists q, canAddBlur today p = (true, q)
                             /\ self q = self p
                             /\ FreemiumService.currentTier (freemium q)
                                = FreemiumService.Premium).
    { unfold canAddBlur, refreshCurrentUser. cbn.
      unfold FreemiumService.canAddBlur.
      fold (FreemiumService.debugAuthState (firebaseUser p) (freemium p)).
      change (FreemiumService.debugAuthState (firebaseUser p) (freemium p))
        with (freemium (debugAuthState p)).
      unfold FreemiumService.isPremium. rewrite Htier. by eexists. }
    destruct Hcan as (q & -> & Hq & Hqt). cbn [negb].
    rewrite marks_finishDrawing.
    rewrite (marks_createBlurArea layout now today q ov (sx, sy))
      by (by rewrite Hq).
    split; [unfold marks; by rewrite Hq |].
    unfold createBlurArea. rewrite Hq, Ho, Hs. cbn.
    unfold FreemiumService.incrementDailyBlurCount, FreemiumService.isPremium.
    by rewrite Hqt.
Qed.

(** X17: [unblurElement] removes from the store every mark with the given
    selector and no other, takes both marker classes off the element, and
    persists the new store at once: the local copy holds it and, when the
    extension answers, so does the in-extension store.  At most one
    injected style sheet remains. *)
Theorem unblurElement_removes_and_persists (element : nat) (sel : string)
    (now : Z) (p : Page) :
  let p' := unblurElement element sel now p in
  marks p' = filter (fun b => selector b <> sel) (marks p)
  /\ (forall b, b ∈ marks p' -> selector b <> sel)
  /\ hasMarkerClass (document p') element = false
  /\ hasTextMarkerClass (document p') element = false
  /\ loadBlurDataLocally p' = marks p'
  /\ (extensionAvailable p = true -> href p <> "" ->
      Background.getBlurData (href p') (extensionStorage p') = marks p')
  /\ length (injectedStyles p') <= 1.
Proof.
  intros p'.
  assert (Hmarks : marks p' = filter (fun b => selector b <> sel) (marks p))
    by apply marks_unblurElement.
  subst p'. unfold unblurElement in *.
  set (q := rebuildInjectedCSS _) in *.
  destruct (saveBlurData_localStorage now q) as (Hlocal & Hhref & Hself & Hdoc).
  assert (Hq : marks q = filter (fun b => selector b <> sel) (marks p))
    by (by rewrite <- Hmarks, marks_saveBlurData).
  assert (Hqdoc : document q = removeBlurFromElement (document p) element).
  { subst q. unfold rebuildInjectedCSS, preInjectBlurCSS.
    by case_bool_decide. }
  assert (Hcls : forall x, classList (removeBlur x)
                           = classList (classListRemove textMarkerClass
                                          (classListRemove markerClass x))).
  { intros x. unfold removeBlur, cleanStyleAttribute. cbn zeta.
    repeat match goal with
           | |- context [if ?c then _ else _] => destruct c
           end; done. }
  split; [done |]. split.
  { intros b Hb. rewrite Hmarks in Hb.
    by apply list_elem_of_filter in Hb as [Hb _]. }
  split.
  { unfold hasMarkerClass. rewrite Hdoc, Hqdoc.
    unfold removeBlurFromElement. rewrite getElement_updateElement.
    destruct (getElement (document p) element) as [e |]; [| done].
    cbn [fmap option_fmap option_map]. unfold contains. rewrite Hcls.
    apply bool_decide_eq_false. unfold classListRemove. cbn.
    intros Hin. apply list_elem_of_filter in Hin as [_ Hin].
    by apply list_elem_of_filter in Hin as [Hin _]. }
  split.
  { unfold hasTextMarkerClass. rewrite Hdoc, Hqdoc.
    unfold removeBlurFromElement. rewrite getElement_updateElement.
    destruct (getElement (document p) element) as [e |]; [| done].
    cbn [fmap option_fmap option_map]. unfold contains. rewrite Hcls.
    apply bool_decide_eq_false. unfold classListRemove. cbn.
    intros Hin. by apply list_elem_of_filter in Hin as [Hin _]. }
  split.
  { unfold loadBlurDataLocally. rewrite Hlocal, Hhref. cbn.
    rewrite bool_decide_true by done. by rewrite marks_saveBlurData. }
  split.
  { intros Hext Hurl. rewrite Hhref, marks_saveBlurData.
    assert (Hflags : extensionAvailable q = extensionAvailable p
                     /\ href q = href p).
    { subst q. unfold rebuildInjectedCSS, preInjectBlurCSS.
      by case_bool_decide. }
    destruct Hflags as [Hqe Hqh].
    apply saveBlurData_extensionStorage; by rewrite ?Hqe, ?Hqh. }
  assert (Hinj : injectedStyles (saveBlurData now q) = injectedStyles q).
  { unfold saveBlurData, sendSaveBlurData.
    repeat (match goal with
            | |- context [if ?c then _ else _] => destruct c
            | |- context [match ?x with Some _ => _ | None => _ end] =>
                destruct x
            end; cbn); done. }
  rewrite Hinj. subst q. unfold rebuildInjectedCSS, preInjectBlurCSS.
  case_bool_decide; cbn; lia.
Qed.

(** What a gesture may do to the daily count of the free tier. *)
Lemma freemium_quota_step today fs :
  FreemiumService.currentTier fs = FreemiumService.Free ->
  FreemiumService.contextValid fs = true ->
  (forall u, FreemiumService.stored fs = Some u ->
             (FreemiumService.blurCount u <= 10)%Z) ->
  let checked := FreemiumService.canAddBlur false today fs in
  let ok fs' :=
    FreemiumService.currentTier fs' = FreemiumService.Free
    /\ FreemiumService.contextValid fs' = true
    /\ forall u, FreemiumService.stored fs' = Some u ->
                 (FreemiumService.blurCount u <= 10)%Z in
  ok checked.2
  /\ (checked.1 = true ->
      ok (FreemiumService.incrementDailyBlurCount today checked.2)).
Proof.
  intros Ht Hc Hs. destruct fs as [tier du sto cv]. cbn in Ht, Hc, Hs.
  subst tier cv.
  unfold FreemiumService.canAddBlur, FreemiumService.debugAuthState,
    FreemiumService.incrementDailyBlurCount,
    FreemiumService.initializeDailyUsage, FreemiumService.isPremium. cbn.
  destruct sto as [[d c] |]; cbn.
  - specialize (Hs _ eq_refl). cbn in Hs.
    case_bool_decide as Hd; cbn.
    + split; [by repeat split; try (intros u [= <-]) |].
      intros Hlt. apply Z.ltb_lt in Hlt.
      rewrite bool_decide_true by done. cbn.
      repeat split; try done. intros u [= <-]. cbn. lia.
    + split; [repeat split; try done; intros u [= <-]; cbn; lia |].
      intros _. rewrite bool_decide_true by done. cbn.
      repeat split; try done. intros u [= <-]. cbn. lia.
  - split; [repeat split; try done; intros u [= <-]; cbn; lia |].
    intros _. rewrite bool_decide_true by done. cbn.
    repeat split; try done. intros u [= <-]. cbn. lia.
Qed.

Lemma freemium_saveBlurData now p :
  freemium (saveBlurData now p) = freemium p
  /\ firebaseUser (saveBlurData now p) = firebaseUser p.
Proof.
  unfold saveBlurData, sendSaveBlurData.
  repeat (match goal with
          | |- context [if ?c then _ else _] => destruct c
          | |- context [match ?x with Some _ => _ | None => _ end] =>
              destruct x
          end; cbn); done.
Qed.

Lemma freemium_unblurElement element sel now p :
  freemium (unblurElement element sel now p) = freemium p
  /\ firebaseUser (unblurElement element sel now p) = firebaseUser p.
Proof.
  unfold unblurElement.
  destruct (freemium_saveBlurData now
              (rebuildInjectedCSS
                 (setMarks (filter (fun b => selector b <> sel)
                              (marks (set_document
                                        (removeBlurFromElement (document p)
                                           element) p)))
                    (set_document
                       (removeBlurFromElement (document p) element) p))))
    as [-> ->].
  unfold rebuildInjectedCSS, preInjectBlurCSS. by case_bool_decide.
Qed.

Lemma gestureStep_withinDailyLimit p g :
  withinDailyLimit p -> withinDailyLimit (gestureStep p g).
Proof.
  intros (Hu & Ht & Hc & Hs).
  assert (Hstep : forall today,
             let checked := canAddBlur today p in
             withinDailyLimit checked.2
             /\ (checked.1 = true ->
                 FreemiumService.currentTier
                   (FreemiumService.incrementDailyBlurCount today
                      (freemium checked.2)) = FreemiumService.Free
                 /\ FreemiumService.contextValid
                      (FreemiumService.incrementDailyBlurCount today
                         (freemium checked.2)) = true
                 /\ forall u,
                      FreemiumService.stored
                        (FreemiumService.incrementDailyBlurCount today
                           (freemium checked.2)) = Some u ->
                      (FreemiumService.blurCount u <= 10)%Z)).
  { intros today. unfold canAddBlur, refreshCurrentUser. cbn. rewrite Hu.
    pose proof (freemium_quota_step today (freemium p) Ht Hc Hs) as Hq.
    cbn zeta in Hq.
    destruct (FreemiumService.canAddBlur false today (freemium p))
      as [can fs].
    cbn in *. destruct Hq as [Hq1 Hq2]. by split. }
  assert (Hp : withinDailyLimit p) by done.
  destruct g as [element now rand today | ev | ev
                | layout now today ev
                | selection now rand today]; cbn [gestureStep].
  - unfold blurElement. destruct (negb _); [done |].
    destruct (Hstep today) as [Hchecked Hinc].
    destruct (canAddBlur today p) as [can q].
    cbn [fst snd] in *. destruct can; cbn [negb]; [| done].
    destruct (generateSelector _ _ _ _) as [sel doc].
    destruct Hchecked as (Hqu & Hqt & Hqc & Hqs).
    destruct (existsb _ _).
    { unfold withinDailyLimit.
      by destruct (freemium_unblurElement element (selectorText sel) now
                     (set_document doc q)) as [-> ->]. }
    destruct (applyBlurToElement _ _ _) as [doc' ok].
    destruct ok; cbn [negb]; [| done].
    split; [done |]. by apply Hinc.
  - unfold handleMouseDown.
    by repeat match goal with
              | |- context [if ?c then _ else _] => destruct c
              end.
  - unfold handleMouseMove.
    destruct (startCoords (self p)) as [[sx sy] |]; [| done].
    destruct (drawingOverlay (self p)); [| done].
    by destruct (_ || _).
  - unfold handleMouseUp.
    destruct (startCoords (self p)) as [[sx sy] |] eqn:Hsc; [| done].
    destruct (drawingOverlay (self p)) eqn:Hov; [| done].
    destruct (negb _ || negb _); [done |].
    destruct (_ || _); [done |].
    assert (Hd : withinDailyLimit (debugAuthState p)).
    { unfold withinDailyLimit. by rewrite (debugAuthState_free p Ht Hu). }
    destruct (_ || _); [done |].
    rewrite !canAddBlur_debugAuthState.
    destruct (Hstep today) as [Hchecked Hinc].
    assert (Hq : self (canAddBlur today p).2 = self p).
    { unfold canAddBlur. by destruct (FreemiumService.canAddBlur _ _ _). }
    destruct (canAddBlur today p) as [can q].
    cbn [fst snd] in *. destruct can; cbn [negb]; [| done].
    destruct Hchecked as (Hqu & Hqt & Hqc & Hqs).
    unfold createBlurArea. rewrite Hq, Hov, Hsc.
    split; [done |]. by apply Hinc.
  - unfold handleTextSelection.
    destruct (_ || _); [done |].
    destruct (Hstep today) as [Hchecked Hinc].
    destruct (canAddBlur today p) as [can q].
    cbn [fst snd] in *. destruct can; cbn [negb]; [| done].
    destruct selection as [sel |]; [| done].
    destruct (ranges sel) as [| range rest]; [done |].
    repeat match goal with
           | |- context [if ?c then _ else _] => destruct c; [done |]
           end.
    destruct Hchecked as (Hqu & Hqt & Hqc & Hqs).
    destruct (deleteContents _ _) as [doc1 deleted].
    destruct deleted; cbn [negb]; [| done].
    destruct (insertNode _ _ _) as [doc [span |]]; [| done].
    split; [done |]. by apply Hinc.
Qed.

(** X18: on the free tier, with a live extension context and no user
    present, no sequence of clicks, drawn regions and text selections, on
    whatever days, records more than the daily limit: a stored count of at
    most 10 stays at most 10, and the tier is not changed by gestures. *)
Theorem free_tier_gestures_respect_quota (gestures : list Gesture)
    (p : Page) :
  firebaseUser p = false ->
  FreemiumService.currentTier (freemium p) = FreemiumService.Free ->
  FreemiumService.contextValid (freemium p) = true ->
  (forall u, FreemiumService.stored (freemium p) = Some u ->
             (FreemiumService.blurCount u <= 10)%Z) ->
  let p' := foldl gestureStep p gestures in
  FreemiumService.currentTier (freemium p') = FreemiumService.Free
  /\ forall u, FreemiumService.stored (freemium p') = Some u ->
               (FreemiumService.blurCount u <= 10)%Z.
Proof.
  intros Hu Ht Hc Hs. cbn zeta.
  assert (Hinv : withinDailyLimit (foldl gestureStep p gestures)).
  { assert (Hp : withinDailyLimit p) by done. clear Hu Ht Hc Hs.
    revert p Hp. induction gestures as [| g gs IH]; intros p Hp; [done |].
    cbn. apply IH. by apply gestureStep_withinDailyLimit. }
  destruct Hinv as (_ & H1 & _ & H3). done.
Qed.
End GestureLimits.

Section TemporaryMarks.
Context `{Browser}.

Lemma stores_unblurElement_length element sel now p :
  length (marks (unblurElement element sel now p)) <= length (marks p).
Proof. rewrite marks_unblurElement. apply length_filter. Qed.

Lemma createBlurArea_stores layout now today p :
  localStorage (createBlurArea layout now today p) = localStorage p
  /\ extensionStorage (createBlurArea layout now today p)
     = extensionStorage p
  /\ firestore (createBlurArea layout now today p) = firestore p.
Proof.
  unfold createBlurArea.
  destruct (drawingOverlay (self p)); [| done].
  by destruct (startCoords (self p)).
Qed.

(** X19: a gesture that adds a mark persists nothing.  Whenever a click,
    a drawn region or a text selection leaves the store longer than it
    was, the local copy, the in-extension store and the authoritative store
    are exactly as before: the new mark lives in memory until something
    saves the store. *)
Theorem added_marks_are_not_persisted (g : Gesture) (p : Page) :
  let p' := gestureStep p g in
  length (marks p) < length (marks p') ->
  localStorage p' = localStorage p
  /\ extensionStorage p' = extensionStorage p
  /\ firestore p' = firestore p.
Proof.
  cbn zeta.
  assert (Hcan : forall today,
             self (canAddBlur today p).2 = self p
             /\ localStorage (canAddBlur today p).2 = localStorage p
             /\ extensionStorage (canAddBlur today p).2 = extensionStorage p
             /\ firestore (canAddBlur today p).2 = firestore p).
  { intros today. unfold canAddBlur.
    by destruct (FreemiumService.canAddBlur _ _ _). }
  destruct g as [element now rand today | ev | ev
                | layout now today ev
                | selection now rand today]; cbn [gestureStep].
  - unfold blurElement. destruct (negb _); [done |].
    destruct (Hcan today) as (Hself & Hl & He & Hf).
    destruct (canAddBlur today p) as [can q]. cbn [snd] in *.
    destruct (negb can); [done |].
    destruct (generateSelector _ _ _ _) as [sel doc].
    destruct (existsb _ _).
    + intros Hlen. exfalso.
      pose proof (stores_unblurElement_length element (selectorText sel) now
                    (set_document doc q)) as Hle.
      change (marks (set_document doc q)) with (marks q) in Hle.
      unfold marks at 2 in Hle. rewrite Hself in Hle. fold (marks p) in Hle.
      lia.
    + destruct (applyBlurToElement _ _ _) as [doc' ok].
      by destruct (negb ok).
  - unfold handleMouseDown.
    by repeat match goal with
              | |- context [if ?c then _ else _] => destruct c
              end.
  - unfold handleMouseMove.
    destruct (startCoords (self p)) as [[sx sy] |]; [| done].
    destruct (drawingOverlay (self p)); [| done].
    by destruct (_ || _).
  - unfold handleMouseUp.
    destruct (startCoords (self p)) as [[sx sy] |] eqn:Hsc; [| done].
    destruct (drawingOverlay (self p)) eqn:Hov; [| done].
    destruct (negb _ || negb _); [done |].
    destruct (_ || _); [done |].
    destruct (_ || _); [done |].
    rewrite !canAddBlur_debugAuthState.
    destruct (Hcan today) as (Hself & Hl & He & Hf).
    destruct (canAddBlur today p) as [can q]. cbn [snd] in *.
    destruct (negb can); [done |].
    intros _.
    destruct (createBlurArea_stores layout now today q) as (Cl & Ce & Cf).
    split; [by rewrite <- Hl, <- Cl |].
    split; [by rewrite <- He, <- Ce | by rewrite <- Hf, <- Cf].
  - unfold handleTextSelection.
    destruct (_ || _); [done |].
    destruct (Hcan today) as (Hself & Hl & He & Hf).
    destruct (canAddBlur today p) as [can q]. cbn [snd] in *.
    destruct (negb can); [done |].
    destruct selection as [sel |]; [| done].
    destruct (ranges sel) as [| range rest]; [done |].
    repeat match goal with
           | |- context [if ?c then _ else _] => destruct c; [done |]
           end.
    destruct (deleteContents _ _) as [doc1 deleted].
    destruct deleted; cbn [negb];
      [| intros Hlen; exfalso; revert Hlen; unfold marks; cbn;
         rewrite Hself; lia].
    destruct (insertNode _ _ _) as [doc [span |]]; [done |].
    intros Hlen; exfalso; revert Hlen; unfold marks; cbn; rewrite Hself; lia.
Qed.
End TemporaryMarks.

(** ** Further properties of the restoration coordinator *)

Lemma keepUnqueuedFrom_lookup k queue (l : list BlurData) i b :
  l !! i = Some b -> k + i ∉ queue -> b ∈ keepUnqueuedFrom k queue l.
Proof.
  revert k i. induction l as [| a r IH]; intros k i Hl Hq; [done |].
  cbn. destruct i as [| i]; cbn in Hl.
  - injection Hl as ->. rewrite Nat.add_0_r in Hq.
    rewrite bool_decide_false by done. by left.
  - assert (Hin : b ∈ keepUnqueuedFrom (S k) queue r).
    { apply (IH (S k) i); [done |]. by replace (S k + i) with (k + S i) by lia. }
    case_bool_decide; [done | by right].
Qed.

Section RegionFacts.
Context `{Browser}.

Lemma restoreMark_area_self now st i b :
  type b = TypeArea -> self (restoreMark now st (i, b)).1 = self st.1.
Proof.
  intros Hb. unfold restoreMark. rewrite Hb.
  destruct (coords b) as [c |]; [| done].
  destruct st as [p log]. unfold restoreAreaMark.
  destruct (negb _); [done |].
  destruct (querySelector _ _) as [[u |] |]; [| done | done].
  by match goal with |- context [if ?c then _ else _] => destruct c end.
Qed.

Lemma scan_queues_no_region now (l : list BlurData) entries st :
  (forall i b, (i, b) ∈ entries -> l !! i = Some b) ->
  (forall j b, j ∈ blursToCleanup (self st.1) -> l !! j = Some b ->
               type b <> TypeArea) ->
  forall j b,
    j ∈ blursToCleanup (self (foldl (restoreMark now) st entries).1) ->
    l !! j = Some b -> type b <> TypeArea.
Proof.
  revert st. induction entries as [| [i a] entries IH]; intros st Hl Hst;
    [done |].
  cbn [foldl]. apply IH.
  - intros i' b' Hin. apply Hl. by right.
  - intros j b Hj Hb.
    destruct (decide (type a = TypeArea)) as [Ha | Ha].
    + rewrite (restoreMark_area_self now st i a Ha) in Hj. by eapply Hst.
    + destruct (restoreMark_self now st i a) as [[Hs _] | [Hs _]];
        rewrite Hs in Hj; [by eapply Hst |].
      apply blursToCleanup_markBlurForCleanup in Hj as [-> | Hj];
        [| by eapply Hst].
      assert (Hia : l !! i = Some a) by (apply Hl; by left).
      congruence.
Qed.

(** X20: restoration never deletes a region mark: whatever the page
    looks like, every region mark of the store is still in the store after
    a pass (the region branch of the scan queues nothing for cleanup, not
    even a mark whose coordinates are invalid). *)
Theorem restoration_keeps_region_marks (now : Z) (p : Page) (b : BlurData) :
  blursToCleanup (self p) = [] ->
  b ∈ marks p -> type b = TypeArea ->
  b ∈ marks (applyExistingBlurs now p).1.
Proof.
  intros Hempty Hb Harea. unfold applyExistingBlurs.
  case_bool_decide as Hnil; [done |].
  set (entries := imap (fun i b => (i, b)) (marks p)).
  assert (Hinv : queueInvariant (length (marks p)) (scanMarks now p)).
  { apply scan_queue.
    - pose proof (imap_indices_lt (marks p) 0) as Hlt.
      eapply Forall_impl; [exact Hlt |]. by intros [i a].
    - unfold queueInvariant. cbn. rewrite Hempty. repeat split.
      + apply NoDup_nil_2.
      + intros Hi. by apply elem_of_nil in Hi.
      + intros Hi. by apply elem_of_nil in Hi.
      + intros i Hi. by apply elem_of_nil in Hi. }
  destruct Hinv as (Hnd & _ & _).
  assert (Hscan : marks (scanMarks now p).1 = marks p) by apply scan_marks.
  assert (Hno : forall j a,
             j ∈ blursToCleanup (self (scanMarks now p).1) ->
             marks p !! j = Some a -> type a <> TypeArea).
  { unfold scanMarks. apply scan_queues_no_region.
    - intros i a Hin. apply elem_of_lookup_imap in Hin
        as (i' & a' & [= -> ->] & Hl). done.
    - cbn. rewrite Hempty. intros j a Hj. by apply elem_of_nil in Hj. }
  destruct (scanMarks now p) as [p' log]. cbn [fst snd] in *.
  rewrite performBlurCleanup_marks, Hscan by done.
  apply list_elem_of_lookup in Hb as [i Hi].
  apply (keepUnqueuedFrom_lookup 0 _ _ i); [done |].
  intros Hq. by apply (Hno i b).
Qed.

Lemma filter_no_area doc cs :
  ~ hasArea doc cs ->
  List.filter
    (elementSatisfies
       (fun e => bool_decide (getAttribute "data-coords" e = Some cs)))
    (nodes doc) = [].
Proof.
  intros Hno.
  destruct (List.filter _ (nodes doc)) as [| m l] eqn:Hf; [done |].
  exfalso. apply Hno.
  assert (Hm : In m (List.filter
                       (elementSatisfies
                          (fun e => bool_decide
                                      (getAttribute "data-coords" e
                                       = Some cs)))
                       (nodes doc))) by (rewrite Hf; by left).
  apply filter_In in Hm as [Hin Hsat]. unfold elementSatisfies in Hsat.
  destruct (kind m) as [e |] eqn:Hk; [| done].
  apply bool_decide_eq_true in Hsat. exists m, e.
  split; [by apply list_elem_of_In |]. split; [| done].
  unfold asElement. by rewrite Hk.
Qed.

Lemma querySelector_area_hasArea doc cs u :
  querySelector doc (AttributeSelector "data-coords" cs) = Some (Some u) ->
  hasArea doc cs.
Proof.
  unfold querySelector, querySelectorAll. cbn.
  destruct (List.filter _ (nodes doc)) as [| m l] eqn:Hf; [done |].
  intros _.
  assert (Hm : In m (List.filter
                       (elementSatisfies
                          (fun e => bool_decide
                                      (getAttribute "data-coords" e
                                       = Some cs)))
                       (nodes doc))) by (rewrite Hf; by left).
  apply filter_In in Hm as [Hin Hsat]. unfold elementSatisfies in Hsat.
  destruct (kind m) as [e |] eqn:Hk; [| done].
  apply bool_decide_eq_true in Hsat. exists m, e.
  split; [by apply list_elem_of_In |]. split; [| done].
  unfold asElement. by rewrite Hk.
Qed.
End RegionFacts.

Lemma string_app_assoc (a b c : string) : a +:+ (b +:+ c) = (a +:+ b) +:+ c.
Proof.
  induction a as [| x a IH]; [done |].
  change (String x (a +:+ (b +:+ c)) = String x ((a +:+ b) +:+ c)).
  by rewrite IH.
Qed.

Lemma afterFirst_none stop s :
  allChars (fun c => negb (Ascii.eqb c stop)) s = true ->
  afterFirst stop s = None.
Proof.
  induction s as [| c r IH]; [done |]. intros Hs. simpl in Hs.
  apply andb_prop in Hs as [Hc Hr]. simpl.
  destruct (Ascii.eqb c stop); [done |]. by apply IH.
Qed.

Lemma pretty_Z_no_comma (z : Z) :
  allChars (fun c => negb (Ascii.eqb c ",")) (pretty z) = true.
Proof.
  apply allChars_pretty_Z; [| done].
  by apply (pretty_N_char_cases (fun c => negb (Ascii.eqb c ","))).
Qed.

Lemma afterFirst_comma (z : Z) (rest : string) :
  afterFirst "," (pretty z +:+ ("," +:+ rest)) = Some rest.
Proof.
  rewrite afterFirst_app by apply pretty_Z_no_comma.
  change ("," +:+ rest) with (String "," rest). done.
Qed.

(** The value of [data-coords] never equals the four-part value that the
    injected rule selects on. *)
Lemma coordsString_ne_rule (cx cy rx ry rw rh : Z) :
  coordsString cx cy
  <> coordsString rx ry +:+ "," +:+ pretty rw +:+ "," +:+ pretty rh.
Proof.
  unfold coordsString. intros Heq.
  rewrite <- !string_app_assoc in Heq.
  apply (f_equal (afterFirst ",")) in Heq.
  rewrite !afterFirst_comma in Heq. injection Heq as Heq.
  apply (f_equal (afterFirst ",")) in Heq.
  rewrite afterFirst_comma in Heq.
  by rewrite afterFirst_none in Heq by apply pretty_Z_no_comma.
Qed.

Lemma hasArea_appendToBody doc e v :
  hasArea (appendToBody doc e) v
  <-> hasArea doc v \/ getAttribute "data-coords" e = Some v.
Proof.
  unfold hasArea, appendToBody. cbn [nodes]. split.
  - intros (n & e' & Hn & He & Hv). apply elem_of_app in Hn as [Hn | Hn].
    + left. by exists n, e'.
    + right. apply list_elem_of_singleton in Hn as ->. cbn in He.
      by injection He as ->.
  - intros [(n & e' & Hn & He & Hv) | Hv].
    + exists n, e'. split; [apply elem_of_app; by left | done].
    + eexists _, e. split; [apply elem_of_app; right;
                            by apply list_elem_of_singleton |]. done.
Qed.

Section OverlayFacts.
Context `{Browser}.

Lemma getAttribute_blurAreaElement intensity c :
  getAttribute "data-coords" (blurAreaElement intensity c)
  = Some (coordsString (x c) (y c)).
Proof. apply getAttribute_setAttribute. Qed.

Lemma hasArea_recreateBlurArea intensity c doc v :
  hasArea (recreateBlurArea intensity c doc) v
  <-> hasArea doc v \/ v = coordsString (x c) (y c).
Proof.
  unfold recreateBlurArea. rewrite hasArea_appendToBody.
  unfold getAttribute at 1. cbn [attributes set_style createProperBlurOverlay].
  pose proof (getAttribute_setAttribute "data-coords"
                (coordsString (x c) (y c))
                (mkElement "div" "" [areaClass] [] [] "block" "visible"
                   HTMLElement)) as Hget.
  unfold getAttribute in Hget. rewrite Hget.
  split; (intros [Hhas | Heq]; [by left | right; congruence]).
Qed.

(** X21: the rule that [preInjectBlurCSS] writes for a region mark selects
    on [data-coords] with the four numbers [x,y,width,height], while every
    overlay carries the two numbers [x,y]: creating or recreating an overlay,
    for whatever region, never produces an element that the rule of any
    region mark matches. *)
Theorem injected_area_rule_matches_no_overlay (intensity : Z)
    (c c' : Coords) (sel : string) (stamp : Z) (doc : Document) :
  let ruleValue :=
    coordsString (x c) (y c) +:+ "," +:+ pretty (width c) +:+ ","
    +:+ pretty (height c) in
  ~ hasArea doc ruleValue ->
  injectedRule intensity (mkBlurData sel TypeArea (Some c) None stamp)
  = ("[data-coords=" +:+ doubleQuote +:+ ruleValue) +:+ doubleQuote
    +:+ "] { backdrop-filter: " +:+ blurFunction intensity
    +:+ " !important; -webkit-backdrop-filter: "
    +:+ blurFunction intensity +:+ " !important; }"
  /\ (forall i, ~ hasArea (recreateBlurArea i c' doc) ruleValue)
  /\ (forall i, ~ hasArea (appendToBody doc (blurAreaElement i c')) ruleValue).
Proof.
  intros ruleValue Hno. split; [| split].
  - unfold injectedRule. cbn [type coords]. subst ruleValue.
    by rewrite <- !string_app_assoc.
  - intros i Hhas. apply hasArea_recreateBlurArea in Hhas as [Hhas | Heq];
      [done |].
    symmetry in Heq. by apply coordsString_ne_rule in Heq.
  - intros i Hhas. apply hasArea_appendToBody in Hhas as [Hhas | Heq];
      [done |].
    rewrite getAttribute_blurAreaElement in Heq. injection Heq as Heq.
    by apply coordsString_ne_rule in Heq.
Qed.

Lemma hasArea_querySelector doc cs :
  hasArea doc cs ->
  exists u, querySelector doc (AttributeSelector "data-coords" cs)
            = Some (Some u).
Proof.
  intros Hhas. unfold querySelector, querySelectorAll. cbn.
  destruct (List.filter _ (nodes doc)) as [| m l] eqn:Hf;
    [| by eexists].
  exfalso. destruct Hhas as (n & e & Hn & He & Hv).
  assert (Hin : In n (List.filter
                        (elementSatisfies
                           (fun e => bool_decide
                                       (getAttribute "data-coords" e
                                        = Some cs)))
                        (nodes doc))).
  { apply filter_In. split; [by apply list_elem_of_In |].
    unfold elementSatisfies. unfold asElement in He.
    destruct (kind n); [| done]. injection He as ->.
    by apply bool_decide_eq_true. }
  by rewrite Hf in Hin.
Qed.

(** X22: region marks are told apart by their top-left corner only.
    Once a valid region mark has been handled by the scan, an overlay with
    its [x,y] exists, and a second region mark with the same corner,
    whatever its size, gets no overlay of its own: no element is added
    and nothing is logged as recreated. *)
Theorem same_corner_regions_share_overlay (c1 c2 : Coords)
    (st : Page * list RestoreEvent) :
  areValidCoordinates c1 = true ->
  x c2 = x c1 -> y c2 = y c1 ->
  let st1 := restoreAreaMark c1 st in
  let st2 := restoreAreaMark c2 st1 in
  hasArea (document st1.1) (coordsString (x c1) (y c1))
  /\ recreatedAreas st2.2 = recreatedAreas st1.2
  /\ length (nodes (document st2.1)) = length (nodes (document st1.1)).
Proof.
  intros Hvalid Hx Hy st1 st2.
  assert (H1 : hasArea (document st1.1) (coordsString (x c1) (y c1))).
  { subst st1. destruct st as [p log]. unfold restoreAreaMark.
    rewrite Hvalid. cbn [negb].
    destruct (querySelector _ _) as [[u |] |] eqn:Hq.
    - pose proof (querySelector_area_hasArea _ _ _ Hq) as Hhas.
      match goal with |- context [if ?c then _ else _] => destruct c end;
        [done |].
      cbn [fst document set_document].
      destruct (grows_updateElement (document p) u
                  (createProperBlurOverlay (blurIntensity (self p)))
                  (benign_createProperBlurOverlay _)) as (_ & G2 & _).
      by apply G2.
    - cbn [fst document set_document]. apply hasArea_recreateBlurArea.
      by right.
    - cbn [fst document set_document]. apply hasArea_recreateBlurArea.
      by right. }
  split; [done |].
  subst st2. destruct st1 as [p1 log1]. cbn [fst snd] in *.
  unfold restoreAreaMark. destruct (negb _); [done |].
  rewrite Hx, Hy.
  destruct (hasArea_querySelector _ _ H1) as [u ->].
  match goal with |- context [if ?c then _ else _] => destruct c end;
    [done |].
  cbn [fst snd document set_document]. split.
  - unfold recreatedAreas. by rewrite omap_app, app_nil_r.
  - unfold updateElement. cbn. by rewrite length_map.
Qed.
End OverlayFacts.

Lemma getElement_appendToBody_fresh doc e :
  getElement (appendToBody doc e) (freshUid doc) = Some e.
Proof.
  unfold getElement, getNode, appendToBody. cbn [nodes].
  rewrite find_app_None; [cbn; by rewrite Nat.eqb_refl |].
  destruct (List.find _ (nodes doc)) as [n |] eqn:Hfind; [| done].
  apply find_some in Hfind as [Hin Huid]. apply Nat.eqb_eq in Huid.
  apply list_elem_of_In, uid_lt_freshUid in Hin. lia.
Qed.

Lemma querySelectorAll_updateElement doc u f name v :
  (forall e, getAttribute name (f e) = getAttribute name e) ->
  querySelectorAll (updateElement doc u f) (AttributeSelector name v)
  = querySelectorAll doc (AttributeSelector name v).
Proof.
  intros Hf. unfold querySelectorAll, updateElement. cbn [nodes]. f_equal.
  induction (nodes doc) as [| n l IH]; [done |]. cbn [map List.filter].
  assert (Hsat : elementSatisfies
                   (fun e => bool_decide (getAttribute name e = Some v))
                   (updateNode u f n)
                 = elementSatisfies
                     (fun e => bool_decide (getAttribute name e = Some v)) n).
  { unfold elementSatisfies, updateNode.
    destruct (Nat.eqb (uid n) u); [| done].
    destruct (kind n) as [e |] eqn:Hk; cbn; [by rewrite Hf | by rewrite Hk]. }
  rewrite Hsat. destruct (elementSatisfies _ n); cbn;
    by rewrite ?uid_updateNode, IH.
Qed.

Section RetryFacts.
Context `{Browser}.

(** X23: a recreated overlay gets its blur only on the next pass.
    [recreateBlurArea] assigns [style.cssText] after the blur was set, which
    discards it: the overlay that the first handling of a region mark
    creates has no inline [backdrop-filter]; the second handling finds
    it, sets the blur and logs it; the third changes nothing. *)
Theorem recreated_overlay_blurred_on_retry (c : Coords) (p : Page) :
  areValidCoordinates c = true ->
  ~ hasArea (document p) (coordsString (x c) (y c)) ->
  getDeclaration "backdrop-filter" (parseStyleAttribute (areaCssText c))
  = None ->
  cssSupports "backdrop-filter" (blurFunction (blurIntensity (self p)))
  = true ->
  let overlay := freshUid (document p) in
  let st1 := restoreAreaMark c (p, []) in
  let st2 := restoreAreaMark c st1 in
  let st3 := restoreAreaMark c st2 in
  let backdrop (st : Page * list RestoreEvent) :=
    match getElement (document st.1) overlay with
    | Some e => getPropertyValue "backdrop-filter" (style e)
    | None => ""
    end in
  st1.2 = [RecreatedArea (coordsString (x c) (y c))]
  /\ backdrop st1 = ""
  /\ st2.2 = [RecreatedArea (coordsString (x c) (y c));
              BlurredExistingArea overlay]
  /\ backdrop st2 = blurFunction (blurIntensity (self p))
  /\ st3 = st2.
Proof.
  intros Hvalid Hno Hparse Hsup overlay st1 st2 st3 backdrop.
  set (cs := coordsString (x c) (y c)) in *.
  set (i := blurIntensity (self p)) in *.
  set (doc1 := recreateBlurArea i c (document p)).
  assert (E1 : st1 = (set_document doc1 p, [RecreatedArea cs])).
  { subst st1. unfold restoreAreaMark. rewrite Hvalid. cbn [negb].
    fold cs. unfold querySelector, querySelectorAll.
    by rewrite (filter_no_area _ _ Hno). }
  set (ov := set_style (parseStyleAttribute (areaCssText c))
               (createProperBlurOverlay i
                  (setAttribute "data-coords" cs
                     (mkElement "div" "" [areaClass] [] [] "block" "visible"
                        HTMLElement)))).
  assert (Hov : getElement doc1 overlay = Some ov)
    by apply getElement_appendToBody_fresh.
  assert (Hattr : getAttribute "data-coords" ov = Some cs).
  { pose proof (getAttribute_setAttribute "data-coords" cs
                  (mkElement "div" "" [areaClass] [] [] "block" "visible"
                     HTMLElement)) as Hget.
    unfold getAttribute in *. exact Hget. }
  assert (Hq1 : querySelector doc1 (AttributeSelector "data-coords" cs)
                = Some (Some overlay)).
  { unfold querySelector, querySelectorAll, doc1, recreateBlurArea,
      appendToBody. cbn [nodes].
    rewrite List.filter_app, (filter_no_area _ _ Hno). cbn [app List.filter].
    unfold elementSatisfies at 1. cbn [kind]. fold cs ov.
    by rewrite Hattr, bool_decide_true. }
  assert (Hback1 : getPropertyValue "backdrop-filter" (style ov) = "").
  { unfold getPropertyValue. cbn [style set_style ov]. by rewrite Hparse. }
  set (doc2 := updateElement doc1 overlay (createProperBlurOverlay i)).
  assert (E2 : st2 = (set_document doc2 (set_document doc1 p),
                      [RecreatedArea cs; BlurredExistingArea overlay])).
  { subst st2. rewrite E1. unfold restoreAreaMark. rewrite Hvalid.
    cbn [negb document set_document self set_self]. fold cs.
    rewrite Hq1, Hov, Hback1. done. }
  assert (Hov2 : getElement doc2 overlay
                 = Some (createProperBlurOverlay i ov))
    by (unfold doc2; by rewrite getElement_updateElement, Hov).
  assert (Hne : blurFunction i <> "").
  { intros Heq. pose proof (blurFunction_includes_blur i) as Hinc.
    rewrite Heq in Hinc. done. }
  assert (Hback2 : getPropertyValue "backdrop-filter"
                     (style (createProperBlurOverlay i ov))
                   = blurFunction i).
  { unfold getPropertyValue, createProperBlurOverlay. cbn [style set_style].
    rewrite !getDeclaration_setProperty_ne by done.
    by rewrite getDeclaration_setProperty. }
  assert (Hq2 : querySelector doc2 (AttributeSelector "data-coords" cs)
                = Some (Some overlay)).
  { unfold querySelector, doc2.
    rewrite querySelectorAll_updateElement; [exact Hq1 |]. by intros e. }
  split; [by rewrite E1 |]. split.
  { subst backdrop. cbn beta. rewrite E1. cbn [fst document set_document].
    by rewrite Hov. }
  split; [by rewrite E2 |]. split.
  { subst backdrop. cbn beta. rewrite E2. cbn [fst document set_document].
    by rewrite Hov2. }
  subst st3. rewrite E2. unfold restoreAreaMark. rewrite Hvalid.
  cbn [negb document set_document self set_self]. fold cs.
  rewrite Hq2, Hov2, Hback2. fold i.
  by rewrite blurFunction_includes_blur.
Qed.
End RetryFacts.

(** ** Intensity update *)

Lemma getElement_forEachWithClass c f doc u :
  getElement (forEachWithClass c f doc) u
  = (fun e => if contains c e then f e else e) <$> getElement doc u.
Proof.
  unfold getElement, getNode, forEachWithClass. cbn [nodes].
  induction (nodes doc) as [| n l IH]; [done |]. cbn [map List.find].
  assert (Huid : uid (match kind n with
                      | ElementNode e =>
                          if contains c e
                          then mkNode (uid n) (parentNode n) (ElementNode (f e))
                          else n
                      | TextNode _ => n
                      end) = uid n).
  { destruct (kind n) as [e |]; [| done]. by destruct (contains c e). }
  rewrite Huid. destruct (Nat.eqb (uid n) u); [| exact IH].
  unfold asElement. destruct (kind n) as [e |] eqn:Hk; cbn.
  - destruct (contains c e); cbn; by rewrite ?Hk.
  - by rewrite Hk.
Qed.

Section IntensityFacts.
Context `{Browser}.

Lemma updateArea_keeps intensity e :
  classList (updateArea intensity e) = classList e
  /\ tagName (updateArea intensity e) = tagName e
  /\ id (updateArea intensity e) = id e
  /\ getAttribute "data-coords" (updateArea intensity e)
     = getAttribute "data-coords" e.
Proof.
  unfold updateArea. destruct (hasAttribute "data-original-backdrop" e) eqn:Hh.
  - split; [| split; [| split]];
      try (unfold setAttribute; rewrite Hh; done).
    by apply getAttribute_setAttribute_ne.
  - done.
Qed.

(** X24: an intensity update touches no mark.  Every element keeps its
    classes, tag, id and [data-coords]; a text container ends with the one
    blur function of the new intensity as its inline filter; and a marked
    element that is neither overlay nor text container and whose inline
    filter was one blur function has that function replaced by the new
    one. *)
Theorem performBlurIntensityUpdate_keeps_marks (intensity previous : Z)
    (doc : Document) (u : nat) (e : Element) :
  cssSupports "filter" (blurFunction intensity) = true ->
  getElement doc u = Some e ->
  exists e',
    getElement (performBlurIntensityUpdate intensity doc) u = Some e'
    /\ classList e' = classList e /\ tagName e' = tagName e /\ id e' = id e
    /\ getAttribute "data-coords" e' = getAttribute "data-coords" e
    /\ (contains textMarkerClass e = true ->
        getPropertyValue "filter" (style e') = blurFunction intensity)
    /\ (contains markerClass e = true ->
        contains areaClass e = false ->
        contains textMarkerClass e = false ->
        getPropertyValue "filter" (style e) = blurFunction previous ->
        getPropertyValue "filter" (style e') = blurFunction intensity).
Proof.
  intros Hsup He. unfold performBlurIntensityUpdate.
  rewrite !getElement_forEachWithClass, He.
  cbn [fmap option_fmap option_map]. eexists. split; [done |].
  assert (Hne : blurFunction intensity <> "").
  { intros Heq. pose proof (blurFunction_includes_blur intensity) as Hinc.
    rewrite Heq in Hinc. done. }
  assert (Hfilter : forall x,
             getPropertyValue "filter"
               (style (setFilter (blurFunction intensity) x))
             = blurFunction intensity).
  { intros x. unfold getPropertyValue, setFilter. cbn [style set_style].
    by rewrite getDeclaration_setProperty. }
  set (e1 := if contains markerClass e
             then updateMarkedElement intensity e else e).
  assert (H1 : classList e1 = classList e /\ tagName e1 = tagName e
               /\ id e1 = id e
               /\ getAttribute "data-coords" e1 = getAttribute "data-coords" e)
    by (subst e1; by destruct (contains markerClass e)).
  destruct H1 as (Hc1 & Ht1 & Hi1 & Ha1).
  set (e2 := if contains areaClass e1 then updateArea intensity e1 else e1).
  assert (H2 : classList e2 = classList e /\ tagName e2 = tagName e
               /\ id e2 = id e
               /\ getAttribute "data-coords" e2 = getAttribute "data-coords" e).
  { subst e2. destruct (contains areaClass e1); [| done].
    destruct (updateArea_keeps intensity e1) as (-> & -> & -> & ->). done. }
  destruct H2 as (Hc2 & Ht2 & Hi2 & Ha2).
  assert (Hcont : forall cls x, classList x = classList e ->
                                contains cls x = contains cls e)
    by (intros cls x Hx; unfold contains; by rewrite Hx).
  rewrite (Hcont textMarkerClass e2 Hc2).
  destruct (contains textMarkerClass e) eqn:Htext.
  - split; [done |]. split; [done |]. split; [done |]. split; [done |].
    split; [intros _; apply Hfilter | done].
  - split; [done |]. split; [done |]. split; [done |]. split; [done |].
    split; [done |]. intros Hmark Harea _ Hprev.
    subst e2. rewrite (Hcont areaClass e1 Hc1), Harea.
    subst e1. rewrite Hmark. unfold updateMarkedElement. rewrite Hprev.
    rewrite replaceBlurFunctions_blurFunction. apply Hfilter.
Qed.
End IntensityFacts.

(** ** The theorems at concrete inputs *)

Lemma removeBlurFromElement_leaves_no_residue_witness :
  exists e',
    getElement
      (@removeBlurFromElement referenceBrowser
         (@applyRepeatedly referenceBrowser [10; 5; 10]%Z headingDocument 3) 3)
      3 = Some e'
    /\ classList e' = ["title"]
    /\ attributes e' = [("lang", "en")]
    /\ style e'
       = [mkDeclaration "color" "red" false;
          mkDeclaration "filter" "none" true;
          mkDeclaration "backdrop-filter" "none" true;
          mkDeclaration "opacity" "1" true]
    /\ (forall injected, cascadedFilter injected e' = "none").
Proof.
  destruct (@removeBlurFromElement_leaves_no_residue referenceBrowser
              headingDocument 3
              (mkElement "h1" "" ["title"] [("lang", "en")]
                 [mkDeclaration "color" "red" false] "block" "visible"
                 HTMLElement)
              [10; 5; 10]%Z eq_refl eq_refl eq_refl eq_refl)
    as (e' & He & _ & Hc & Ha & _ & _ & _ & _ & _ & _ & _ & Hcas & Hs & _).
  exists e'. split; [exact He |]. split; [exact Hc |]. split; [exact Ha |].
  split; [exact (Hs eq_refl) | exact Hcas].
Defined.

Lemma region_minimum_size_boundary_witness :
  let ev := mkMouseEvent 60 60 false in
  let layout := mkLayout (mkRect 50 50 10 10) 0 0 in
  let p' := @handleMouseUp referenceBrowser layout 1700 "2024-01-01" ev
              drawingPage in
  marks p'
  = [mkBlurData (@areaSelector (mkCoords 50 50 10 10)) TypeArea
       (Some (mkCoords 50 50 10 10)) None 1700]
  /\ drawingOverlay (self p') = None /\ startCoords (self p') = None.
Proof.
  intros ev layout p'.
  destruct (@region_minimum_size_boundary referenceBrowser layout 1700
              "2024-01-01" ev drawingPage 50 50 (mkOverlay None)
              eq_refl eq_refl eq_refl eq_refl) as [Hcommit _].
  exact (Hcommit eq_refl eq_refl).
Defined.

Lemma marks_kind_determines_fields_witness :
  Forall (fun b => kindDeterminesFields b
                   /\ ~ (is_Some (coords b) /\ is_Some (text b)))
    (marks
       (foldl (@gestureStep referenceBrowser) drawingPage
          [GestureMouseMove (mkMouseEvent 70 80 false);
           GestureMouseUp (mkLayout (mkRect 50 50 20 30) 0 0) 1700
             "2024-01-01" (mkMouseEvent 70 80 false);
           GestureClick 3 1701 "abc" "2024-01-01"])).
Proof.
  apply (@marks_kind_determines_fields referenceBrowser drawingPage).
  apply Forall_nil_2.
Defined.

(** A page whose store holds a mark for an element that is gone and one
    for the heading. *)
Lemma restoration_pass_cleanup_witness :
  let p := setMarks [sampleMark "aside" 1; sampleMark "h1" 2]
             (freshPage "https://example.org/a" headingDocument) in
  let p' := (@applyExistingBlurs referenceBrowser 1700 p).1 in
  marks p' = [sampleMark "h1" 2]
  /\ blursToCleanup (self p') = []
  /\ loadBlurDataLocally p' = [sampleMark "h1" 2].
Proof.
  intros p p'.
  destruct (@restoration_pass_cleanup referenceBrowser 1700 p
              ltac:(discriminate) eq_refl)
    as (_ & _ & _ & _ & _ & _ & _ & Hmarks & Hqueue & Hsaved).
  split; [exact Hmarks |]. split; [exact Hqueue |].
  destruct (Hsaved ltac:(discriminate)) as [Hlocal _].
  exact Hlocal.
Defined.



Lemma exclusive_operations_keep_one_mode_witness :
  activeModes
    (runModeOps enabledSession
       (take 2 [OpToolbarClick ToolbarDrawMode; OpKeyDown Escape;
                OpSetExclusiveMode ModeText])) <= 1.
Proof.
  apply exclusive_operations_keep_one_mode; [reflexivity | cbn; lia].
Defined.


Lemma text_listeners_accumulate_witness :
  textListeners enabledSession
  <= textListeners (runModeOps enabledSession [OpKeyDown Escape])
  /\ textListeners (runModeOps enabledSession (textModeToggles 3))
     = textListeners enabledSession + 2 * 3
  /\ isTextSelectionMode (runModeOps enabledSession (textModeToggles 3))
     = false.
Proof.
  apply (text_listeners_accumulate enabledSession [OpKeyDown Escape] 3);
    reflexivity.
Defined.

Lemma free_tier_daily_quota_witness :
  let st' := Nat.iter 10
               (FreemiumService.incrementDailyBlurCount "2026-03-01")
               freeTier in
  (FreemiumService.canAddBlur false "2026-03-01" st').1 = false
  /\ (FreemiumService.canAddBlur false "2026-03-02" st').1 = true
  /\ (FreemiumService.canAddBlur true "2026-03-01" st').1 = true.
Proof.
  intros st'.
  destruct (free_tier_daily_quota "2026-03-01" "2026-03-02" 10 freeTier
              eq_refl eq_refl) as (Htoday & Hnext & Huser & _).
  split; [exact Htoday |].
  split; [apply Hnext; [lia | discriminate] | exact Huser].
Defined.

Lemma invalid_context_never_limits_witness :
  (FreemiumService.canAddBlur false "2026-03-01"
     (Nat.iter 25 (FreemiumService.incrementDailyBlurCount "2026-03-01")
        (FreemiumService.mkState FreemiumService.Free None None false))).1
  = true.
Proof.
  apply (invalid_context_never_limits false "2026-03-01" 25
           (FreemiumService.mkState FreemiumService.Free None None false)).
  reflexivity.
Defined.

Lemma background_store_keyed_by_url_witness :
  Background.getBlurData "https://example.org/a"
    (Background.saveBlurData (Some "https://example.org/a")
       [sampleMark "h1" 1] ∅)
  = [sampleMark "h1" 1].
Proof.
  apply (background_store_keyed_by_url "https://example.org/a"
           "https://example.org/b" [sampleMark "h1" 1] ∅); discriminate.
Defined.

Lemma sync_service_round_trip_witness :
  let url := "https://example.org/a" in
  let docs' := <[@SyncService.getUrlKey referenceBrowser url
                 := [sampleMark "h1" 1]]> (∅ : gmap string (list BlurData)) in
  @SyncService.loadBlurData referenceBrowser true url (Some docs')
  = [sampleMark "h1" 1].
Proof.
  intros url docs'.
  apply (@sync_service_round_trip referenceBrowser url [sampleMark "h1" 1]
           true ∅ docs' eq_refl).
Defined.


Lemma generateSelector_round_trip_unique_id_witness :
  let r := generateSelector mainDocument 3 1700 "abc" in
  querySelector r.2 r.1 = Some (Some 3).
Proof.
  apply (generateSelector_round_trip_unique_id mainDocument 3
           (plainElement "div" "main") 1700 "abc"); [reflexivity | | |].
  - intros _ m e' Hm He' Hid.
    repeat (apply elem_of_cons in Hm as [-> | Hm]);
      [| | | | by apply elem_of_nil in Hm];
      injection He' as <-; first [discriminate Hid | reflexivity].
  - intros m e' Hm He'.
    repeat (apply elem_of_cons in Hm as [-> | Hm]);
      [| | | | by apply elem_of_nil in Hm];
      injection He' as <-; discriminate.
  - intros m e' Hm He'.
    repeat (apply elem_of_cons in Hm as [-> | Hm]);
      [| | | | by apply elem_of_nil in Hm];
      injection He' as <-; discriminate.
Defined.

Lemma applyBlurToElement_marks_iff_eligible_witness :
  let r := @applyBlurToElement referenceBrowser 5 headingDocument 3 in
  r.2 = true /\ hasMarkerClass r.1 3 = true.
Proof.
  intros r.
  destruct (@applyBlurToElement_marks_iff_eligible referenceBrowser 5
              headingDocument 3 _ eq_refl) as [Hok _].
  split; [exact Hok | reflexivity].
Defined.

Lemma region_size_limit_by_tier_witness :
  let ev := mkMouseEvent 300 70 false in
  let layout := mkLayout (mkRect 50 50 250 20) 0 0 in
  let p' := @handleMouseUp referenceBrowser layout 1700 "2026-03-01" ev
              drawingPage in
  let p'' := @handleMouseUp referenceBrowser layout 1700 "2026-03-01" ev
               (withFirebaseUser drawingPage) in
  (marks p' = marks drawingPage /\ document p' = document drawingPage
   /\ freemium p' = freemium drawingPage
   /\ notifications p'
      = notifications drawingPage ++ ["upgrade: rectangle-size"]
   /\ drawingOverlay (self p') = None /\ startCoords (self p') = None)
  /\ length (marks p'') = 1
  /\ FreemiumService.currentTier (freemium p'') = FreemiumService.Premium.
Proof.
  intros ev layout p' p''.
  destruct (@region_size_limit_by_tier referenceBrowser layout 1700
              "2026-03-01" ev drawingPage 50 50 (mkOverlay None)
              eq_refl eq_refl eq_refl eq_refl
              ltac:(cbn; lia) ltac:(cbn; lia)) as [Hfree _].
  destruct (@region_size_limit_by_tier referenceBrowser layout 1700
              "2026-03-01" ev (withFirebaseUser drawingPage) 50 50
              (mkOverlay None) eq_refl eq_refl eq_refl eq_refl
              ltac:(cbn; lia) ltac:(cbn; lia)) as [_ Huser].
  split; [apply Hfree; [reflexivity | reflexivity | left; cbn; lia] |].
  destruct (Huser (or_intror eq_refl)) as [Hmarks Htier].
  split; [| exact Htier]. fold p'' in Hmarks. by rewrite Hmarks.
Defined.

Lemma free_tier_gestures_respect_quota_witness :
  let p' := foldl (@gestureStep referenceBrowser) drawingPage
              [GestureMouseUp (mkLayout (mkRect 50 50 20 30) 0 0) 1700
                 "2026-03-01" (mkMouseEvent 70 80 false);
               GestureClick 3 1701 "abc" "2026-03-01"] in
  FreemiumService.currentTier (freemium p') = FreemiumService.Free
  /\ forall u, FreemiumService.stored (freemium p') = Some u ->
               (FreemiumService.blurCount u <= 10)%Z.
Proof.
  apply (@free_tier_gestures_respect_quota referenceBrowser);
    [reflexivity | reflexivity | reflexivity | discriminate].
Defined.

Lemma added_marks_are_not_persisted_witness :
  let g := GestureMouseUp (mkLayout (mkRect 50 50 20 30) 0 0) 1700
             "2026-03-01" (mkMouseEvent 70 80 false) in
  let p' := @gestureStep referenceBrowser drawingPage g in
  length (marks p') = 1
  /\ localStorage p' = localStorage drawingPage
  /\ extensionStorage p' = extensionStorage drawingPage
  /\ firestore p' = firestore drawingPage.
Proof.
  intros g p'. split; [reflexivity |].
  apply (@added_marks_are_not_persisted referenceBrowser g drawingPage).
  vm_compute. constructor.
Defined.

Lemma restoration_keeps_region_marks_witness :
  let b := regionMark (mkCoords (-5) 20 100 50) 2 in
  let p := setMarks [sampleMark "aside" 1; b]
             (freshPage "https://example.org/a" headingDocument) in
  b ∈ marks (@applyExistingBlurs referenceBrowser 1700 p).1.
Proof.
  intros b p.
  apply (@restoration_keeps_region_marks referenceBrowser 1700 p b);
    [reflexivity | | reflexivity].
  right. left.
Defined.

Lemma injected_area_rule_matches_no_overlay_witness :
  let c := mkCoords 10 20 100 50 in
  @injectedRule 8 (regionMark c 2)
  = "[data-coords=" +:+ doubleQuote +:+ "10,20,100,50" +:+ doubleQuote
    +:+ "] { backdrop-filter: blur(8px) !important; "
    +:+ "-webkit-backdrop-filter: blur(8px) !important; }".
Proof.
  intros c.
  destruct (@injected_area_rule_matches_no_overlay referenceBrowser 8 c c
              (areaSelector c) 2 headingDocument) as [Hrule _];
    [| exact Hrule].
  intros (n & e & Hn & He & Hv).
  repeat (apply elem_of_cons in Hn as [-> | Hn]);
    [| | | by apply elem_of_nil in Hn];
    injection He as <-; discriminate Hv.
Defined.

Lemma same_corner_regions_share_overlay_witness :
  let c1 := mkCoords 10 20 100 50 in
  let c2 := mkCoords 10 20 30 30 in
  let st1 := @restoreAreaMark referenceBrowser c1
               (freshPage "https://example.org/a" headingDocument, []) in
  let st2 := @restoreAreaMark referenceBrowser c2 st1 in
  hasArea (document st1.1) "10,20"
  /\ recreatedAreas st2.2 = ["10,20"]
  /\ length (nodes (document st2.1)) = 4.
Proof.
  intros c1 c2 st1 st2.
  exact (@same_corner_regions_share_overlay referenceBrowser c1 c2
           (freshPage "https://example.org/a" headingDocument, [])
           eq_refl eq_refl eq_refl).
Defined.

Lemma recreated_overlay_blurred_on_retry_witness :
  let c := mkCoords 10 20 100 50 in
  let p := freshPage "https://example.org/a" headingDocument in
  let st1 := @restoreAreaMark referenceBrowser c (p, []) in
  let st2 := @restoreAreaMark referenceBrowser c st1 in
  let st3 := @restoreAreaMark referenceBrowser c st2 in
  st1.2 = [RecreatedArea "10,20"]
  /\ st2.2 = [RecreatedArea "10,20"; BlurredExistingArea 4]
  /\ st3 = st2.
Proof.
  intros c p st1 st2 st3.
  destruct (@recreated_overlay_blurred_on_retry referenceBrowser c p)
    as (H1 & _ & H2 & _ & H3); [reflexivity | | reflexivity | reflexivity |].
  - intros (n & e & Hn & He & Hv).
    repeat (apply elem_of_cons in Hn as [-> | Hn]);
      [| | | by apply elem_of_nil in Hn];
      injection He as <-; discriminate Hv.
  - split; [exact H1 |]. split; [exact H2 | exact H3].
Defined.

Lemma performBlurIntensityUpdate_keeps_marks_witness :
  let doc := (@applyBlurToElement referenceBrowser 5 headingDocument 3).1 in
  exists e',
    getElement (@performBlurIntensityUpdate referenceBrowser 8 doc) 3
    = Some e'
    /\ classList e' = ["title"; markerClass]
    /\ getPropertyValue "filter" (style e') = blurFunction 8.
Proof.
  intros doc.
  set (e := match getElement doc 3 with
            | Some e => e
            | None => plainElement "" ""
            end).
  destruct (@performBlurIntensityUpdate_keeps_marks referenceBrowser 8 5
              doc 3 e eq_refl eq_refl)
    as (e' & He' & Hcls & _ & _ & _ & _ & Hfilter).
  exists e'. split; [exact He' |]. split; [exact Hcls |].
  apply Hfilter; reflexivity.
Defined.
